(** * FileStore bot: a shallow embedding of the enhanced Cloudflare worker

    The development follows the source file class by class: [Utils],
    [TelegramAPI], [Database], [Analytics], [SessionManager], [FileManager],
    [CommandHandler], [TelegramBot] and the exported [fetch] handler.

    Conventions.
    - A JavaScript string is a [string] of 8-bit code units (the Latin-1 range
      of UTF-16); message literals that contain emoji are carried as their
      UTF-8 bytes and are never inspected.
    - A JavaScript number that holds an integer is a [Z]; this agrees with
      IEEE doubles below 2^53.
    - An [async] function is a computation in the monad [M]: it threads the
      world (KV namespace, log of Telegram API calls, clock, random source)
      and either returns a value or throws.  [await] is sequencing.
    - Telegram objects are records that carry the fields the bot reads.
      The text, the caption, the attachments, the replied-to message and a
      callback's data are [option]s; the sender of a message and the
      message a callback query comes from are taken as present, as they
      are in private and group chats.
    - The KV namespace is reliable: its operations do not fail. *)

From Stdlib Require Import ZArith String Ascii List Lia DecimalString Permutation Sorted.
From stdpp Require Import gmap strings list fin_maps.

Local Open Scope string_scope.
Local Open Scope list_scope.
Local Open Scope Z_scope.

(** ** JavaScript string primitives *)

(** [WhiteSpace] and [LineTerminator] code units below 256: TAB, LF, VT, FF,
    CR, SP and NBSP.  This is the class of [\s], of [trim] and of the prefix
    [parseInt] skips. *)
Definition is_space (c : ascii) : bool :=
  let n := nat_of_ascii c in
  ((9 <=? n)%nat && (n <=? 13)%nat) || (n =? 32)%nat || (n =? 160)%nat.

(** [.] of a regular expression without the [s] flag: anything but LF and CR
    (the other line terminators lie above 255). *)
Definition is_line_terminator (c : ascii) : bool :=
  let n := nat_of_ascii c in (n =? 10)%nat || (n =? 13)%nat.

(** [\w] and the class [[a-zA-Z0-9_]]. *)
Definition is_word (c : ascii) : bool :=
  let n := nat_of_ascii c in
  ((48 <=? n)%nat && (n <=? 57)%nat) || ((65 <=? n)%nat && (n <=? 90)%nat)
  || ((97 <=? n)%nat && (n <=? 122)%nat) || (n =? 95)%nat.

Definition lower_char (c : ascii) : ascii :=
  let n := nat_of_ascii c in
  if ((65 <=? n)%nat && (n <=? 90)%nat)
     || ((192 <=? n)%nat && (n <=? 222)%nat && negb (n =? 215)%nat)
  then ascii_of_nat (n + 32) else c.

Fixpoint toLowerCase (s : string) : string :=
  match s with
  | EmptyString => EmptyString
  | String c r => String (lower_char c) (toLowerCase r)
  end.

Fixpoint trimStart (s : string) : string :=
  match s with
  | String c r => if is_space c then trimStart r else s
  | EmptyString => EmptyString
  end.

(** [trimEnd] keeps a character when it is not a space or when something
    that is kept follows it. *)
Fixpoint trimEnd (s : string) : string :=
  match s with
  | EmptyString => EmptyString
  | String c r =>
      match trimEnd r with
      | EmptyString => if is_space c then EmptyString else String c EmptyString
      | r' => String c r'
      end
  end.

Definition trim (s : string) : string := trimEnd (trimStart s).

(** [s.startsWith(p)] that also hands back the rest of [s]. *)
Fixpoint strip_prefix (p s : string) : option string :=
  match p, s with
  | EmptyString, _ => Some s
  | String a p', String b s' => if Ascii.eqb a b then strip_prefix p' s' else None
  | String _ _, EmptyString => None
  end.

Definition startsWith (s p : string) : bool :=
  match strip_prefix p s with Some _ => true | None => false end.

(** [s.includes(sub)] *)
Fixpoint includes (s sub : string) : bool :=
  startsWith s sub ||
  match s with
  | EmptyString => false
  | String _ r => includes r sub
  end.

(** [s.split(':')]: the pieces between colons; never empty. *)
Fixpoint split_colon (s : string) : list string :=
  match s with
  | EmptyString => [EmptyString]
  | String c r =>
      if Ascii.eqb c ":" then EmptyString :: split_colon r
      else match split_colon r with
           | p :: ps => String c p :: ps
           | [] => [String c EmptyString]
           end
  end.

(** [Number.MAX_SAFE_INTEGER]: up to it in magnitude a JavaScript number
    holds every integer exactly, and [String], [parseInt] and the
    arithmetic of the code are those of [Z].  Beyond it the code's number
    is the nearest double: a statement about a number that a client can
    choose carries this bound. *)
Definition MAX_SAFE_INTEGER : Z := 9007199254740991.

(** [String(n)] and [n.toString()] of an integer up to
    [MAX_SAFE_INTEGER] in magnitude: its decimal numeral. *)
Definition js_String (n : Z) : string := NilZero.string_of_int (Z.to_int n).

(** A truthy string is a non-empty one. *)
Definition truthy_str (s : string) : bool :=
  match s with EmptyString => false | _ => true end.

(** [a || b] on strings. *)
Definition str_or (a b : string) : string := if truthy_str a then a else b.

(** *** [parseInt] with no radix argument

    The integer read is exact; the code's is the nearest double, the same
    number up to [MAX_SAFE_INTEGER] in magnitude. *)

Definition digit_val (radix : Z) (c : ascii) : option Z :=
  let n := Z.of_nat (nat_of_ascii c) in
  let v := if (48 <=? n) && (n <=? 57) then Some (n - 48)
           else if (97 <=? n) && (n <=? 122) then Some (n - 87)
           else if (65 <=? n) && (n <=? 90) then Some (n - 55)
           else None in
  match v with
  | Some d => if d <? radix then Some d else None
  | None => None
  end.

(** The longest prefix of digits, read left to right; [None] when there is
    no digit at all ([NaN]). *)
Fixpoint read_digits (radix : Z) (acc : option Z) (s : string) : option Z :=
  match s with
  | EmptyString => acc
  | String c r =>
      match digit_val radix c with
      | Some d => read_digits radix (Some (radix * default 0 acc + d)) r
      | None => acc
      end
  end.

Definition parseInt (s : string) : option Z :=
  let s := trimStart s in
  let '(sign, s) :=
    match s with
    | String "-" r => (-1, r)
    | String "+" r => (1, r)
    | _ => (1, s)
    end in
  let '(radix, s) :=
    match s with
    | String "0" (String "x" r) => (16, r)
    | String "0" (String "X" r) => (16, r)
    | _ => (10, s)
    end in
  match read_digits radix None s with
  | Some n => Some (sign * n)
  | None => None
  end.

(** *** Arrays *)

(** [a.slice(start, end)], negative positions counted from the end. *)
Definition js_slice {A} (start stop : Z) (l : list A) : list A :=
  let len := Z.of_nat (length l) in
  let k := if start <? 0 then Z.max (len + start) 0 else Z.min start len in
  let final := if stop <? 0 then Z.max (len + stop) 0 else Z.min stop len in
  firstn (Z.to_nat (final - k)) (skipn (Z.to_nat k) l).

(** [a.sort(compareFn)].  The standard requires a stable sort, so for a
    consistent comparison the result is determined; it is computed here by
    insertion from the right: an element moves past exactly the elements
    that must precede it ([compareFn] positive). *)
Fixpoint sort_insert {A} (cmp : A → A → Z) (x : A) (l : list A) : list A :=
  match l with
  | [] => [x]
  | y :: r => if 0 <? cmp x y then y :: sort_insert cmp x r else x :: l
  end.

Definition js_sort {A} (cmp : A → A → Z) (l : list A) : list A :=
  foldr (sort_insert cmp) [] l.

(** [Math.ceil(a / b)] for a count [a] and a positive [b]. *)
Definition ceil_div (a b : Z) : Z := (a + b - 1) / b.


(** A value that may be [undefined]: as a template-literal hole it prints
    [undefined]. *)
Definition tpl (s : option string) : string := default "undefined" s.

(** ** Configuration ([CONFIG]) *)

Record Config := {
  BOT_TOKEN : string;
  ADMIN_IDS : list string;
  BOT_USERNAME : string;
  MAX_FILE_SIZE_MB : Z;
  ANALYTICS_ENABLED : bool;
  DEBUG_MODE : bool
}.

(** ** Stored documents *)

(** What [extractFileData] returns and [saveFile] spreads into a record. *)
Record FileData := {
  file_id : string;
  file_type : string;
  file_unique_id : string;
  file_size : option Z;
  caption : string;
  mime_type : option string;
  width : option Z;
  height : option Z;
  duration : option Z;
  performer : option string;
  title : option string
}.

(** The object [saveFile] writes under [file:<id>].  [fileData] is [None]
    when an [undefined] value was spread, which contributes no field. *)
Record FileRecord := {
  id : string;
  fileData : option FileData;
  savedBy : string;
  category : string;
  createdAt : Z;
  accessCount : Z;
  lastAccessed : option Z
}.

(** The [data] object of a session: the keys the handlers store in it. *)
Record SessionData := {
  messageId : option Z;
  pendingFile : option FileData;   (* key [fileData] *)
  fileId : option string
}.

Definition no_data : SessionData :=
  {| messageId := None; pendingFile := None; fileId := None |}.

Record Session := {
  userId : string;
  state : string;
  data : SessionData;
  s_createdAt : Z;                 (* key [createdAt] *)
  lastActive : Z
}.

Record UserStat := {
  firstSeen : Z;
  u_actions : Z;                   (* key [actions] *)
  lastSeen : option Z
}.

Record DayStat := {
  d_users : gmap string Z;
  d_actions : gmap string Z
}.

Record Stats := {
  users : gmap string UserStat;
  actions : gmap string Z;
  dailyStats : gmap string DayStat
}.

Definition empty_stats : Stats :=
  {| users := ∅; actions := ∅; dailyStats := ∅ |}.

(** ** The KV namespace

    Every key the program builds is one of five literal prefixes followed by
    an identifier, and each prefix is only ever written with one shape of
    document.  The namespace is therefore kept as one finite map per
    prefix, and a key is typed by the document it addresses; [key_name]
    gives the string the source builds. *)
Record store := {
  files : gmap string FileRecord;
  userFiles : gmap string (list string);
  categories : gmap string (list string);
  sessions : gmap string Session;
  stats : option Stats
}.

Definition filePrefix : string := "file:".
Definition userFilesPrefix : string := "user:files:".
Definition categoryPrefix : string := "category:".
Definition sessionPrefix : string := "session:".
Definition statsKey : string := "bot:stats".

Inductive key : Type → Type :=
| FileKey (fileId : string) : key FileRecord
| UserFilesKey (userId : string) : key (list string)
| CategoryKey (category : string) : key (list string)
| SessionKey (userId : string) : key Session
| StatsKey : key Stats.

Definition key_name {V} (k : key V) : string :=
  match k with
  | FileKey i => filePrefix +:+ i
  | UserFilesKey u => userFilesPrefix +:+ u
  | CategoryKey c => categoryPrefix +:+ c
  | SessionKey u => sessionPrefix +:+ u
  | StatsKey => statsKey
  end.

(** The prefix and the identifier of a key, without its type. *)
Inductive prefix := OfFile | OfUserFiles | OfCategory | OfSession | OfStats.

Definition key_prefix {V} (k : key V) : prefix :=
  match k with
  | FileKey _ => OfFile
  | UserFilesKey _ => OfUserFiles
  | CategoryKey _ => OfCategory
  | SessionKey _ => OfSession
  | StatsKey => OfStats
  end.

Definition key_ident {V} (k : key V) : string :=
  match k with
  | FileKey i | UserFilesKey i | CategoryKey i | SessionKey i => i
  | StatsKey => EmptyString
  end.

Definition kv_get {V} (k : key V) : store → option V :=
  match k in key V return store → option V with
  | FileKey i => λ s, files s !! i
  | UserFilesKey u => λ s, userFiles s !! u
  | CategoryKey c => λ s, categories s !! c
  | SessionKey u => λ s, sessions s !! u
  | StatsKey => λ s, stats s
  end.

Definition kv_put {V} (k : key V) : V → store → store :=
  match k in key V return V → store → store with
  | FileKey i => λ v s,
      {| files := <[i := v]> (files s); userFiles := userFiles s;
         categories := categories s; sessions := sessions s; stats := stats s |}
  | UserFilesKey u => λ v s,
      {| files := files s; userFiles := <[u := v]> (userFiles s);
         categories := categories s; sessions := sessions s; stats := stats s |}
  | CategoryKey c => λ v s,
      {| files := files s; userFiles := userFiles s;
         categories := <[c := v]> (categories s); sessions := sessions s;
         stats := stats s |}
  | SessionKey u => λ v s,
      {| files := files s; userFiles := userFiles s;
         categories := categories s; sessions := <[u := v]> (sessions s);
         stats := stats s |}
  | StatsKey => λ v s,
      {| files := files s; userFiles := userFiles s;
         categories := categories s; sessions := sessions s; stats := Some v |}
  end.

Definition kv_delete {V} (k : key V) (s : store) : store :=
  match k with
  | FileKey i =>
      {| files := delete i (files s); userFiles := userFiles s;
         categories := categories s; sessions := sessions s; stats := stats s |}
  | UserFilesKey u =>
      {| files := files s; userFiles := delete u (userFiles s);
         categories := categories s; sessions := sessions s; stats := stats s |}
  | CategoryKey c =>
      {| files := files s; userFiles := userFiles s;
         categories := delete c (categories s); sessions := sessions s;
         stats := stats s |}
  | SessionKey u =>
      {| files := files s; userFiles := userFiles s;
         categories := categories s; sessions := delete u (sessions s);
         stats := stats s |}
  | StatsKey =>
      {| files := files s; userFiles := userFiles s;
         categories := categories s; sessions := sessions s; stats := None |}
  end.

(** The names of all keys present. *)
Definition kv_names (s : store) : list string :=
  ((λ i, key_name (FileKey i)) <$> (map_to_list (files s)).*1)
  ++ ((λ u, key_name (UserFilesKey u)) <$> (map_to_list (userFiles s)).*1)
  ++ ((λ c, key_name (CategoryKey c)) <$> (map_to_list (categories s)).*1)
  ++ ((λ u, key_name (SessionKey u)) <$> (map_to_list (sessions s)).*1)
  ++ (match stats s with Some _ => [key_name StatsKey] | None => [] end).

Definition compare_names (a b : string) : Z :=
  match String.compare a b with Lt => -1 | Eq => 0 | Gt => 1 end.

(** [namespace.list({ prefix })]: the key names with that prefix, in the
    lexicographic order of the store, at most 1000 of them per call. *)
Definition kv_list (prefix : string) (s : store) : list string :=
  firstn 1000 (js_sort compare_names (filter (λ n, startsWith n prefix = true) (kv_names s))).

(** A document read back through its key name: [db.get(key)] for a key
    obtained from [listKeys]. *)
Inductive document :=
| FileDoc (f : FileRecord)
| IdsDoc (l : list string)
| SessionDoc (s : Session)
| StatsDoc (st : Stats).

Definition kv_get_name (name : string) (s : store) : option document :=
  match strip_prefix filePrefix name with
  | Some i => FileDoc <$> kv_get (FileKey i) s
  | None =>
  match strip_prefix userFilesPrefix name with
  | Some u => IdsDoc <$> kv_get (UserFilesKey u) s
  | None =>
  match strip_prefix categoryPrefix name with
  | Some c => IdsDoc <$> kv_get (CategoryKey c) s
  | None =>
  match strip_prefix sessionPrefix name with
  | Some u => SessionDoc <$> kv_get (SessionKey u) s
  | None =>
      if bool_decide (name = statsKey) then StatsDoc <$> kv_get StatsKey s else None
  end end end end.

(** ** Telegram Bot API calls *)

Record Button := {
  text : string;
  callback_data : string
}.

Definition Keyboard : Type := list (list Button).

(** One request to the Bot API, with the parameters that vary. *)
Inductive call :=
| SendMessage (chat_id : Z) (body : string) (reply_markup : option Keyboard)
| SendDocument (chat_id : Z) (file : string) (cap : option string)
| SendPhoto (chat_id : Z) (file : string) (cap : option string)
| SendVideo (chat_id : Z) (file : string) (cap : option string)
| SendAudio (chat_id : Z) (file : string) (cap : option string)
| SendVoice (chat_id : Z) (file : string) (cap : option string)
| SendAnimation (chat_id : Z) (file : string) (cap : option string)
| EditMessageText (chat_id : Z) (message_id : Z) (body : string)
                  (reply_markup : option Keyboard)
| DeleteMessage (chat_id : Z) (message_id : Z)
| AnswerCallbackQuery (callback_query_id : string) (notice : option string).

(** ** The world and the monad of [async] functions *)

Inductive error :=
| TypeError (what : string)
| ApiError (method : call).

Inductive result (A : Type) :=
| Ok (a : A)
| Throw (e : error).
Arguments Ok {A} a.
Arguments Throw {A} e.

(** What the program cannot decide: whether the n-th Bot API request is
    answered with [ok], what the n-th reading of the clock is, and what the
    n-th draw of [Utils.generateSecureId] is. *)
Record Oracle := {
  api_ok : nat → bool;
  clock : nat → Z;
  secure_id : nat → string
}.

Record world := {
  db : store;
  sent : list call;       (* Bot API requests issued so far, oldest first *)
  ticks : nat;            (* clock readings so far *)
  drawn : nat;            (* identifiers drawn so far *)
  oracle : Oracle
}.

Definition M (A : Type) : Type := world → result A * world.

#[global] Instance M_ret : MRet M := λ A a w, (Ok a, w).

#[global] Instance M_bind : MBind M := λ A B k m w,
  match m w with
  | (Ok a, w') => k a w'
  | (Throw e, w') => (Throw e, w')
  end.

Definition throw {A} (e : error) : M A := λ w, (Throw e, w).

(** [try { body } catch (error) { handler }] around awaited calls. *)
Definition try_catch {A} (body : M A) (handler : error → M A) : M A := λ w,
  match body w with
  | (Ok a, w') => (Ok a, w')
  | (Throw e, w') => handler e w'
  end.

Definition with_db (f : store → store) : M () := λ w,
  (Ok (), {| db := f (db w); sent := sent w; ticks := ticks w;
             drawn := drawn w; oracle := oracle w |}).

Definition read_db {A} (f : store → A) : M A := λ w, (Ok (f (db w)), w).

(** [Date.now()] *)
Definition Date_now : M Z := λ w,
  (Ok (clock (oracle w) (ticks w)),
   {| db := db w; sent := sent w; ticks := S (ticks w);
      drawn := drawn w; oracle := oracle w |}).

(** ** Utils *)

(** [generateSecureId]: sixteen random bytes in hexadecimal, read here from
    the oracle. *)
Definition generateSecureId : M string := λ w,
  (Ok (secure_id (oracle w) (drawn w)),
   {| db := db w; sent := sent w; ticks := ticks w;
      drawn := S (drawn w); oracle := oracle w |}).

(** ** TelegramAPI *)

(** The world once one more request has gone out. *)
Definition issued (c : call) (w : world) : world :=
  {| db := db w; sent := sent w ++ [c]; ticks := ticks w;
     drawn := drawn w; oracle := oracle w |}.

(** [callMethod]: the request is issued; a reply that is not [ok] (or a
    failed transfer) is rethrown to the caller. *)
Definition callMethod (c : call) : M () := λ w,
  if api_ok (oracle w) (length (sent w)) then (Ok (), issued c w)
  else (Throw (ApiError c), issued c w).

Definition sendMessage (chatId : Z) (body : string) (markup : option Keyboard) : M () :=
  callMethod (SendMessage chatId body markup).
Definition sendDocument (chatId : Z) (file : string) (cap : option string) : M () :=
  callMethod (SendDocument chatId file cap).
Definition sendPhoto (chatId : Z) (file : string) (cap : option string) : M () :=
  callMethod (SendPhoto chatId file cap).
Definition sendVideo (chatId : Z) (file : string) (cap : option string) : M () :=
  callMethod (SendVideo chatId file cap).
Definition sendAudio (chatId : Z) (file : string) (cap : option string) : M () :=
  callMethod (SendAudio chatId file cap).
Definition editMessageText (chatId messageId : Z) (body : string)
    (markup : option Keyboard) : M () :=
  callMethod (EditMessageText chatId messageId body markup).
Definition deleteMessage (chatId messageId : Z) : M () :=
  callMethod (DeleteMessage chatId messageId).
Definition answerCallbackQuery (callbackQueryId : string) (notice : option string) : M () :=
  callMethod (AnswerCallbackQuery callbackQueryId notice).

(** ** Database *)

Definition db_set {V} (k : key V) (value : V) : M () := with_db (kv_put k value).
Definition db_get {V} (k : key V) : M (option V) := read_db (kv_get k).
Definition db_delete {V} (k : key V) : M () := with_db (kv_delete k).
Definition db_listKeys (prefix : string) : M (list string) := read_db (kv_list prefix).
Definition db_get_name (name : string) : M (option document) := read_db (kv_get_name name).

(** ** Telegram objects *)

Module Telegram.

(** [Document], [PhotoSize], [Video], [Audio], [Voice] and [Animation]:
    one record with the fields of all six, absent ones [None]. *)
Record Attachment := {
  file_id : string;
  file_unique_id : string;
  file_size : option Z;
  mime_type : option string;
  width : option Z;
  height : option Z;
  duration : option Z;
  performer : option string;
  title : option string
}.

(** The part of a message that [hasAttachment] and [extractFileData] read;
    it is also all the bot reads of [reply_to_message]. *)
Record Media := {
  message_id : Z;
  caption : option string;
  document : option Attachment;
  photo : option (list Attachment);
  video : option Attachment;
  audio : option Attachment;
  voice : option Attachment;
  animation : option Attachment
}.

Record Message := {
  media : Media;
  from_id : Z;                       (* [from.id] *)
  chat_id : Z;                       (* [chat.id] *)
  text : option string;
  reply_to_message : option Media
}.

Record CallbackQuery := {
  cq_id : string;                    (* [id] *)
  cq_from_id : Z;                    (* [from.id] *)
  cq_chat_id : Z;                    (* [message.chat.id] *)
  cq_message_id : Z;                 (* [message.message_id] *)
  cq_data : option string            (* [data] *)
}.

(** The parsed body of a webhook request.  [UpdateNull] is the JSON text
    [null]; any other JSON value is an object with or without the two
    members the bot looks at. *)
Inductive Update :=
| UpdateNull
| UpdateObject (message : option Message) (callback_query : option CallbackQuery).

Record Request := {
  method : string;
  json : option Update               (* [None]: the body does not parse *)
}.

Record Response := {
  body : string;
  status : Z
}.

End Telegram.

Abbreviation Message := Telegram.Message.
Abbreviation CallbackQuery := Telegram.CallbackQuery.
Abbreviation Update := Telegram.Update.
Abbreviation Request := Telegram.Request.
Abbreviation Response := Telegram.Response.

(** One awaited call per element, in order: [Promise.all(l.map(f))] for
    calls that only read, and a [for ... of] loop around an [await]. *)
Fixpoint traverse {A B} (f : A → M B) (l : list A) : M (list B) :=
  match l with
  | [] => mret []
  | x :: r => y ← f x; ys ← traverse f r; mret (y :: ys)
  end.

(** The [updates] object: any subset of the session's keys. *)
Record Updates := {
  upd_userId : option string;
  upd_state : option string;
  upd_data : option SessionData;
  upd_createdAt : option Z;
  upd_lastActive : option Z
}.

(** [{ ...session, ...updates, lastActive: now }] *)
Definition spread_session (session : Session) (updates : Updates) (now : Z) : Session :=
  {| userId := default (userId session) (upd_userId updates);
     state := default (state session) (upd_state updates);
     data := default (data session) (upd_data updates);
     s_createdAt := default (s_createdAt session) (upd_createdAt updates);
     lastActive := now |}.

Section Bot.

Variable CONFIG : Config.

(** [new Date(t).toLocaleDateString()] and the date part of
    [new Date(t).toISOString()].  Both depend on the host (locale, time
    zone, calendar) and only ever produce display text or a bucket name. *)
Variable toLocaleDateString : Z → string.
Variable isoDate : Z → string.

(** ** Analytics *)

(** [stats.actions[action]]: absent and zero are both falsy, then [++]. *)
Definition bump (name : string) (counters : gmap string Z) : gmap string Z :=
  <[name := default 0 (counters !! name) + 1]> counters.

Definition trackAction (userId action : string) : M () :=
  if negb (ANALYTICS_ENABLED CONFIG) then mret () else
  try_catch
    (stored ← db_get StatsKey;
     let stats := default empty_stats stored in
     t ← Date_now;
     let today := isoDate t in
     seen ← match users stats !! userId with
            | Some u => mret u
            | None =>
                first ← Date_now;
                mret {| firstSeen := first; u_actions := 0; lastSeen := None |}
            end;
     last ← Date_now;
     let user := {| firstSeen := firstSeen seen; u_actions := u_actions seen + 1;
                    lastSeen := Some last |} in
     let day := default {| d_users := ∅; d_actions := ∅ |} (dailyStats stats !! today) in
     let day := {| d_users := bump userId (d_users day);
                   d_actions := bump action (d_actions day) |} in
     db_set StatsKey
       {| users := <[userId := user]> (users stats);
          actions := bump action (actions stats);
          dailyStats := <[today := day]> (dailyStats stats) |})
    (λ _, mret ()).

Definition getStats : M Stats :=
  stored ← db_get StatsKey;
  mret (default empty_stats stored).

(** ** SessionManager *)

Definition getSession (userId : string) : M Session :=
  let sessionKey := SessionKey userId in
  session ← db_get sessionKey;
  match session with
  | Some session => mret session
  | None =>
      created ← Date_now;
      active ← Date_now;
      let session := {| userId := userId; state := "idle"; data := no_data;
                        s_createdAt := created; lastActive := active |} in
      db_set sessionKey session;;
      mret session
  end.


Definition updateSession (userId : string) (updates : Updates) : M Session :=
  let sessionKey := SessionKey userId in
  session ← getSession userId;
  active ← Date_now;
  let updatedSession := spread_session session updates active in
  db_set sessionKey updatedSession;;
  mret updatedSession.

(** [setState(userId, state, data = {})]; a caller that omits [data] passes
    [no_data]. *)
Definition setState (userId state : string) (data : SessionData) : M Session :=
  updateSession userId
    {| upd_userId := None; upd_state := Some state; upd_data := Some data;
       upd_createdAt := None; upd_lastActive := None |}.

(** ** FileManager *)

(** [saveFile(fileData, userId, category = "general")]: an [undefined]
    category takes the default. *)
Definition saveFile (fileData : option FileData) (userId : string)
    (category : option string) : M string :=
  let category := default "general" category in
  fileId ← generateSecureId;
  timestamp ← Date_now;
  let fileObject :=
    {| id := fileId; fileData := fileData; savedBy := userId; category := category;
       createdAt := timestamp; accessCount := 0; lastAccessed := None |} in
  db_set (FileKey fileId) fileObject;;
  let userFilesKey := UserFilesKey userId in
  owned ← db_get userFilesKey;
  db_set userFilesKey (default [] owned ++ [fileId]);;
  let categoryKey := CategoryKey category in
  categoryFiles ← db_get categoryKey;
  db_set categoryKey (default [] categoryFiles ++ [fileId]);;
  mret fileId.

Definition getFile (fileId : string) : M (option FileRecord) :=
  db_get (FileKey fileId).

(** [trackFileAccess].  The count is a number of accesses, far below
    [MAX_SAFE_INTEGER]; [lastAccessed] is whatever [Date.now()] returns,
    the previous value is not read. *)
Definition trackFileAccess (fileId : string) : M () :=
  file ← getFile fileId;
  match file with
  | Some file =>
      let count := accessCount file + 1 in
      accessed ← Date_now;
      db_set (FileKey fileId)
        {| id := id file; fileData := fileData file;
           savedBy := savedBy file; category := category file;
           createdAt := createdAt file; accessCount := count;
           lastAccessed := Some accessed |}
  | None => mret ()
  end.

(** [deleteFile(fileId, userId)].  [fileId] is [None] when a caller passes
    [undefined]: the key is then built from the text [undefined] and no
    identifier of an index is strictly equal to it. *)
Definition deleteFile (fileId : option string) (userId : string) : M bool :=
  file ← getFile (tpl fileId);
  match file with
  | None => mret false
  | Some file =>
      if negb (bool_decide (userId ∈ ADMIN_IDS CONFIG))
         && bool_decide (savedBy file ≠ userId)
      then mret false
      else
        db_delete (FileKey (tpl fileId));;
        let userFilesKey := UserFilesKey (savedBy file) in
        owned ← db_get userFilesKey;
        let updatedUserFiles := filter (λ i, Some i ≠ fileId) (default [] owned) in
        db_set userFilesKey updatedUserFiles;;
        let categoryKey := CategoryKey (category file) in
        categoryFiles ← db_get categoryKey;
        let updatedCategoryFiles :=
          filter (λ i, Some i ≠ fileId) (default [] categoryFiles) in
        db_set categoryKey updatedCategoryFiles;;
        mret true
  end.

Definition getUserFiles (userId : string) : M (list FileRecord) :=
  owned ← db_get (UserFilesKey userId);
  let fileIds := default [] owned in
  found ← traverse getFile fileIds;
  mret (omap (λ file, file) found).

Definition getFilesByCategory (category : string) : M (list FileRecord) :=
  listed ← db_get (CategoryKey category);
  let fileIds := default [] listed in
  found ← traverse getFile fileIds;
  mret (omap (λ file, file) found).

(** ** CommandHandler *)

Definition nl : string := String (ascii_of_nat 10) EmptyString.

(** The longest prefix of [s] made of characters in the class, and the rest. *)
Fixpoint span (class : ascii → bool) (s : string) : string * string :=
  match s with
  | String c r =>
      if class c then let '(p, q) := span class r in (String c p, q)
      else (EmptyString, s)
  | EmptyString => (EmptyString, EmptyString)
  end.

Fixpoint has_line_terminator (s : string) : bool :=
  match s with
  | String c r => is_line_terminator c || has_line_terminator r
  | EmptyString => false
  end.

(** The match of [text] against the anchored pattern of [parseCommand]: a
    slash, a word of [[a-zA-Z0-9_]], optionally [@] and a bot name of [\w],
    optionally spaces ([\s+]) and a second group of any characters but line
    terminators, up to the end.  The result is the word and the text of
    group 2 ([None] when the group did not take part).  The word and the
    bot name are greedy and nothing can be given back: the character after
    them must be a space or the end.  The spaces take all the leading
    white space, and group 2 must reach the end without crossing a line
    terminator. *)
Definition match_command (text : string) : option (string * option string) :=
  match text with
  | String "/" r =>
      let '(word, r1) := span is_word r in
      if truthy_str word then
        let r2 := match r1 with
                  | String "@" r' =>
                      let '(bot, r'') := span is_word r' in
                      if truthy_str bot then r'' else r1
                  | _ => r1
                  end in
        match r2 with
        | EmptyString => Some (word, None)
        | String c _ =>
            if is_space c then
              let rest := trimStart r2 in
              if has_line_terminator rest then None else Some (word, Some rest)
            else None
        end
      else None
  | _ => None
  end.

(** [parseCommand(text)]: [{ command, args }] or [null]. *)
Definition parseCommand (text : string) : option (string * string) :=
  if negb (truthy_str text) then None else
  match match_command text with
  | None => None
  | Some (word, group2) =>
      Some (toLowerCase word,
            match group2 with
            | Some rest => if truthy_str rest then trim rest else EmptyString
            | None => EmptyString
            end)
  end.

Definition isAdmin (userId : string) : bool :=
  bool_decide (userId ∈ ADMIN_IDS CONFIG).

Definition hasAttachment (message : Telegram.Media) : bool :=
  bool_decide (is_Some (Telegram.document message))
  || bool_decide (is_Some (Telegram.photo message))
  || bool_decide (is_Some (Telegram.video message))
  || bool_decide (is_Some (Telegram.audio message))
  || bool_decide (is_Some (Telegram.voice message))
  || bool_decide (is_Some (Telegram.animation message)).

(** [x || null] on an optional string: absent and empty both give [null]. *)
Definition or_null (x : option string) : option string :=
  match x with
  | Some s => if truthy_str s then Some s else None
  | None => None
  end.

Definition extractFileData (message : Telegram.Media) : option FileData :=
  let cap := default EmptyString (Telegram.caption message) in
  match Telegram.document message with
  | Some a =>
      Some {| file_id := Telegram.file_id a; file_type := "document";
              file_unique_id := Telegram.file_unique_id a;
              file_size := Telegram.file_size a; caption := cap;
              mime_type := or_null (Telegram.mime_type a);
              width := None; height := None; duration := None;
              performer := None; title := None |}
  | None =>
  match last (default [] (Telegram.photo message)) with
  | Some a =>
      Some {| file_id := Telegram.file_id a; file_type := "photo";
              file_unique_id := Telegram.file_unique_id a;
              file_size := Telegram.file_size a; caption := cap;
              mime_type := None;
              width := Telegram.width a; height := Telegram.height a;
              duration := None; performer := None; title := None |}
  | None =>
  match Telegram.video message with
  | Some a =>
      Some {| file_id := Telegram.file_id a; file_type := "video";
              file_unique_id := Telegram.file_unique_id a;
              file_size := Telegram.file_size a; caption := cap;
              mime_type := or_null (Telegram.mime_type a);
              width := Telegram.width a; height := Telegram.height a;
              duration := Telegram.duration a; performer := None; title := None |}
  | None =>
  match Telegram.audio message with
  | Some a =>
      Some {| file_id := Telegram.file_id a; file_type := "audio";
              file_unique_id := Telegram.file_unique_id a;
              file_size := Telegram.file_size a; caption := cap;
              mime_type := or_null (Telegram.mime_type a);
              width := None; height := None;
              duration := Telegram.duration a;
              performer := Telegram.performer a; title := Telegram.title a |}
  | None =>
  match Telegram.voice message with
  | Some a =>
      Some {| file_id := Telegram.file_id a; file_type := "voice";
              file_unique_id := Telegram.file_unique_id a;
              file_size := Telegram.file_size a; caption := cap;
              mime_type := or_null (Telegram.mime_type a);
              width := None; height := None;
              duration := Telegram.duration a; performer := None; title := None |}
  | None =>
  match Telegram.animation message with
  | Some a =>
      Some {| file_id := Telegram.file_id a; file_type := "animation";
              file_unique_id := Telegram.file_unique_id a;
              file_size := Telegram.file_size a; caption := cap;
              mime_type := or_null (Telegram.mime_type a);
              width := Telegram.width a; height := Telegram.height a;
              duration := Telegram.duration a; performer := None; title := None |}
  | None => None
  end end end end end end.

(** The category keyboard of [promptToSaveFile] and [handleSave]. *)
Definition categoriesKeyboard : Keyboard :=
  [ [ {| text := "📄 Documents"; callback_data := "category:documents" |};
      {| text := "📸 Photos"; callback_data := "category:photos" |} ];
    [ {| text := "🎬 Videos"; callback_data := "category:videos" |};
      {| text := "🎵 Audio"; callback_data := "category:audio" |} ];
    [ {| text := "Cancel"; callback_data := "category:cancel" |} ] ].

Definition pending (messageId : Z) (fileData : FileData) : SessionData :=
  {| messageId := Some messageId; pendingFile := Some fileData; fileId := None |}.

Definition promptToSaveFile (message : Message) : M () :=
  let chatId := Telegram.chat_id message in
  let userId := js_String (Telegram.from_id message) in
  match extractFileData (Telegram.media message) with
  | None => sendMessage chatId "No valid file found in the message." None
  | Some fileData =>
      setState userId "awaiting_file_category"
        (pending (Telegram.message_id (Telegram.media message)) fileData);;
      sendMessage chatId
        "I noticed you sent a file. Please select a category or type a custom category name:"
        (Some categoriesKeyboard)
  end.

Definition shareLinkOf (fileId : string) : string :=
  "https://t.me/" +:+ BOT_USERNAME CONFIG +:+ "?start=post=" +:+ fileId.

(** The text and the keyboard that announce a saved file. *)
Definition savedText (category fileId : string) : string :=
  "✅ *File Saved Successfully!*" +:+ nl +:+ nl +:+
  "📂 Category: *" +:+ category +:+ "*" +:+ nl +:+
  "📁 Access it using:" +:+ nl +:+
  "`" +:+ shareLinkOf fileId +:+ "`".

Definition savedKeyboard (fileId : string) : Keyboard :=
  [ [ {| text := "🔗 Copy Link"; callback_data := "file:share:" +:+ fileId |} ] ].

Definition handleFileCategoryInput (message : Message) (session : Session) : M () :=
  let chatId := Telegram.chat_id message in
  let userId := js_String (Telegram.from_id message) in
  match Telegram.text message with
  | None => throw (TypeError "message.text is undefined")
  | Some text =>
      let category := trim text in
      if bool_decide (toLowerCase category = "cancel") then
        setState userId "idle" no_data;;
        sendMessage chatId "File saving canceled." None
      else
        let fileData := pendingFile (data session) in
        fileId ← saveFile fileData userId (Some category);
        setState userId "idle" no_data;;
        sendMessage chatId (savedText category fileId) (Some (savedKeyboard fileId))
  end.

(** [emojiMap[fileType] || '📁'], for a [fileType] that does not name a
    member of [Object.prototype]. *)
Definition getFileTypeEmoji (fileType : option string) : string :=
  match fileType with
  | Some "document" => "📄"
  | Some "photo" => "📸"
  | Some "video" => "🎬"
  | Some "audio" => "🎵"
  | Some "voice" => "🎤"
  | Some "animation" => "📹"
  | _ => "📁"
  end.

(** [file.file_id], [file.file_type] and [file.caption] of a stored
    record. *)
Definition handleOf (file : FileRecord) : option string := file_id <$> fileData file.
Definition typeOf (file : FileRecord) : option string := file_type <$> fileData file.
Definition captionOf (file : FileRecord) : option string := caption <$> fileData file.

(** [handleStart(message, args)].  The [try] around the [switch] encloses
    no [await]: each branch returns the promise of the API call, so its
    [catch] never runs. *)
Fixpoint takeNonSpace (s : string) : string :=
  match s with
  | String c r => if is_space c then EmptyString else String c (takeNonSpace r)
  | EmptyString => EmptyString
  end.

(** [args.match(/post=(\S+)/)]: group 1 of the leftmost match. *)
Fixpoint match_post (args : string) : option string :=
  match args with
  | EmptyString => None
  | String _ r =>
      match strip_prefix "post=" args with
      | Some tail =>
          let token := takeNonSpace tail in
          if truthy_str token then Some token else match_post r
      | None => match_post r
      end
  end.

Definition welcomeKeyboard : Keyboard :=
  [ [ {| text := "📂 My Files"; callback_data := "file:list:1" |};
      {| text := "📊 Statistics"; callback_data := "stats:view" |} ];
    [ {| text := "ℹ️ Help"; callback_data := "help:view" |} ] ].

Definition welcomeText : string :=
  "🚀 *Welcome to FileStore Bot* 🚀" +:+ nl +:+ nl +:+
  "Store and share files easily with this secure platform.".

Definition notFoundText : string :=
  "❌ The requested file was not found or has been deleted.".

Definition handleStart (message : Message) (args : string) : M () :=
  let chatId := Telegram.chat_id message in
  match match_post args with
  | Some postId =>
      fileData ← getFile postId;
      match fileData with
      | None => sendMessage chatId notFoundText None
      | Some fileData =>
          trackFileAccess postId;;
          let file_id := tpl (handleOf fileData) in
          let file_type := typeOf fileData in
          let cap := match captionOf fileData with
                     | Some c => if truthy_str c then Some c else None
                     | None => None
                     end in
          match file_type with
          | Some "document" => sendDocument chatId file_id cap
          | Some "photo" => sendPhoto chatId file_id cap
          | Some "video" => sendVideo chatId file_id cap
          | Some "audio" => sendAudio chatId file_id cap
          | Some "voice" => callMethod (SendVoice chatId file_id cap)
          | Some "animation" => callMethod (SendAnimation chatId file_id cap)
          | _ => sendMessage chatId "Unsupported file type." None
          end
      end
  | None => sendMessage chatId welcomeText (Some welcomeKeyboard)
  end.

Definition helpText : string :=
  "🔍 *Available Commands:*" +:+ nl +:+ nl +:+
  "/start - Begin your journey" +:+ nl +:+
  "/help - Display this help message" +:+ nl +:+
  "/files - Browse your stored files" +:+ nl +:+
  "/stats - View usage statistics" +:+ nl +:+
  "/cancel - Cancel current operation" +:+ nl +:+
  "/save - Save a file (Admin only)" +:+ nl +:+
  "/delete - Delete a file (Admin only)".

Definition handleHelp (message : Message) : M () :=
  sendMessage (Telegram.chat_id message) helpText None.

Definition handleSave (message : Message) : M () :=
  let chatId := Telegram.chat_id message in
  let userId := js_String (Telegram.from_id message) in
  if negb (isAdmin userId) then
    sendMessage chatId "❌ Unauthorized. Only admins can save files." None
  else
    match Telegram.reply_to_message message with
    | None =>
        sendMessage chatId "Please reply to a file message with /save to store it." None
    | Some fileMsg =>
        match extractFileData fileMsg with
        | None => sendMessage chatId "No valid file found in the replied message." None
        | Some fileData =>
            setState userId "awaiting_file_category"
              (pending (Telegram.message_id fileMsg) fileData);;
            sendMessage chatId
              "Please select a category for this file or type a custom category name:"
              (Some categoriesKeyboard)
        end
    end.

(** *** The file list *)

(** The lines of one file: the body of the first [forEach] of
    [sendFileListPage], which the ['list'] branch of [handleFileCallback]
    repeats. *)
Definition fileLines (startIdx : Z) (idx : nat) (file : FileRecord) : string :=
  let fileEmoji := getFileTypeEmoji (typeOf file) in
  let fileDate := toLocaleDateString (createdAt file) in
  js_String (startIdx + Z.of_nat idx + 1) +:+ ". " +:+ fileEmoji +:+ " *"
    +:+ tpl (typeOf file) +:+ "* - " +:+ fileDate +:+ nl
  +:+ match captionOf file with
      | Some c =>
          if truthy_str c then
            "   Caption: " +:+ substring 0 30 c
              +:+ (if (30 <? Z.of_nat (String.length c)) then "..." else EmptyString)
              +:+ nl
          else EmptyString
      | None => EmptyString
      end
  +:+ "   Views: " +:+ js_String (accessCount file) +:+ nl +:+ nl.

(** The row of action buttons of one file: the body of the second
    [forEach]. *)
Definition fileButtons (startIdx : Z) (idx : nat) (file : FileRecord) : list Button :=
  [ {| text := "📤 Share #" +:+ js_String (startIdx + Z.of_nat idx + 1);
       callback_data := "file:share:" +:+ id file |};
    {| text := "❌ Delete #" +:+ js_String (startIdx + Z.of_nat idx + 1);
       callback_data := "file:delete:" +:+ id file |} ].

Definition previousButton (page : Z) : Button :=
  {| text := "⬅️ Previous"; callback_data := "page:files:" +:+ js_String (page - 1) |}.

Definition nextButton (page : Z) : Button :=
  {| text := "➡️ Next"; callback_data := "page:files:" +:+ js_String (page + 1) |}.

Definition paginationRowOf (page totalPages : Z) : list Button :=
  (if 1 <? page then [previousButton page] else [])
  ++ (if page <? totalPages then [nextButton page] else []).

(** The [keyboard] array once both kinds of rows are pushed. *)
Definition listKeyboard (startIdx : Z) (pageFiles : list FileRecord)
    (page totalPages : Z) : Keyboard :=
  imap (fileButtons startIdx) pageFiles
  ++ (match paginationRowOf page totalPages with
      | [] => []
      | paginationRow => [paginationRow]
      end).

Definition concat_strings (l : list string) : string :=
  foldr String.append EmptyString l.

Definition sendFileListPage (chatId : Z) (files : list FileRecord)
    (page pageSize totalPages : Z) : M () :=
  let startIdx := (page - 1) * pageSize in
  let endIdx := Z.min (startIdx + pageSize) (Z.of_nat (length files)) in
  let pageFiles := js_slice startIdx endIdx files in
  let messageText :=
    "📂 *Your Files* (" +:+ js_String (Z.of_nat (length files)) +:+ " total)"
      +:+ nl +:+ nl
      +:+ concat_strings (imap (fileLines startIdx) pageFiles) in
  let keyboard := listKeyboard startIdx pageFiles page totalPages in
  sendMessage chatId messageText (Some keyboard).

Definition handleFiles (message : Message) : M () :=
  let chatId := Telegram.chat_id message in
  let userId := js_String (Telegram.from_id message) in
  files ← getUserFiles userId;
  if bool_decide (length files = 0%nat) then
    sendMessage chatId "You don't have any saved files yet." None
  else
    let pageSize := 5 in
    let totalPages := ceil_div (Z.of_nat (length files)) pageSize in
    sendFileListPage chatId files 1 pageSize totalPages.

(** *** Deleting *)

(** The question both delete paths ask, up to its last line. *)
Definition confirmText (file : FileRecord) : string :=
  "Are you sure you want to delete this file?" +:+ nl +:+ nl +:+
  "Type: " +:+ getFileTypeEmoji (typeOf file) +:+ " " +:+ tpl (typeOf file) +:+ nl +:+
  "Caption: " +:+ str_or (default EmptyString (captionOf file)) "None" +:+ nl +:+
  "Views: " +:+ js_String (accessCount file).

Definition pendingDelete (fileId : string) : SessionData :=
  {| messageId := None; pendingFile := None; fileId := Some fileId |}.

Definition handleDelete (message : Message) (args : string) : M () :=
  let chatId := Telegram.chat_id message in
  let userId := js_String (Telegram.from_id message) in
  if negb (truthy_str args) then
    sendMessage chatId
      "Please specify a file ID to delete or use the file list from /files command."
      None
  else
    let fileId := trim args in
    file ← getFile fileId;
    match file with
    | None => sendMessage chatId "File not found." None
    | Some file =>
        if negb (isAdmin userId) && bool_decide (savedBy file ≠ userId) then
          sendMessage chatId "You don't have permission to delete this file." None
        else
          setState userId "awaiting_delete_confirm" (pendingDelete fileId);;
          sendMessage chatId
            (confirmText file +:+ nl +:+ nl +:+
             "Type *confirm* to delete or *cancel* to abort.")
            None
    end.

Definition handleDeleteConfirmation (message : Message) (session : Session) : M () :=
  let chatId := Telegram.chat_id message in
  let userId := js_String (Telegram.from_id message) in
  match Telegram.text message with
  | None => throw (TypeError "message.text is undefined")
  | Some text =>
      let text := toLowerCase (trim text) in
      let fileId := fileId (data session) in
      setState userId "idle" no_data;;
      if bool_decide (text = "confirm") then
        deleted ← deleteFile fileId userId;
        if (deleted : bool) then sendMessage chatId "✅ File deleted successfully." None
        else sendMessage chatId "❌ Failed to delete the file. Please try again later." None
      else sendMessage chatId "File deletion canceled." None
  end.

(** *** Statistics *)

(** The loop body of [handleStats]: a document is kept when it has a truthy
    [accessCount]. *)
Definition accessed (doc : option document) : option FileRecord :=
  match doc with
  | Some (FileDoc file) => if accessCount file =? 0 then None else Some file
  | _ => None
  end.

Definition byAccessCount (a b : FileRecord) : Z := accessCount b - accessCount a.

Definition popularLine (idx : nat) (file : FileRecord) : string :=
  js_String (Z.of_nat idx + 1) +:+ ". " +:+ getFileTypeEmoji (typeOf file) +:+ " "
    +:+ str_or (default EmptyString (captionOf file)) "Unnamed" +:+ " - "
    +:+ js_String (accessCount file) +:+ " views" +:+ nl.

Definition statsTextOf (totalUsers totalActions : Z) (popularFiles : list FileRecord) : string :=
  "📊 *Bot Statistics*" +:+ nl +:+ nl +:+
  "Total Users: " +:+ js_String totalUsers +:+ nl +:+
  "Total Actions: " +:+ js_String totalActions +:+ nl +:+ nl +:+
  (if bool_decide (0 < length popularFiles)%nat then
     "*Popular Files:*" +:+ nl +:+ concat_strings (imap popularLine popularFiles)
   else EmptyString).

(** The three figures the administrator's report is rendered from. *)
Definition adminStats : M (Z * Z * list FileRecord) :=
  stats ← getStats;
  let totalUsers := Z.of_nat (size (users stats)) in
  let totalActions := map_fold (λ _ count sum, sum + count) 0 (actions stats) in
  files ← db_listKeys filePrefix;
  docs ← traverse db_get_name (js_slice 0 10 files);
  let popularFiles := omap accessed docs in
  let popularFiles := js_sort byAccessCount popularFiles in
  let popularFiles := js_slice 0 5 popularFiles in
  mret (totalUsers, totalActions, popularFiles).

Definition handleStats (message : Message) : M () :=
  let chatId := Telegram.chat_id message in
  let userId := js_String (Telegram.from_id message) in
  if negb (isAdmin userId) then
    owned ← getUserFiles userId;
    session ← getSession userId;
    let joinDate := toLocaleDateString (s_createdAt session) in
    let lastActive := toLocaleDateString (lastActive session) in
    sendMessage chatId
      ("📊 *Your Statistics*" +:+ nl +:+ nl +:+
       "Total Files: " +:+ js_String (Z.of_nat (length owned)) +:+ nl +:+
       "Joined: " +:+ joinDate +:+ nl +:+
       "Last Active: " +:+ lastActive)
      None
  else
    '(totalUsers, totalActions, popularFiles) ← adminStats;
    sendMessage chatId (statsTextOf totalUsers totalActions popularFiles) None.

Definition handleCancel (message : Message) : M () :=
  let chatId := Telegram.chat_id message in
  let userId := js_String (Telegram.from_id message) in
  setState userId "idle" no_data;;
  sendMessage chatId "Current operation canceled." None.

(** *** Callback handlers *)

Definition shareText (fileId : string) : string :=
  "🔗 *File Sharing Link*" +:+ nl +:+ nl +:+
  "Share this link to give access to your file:" +:+ nl +:+
  "`" +:+ shareLinkOf fileId +:+ "`".

Definition confirmKeyboard (fileId : string) : Keyboard :=
  [ [ {| text := "✅ Yes, delete it"; callback_data := "confirm:delete:" +:+ fileId |};
      {| text := "❌ No, keep it"; callback_data := "confirm:cancel" |} ] ].

(** [handleDeleteCallback(query, params)]; [params] may hold [undefined],
    as [handleFileCallback] passes its own second parameter on. *)
Definition handleDeleteCallback (query : CallbackQuery) (params : list (option string)) : M () :=
  let fileId := mjoin (params !! 0%nat) in
  let chatId := Telegram.cq_chat_id query in
  let userId := js_String (Telegram.cq_from_id query) in
  let messageId := Telegram.cq_message_id query in
  answerCallbackQuery (Telegram.cq_id query) None;;
  file ← getFile (tpl fileId);
  match file with
  | None => editMessageText chatId messageId "This file no longer exists." None
  | Some file =>
      if negb (isAdmin userId) && bool_decide (savedBy file ≠ userId) then
        sendMessage chatId "You don't have permission to delete this file." None
      else
        editMessageText chatId messageId (confirmText file)
          (Some (confirmKeyboard (tpl fileId)))
  end.

(** [parseInt(params[1]) || 1] *)
Definition pageOr1 (s : option string) : Z :=
  match parseInt (tpl s) with
  | Some p => if p =? 0 then 1 else p
  | None => 1
  end.

Definition handleFileCallback (query : CallbackQuery) (params : list string) : M () :=
  let action := params !! 0%nat in
  let fileId := params !! 1%nat in
  let chatId := Telegram.cq_chat_id query in
  let userId := js_String (Telegram.cq_from_id query) in
  answerCallbackQuery (Telegram.cq_id query) None;;
  match action with
  | Some "share" =>
      file ← getFile (tpl fileId);
      match file with
      | None =>
          editMessageText chatId (Telegram.cq_message_id query)
            "This file no longer exists." None
      | Some _ => sendMessage chatId (shareText (tpl fileId)) None
      end
  | Some "delete" => handleDeleteCallback query [fileId]
  | Some "list" =>
      let page := pageOr1 (params !! 1%nat) in
      files ← getUserFiles userId;
      if bool_decide (length files = 0%nat) then
        editMessageText chatId (Telegram.cq_message_id query)
          "You don't have any saved files." None
      else
        let pageSize := 5 in
        let totalPages := ceil_div (Z.of_nat (length files)) pageSize in
        let startIdx := (page - 1) * pageSize in
        let endIdx := Z.min (startIdx + pageSize) (Z.of_nat (length files)) in
        let pageFiles := js_slice startIdx endIdx files in
        let messageText :=
          "📂 *Your Files* (" +:+ js_String (Z.of_nat (length files)) +:+ " total) - Page "
            +:+ js_String page +:+ "/" +:+ js_String totalPages +:+ nl +:+ nl
            +:+ concat_strings (imap (fileLines startIdx) pageFiles) in
        let keyboard := listKeyboard startIdx pageFiles page totalPages in
        editMessageText chatId (Telegram.cq_message_id query) messageText (Some keyboard)
  | _ => answerCallbackQuery (Telegram.cq_id query) (Some "Unknown file action.")
  end.

Definition handlePageCallback (query : CallbackQuery) (params : list string) : M () :=
  let listType := params !! 0%nat in
  let pageStr := params !! 1%nat in
  match parseInt (tpl pageStr) with
  | None => answerCallbackQuery (Telegram.cq_id query) (Some "Invalid page number.")
  | Some page =>
      if page <? 1 then
        answerCallbackQuery (Telegram.cq_id query) (Some "Invalid page number.")
      else
        answerCallbackQuery (Telegram.cq_id query) None;;
        match listType with
        | Some "files" => handleFileCallback query ["list"; js_String page]
        | _ => answerCallbackQuery (Telegram.cq_id query) (Some "Unknown list type.")
        end
  end.

Definition handleCategoryCallback (query : CallbackQuery) (params : list string) : M () :=
  let category := params !! 0%nat in
  let chatId := Telegram.cq_chat_id query in
  let userId := js_String (Telegram.cq_from_id query) in
  let messageId := Telegram.cq_message_id query in
  session ← getSession userId;
  if bool_decide (state session ≠ "awaiting_file_category") then
    answerCallbackQuery (Telegram.cq_id query) (Some "This action is no longer valid.")
  else
    answerCallbackQuery (Telegram.cq_id query) None;;
    if bool_decide (category = Some "cancel") then
      setState userId "idle" no_data;;
      editMessageText chatId messageId "File saving canceled." None
    else
      let fileData := pendingFile (data session) in
      fileId ← saveFile fileData userId category;
      setState userId "idle" no_data;;
      editMessageText chatId messageId (savedText (tpl category) fileId)
        (Some (savedKeyboard fileId)).

Definition handleConfirmCallback (query : CallbackQuery) (params : list string) : M () :=
  let action := params !! 0%nat in
  let actionParams := drop 1 params in
  let chatId := Telegram.cq_chat_id query in
  let userId := js_String (Telegram.cq_from_id query) in
  let messageId := Telegram.cq_message_id query in
  answerCallbackQuery (Telegram.cq_id query) None;;
  match action with
  | Some "delete" =>
      let fileId := actionParams !! 0%nat in
      deleted ← deleteFile fileId userId;
      if (deleted : bool) then editMessageText chatId messageId "✅ File deleted successfully." None
      else editMessageText chatId messageId
             "❌ Failed to delete the file. Please try again later." None
  | Some "cancel" => editMessageText chatId messageId "Action canceled." None
  | _ => editMessageText chatId messageId "Unknown confirmation action." None
  end.

(** *** Dispatch *)

Definition processNaturalLanguage (message : Message) (session : Session) : M () :=
  let chatId := Telegram.chat_id message in
  match Telegram.text message with
  | None => mret ()
  | Some text =>
      if negb (truthy_str text) then mret () else
      let lowerText := toLowerCase text in
      if includes lowerText "help" || includes lowerText "how to" then
        handleHelp message
      else if includes lowerText "my files" || includes lowerText "show files" then
        handleFiles message
      else if includes lowerText "stats" || includes lowerText "statistics" then
        handleStats message
      else if includes lowerText "hello" || includes lowerText "hi"
              || includes lowerText "hey" then
        sendMessage chatId
          "Hello! I'm a file storage bot. You can use me to save and share files easily. Use /help to see what I can do."
          None
      else
        sendMessage chatId
          "I'm not sure what you're asking. Use /help to see available commands."
          None
  end.

(** What a property read finds on a table that has no own property of that
    name: a member inherited from [Object.prototype], or nothing.  Applied
    to the two arguments a handler receives, an inherited function either
    returns a value that is no promise ([Returns]) or throws, as does the
    call of [__proto__], which is no function ([Raises]). *)
Inductive inherited := Returns | Raises.

Definition Object_prototype (name : string) : option inherited :=
  if bool_decide (name ∈ ["constructor"; "hasOwnProperty"; "isPrototypeOf";
                          "propertyIsEnumerable"; "toLocaleString"; "toString";
                          "valueOf"; "__lookupGetter__"; "__lookupSetter__"])
  then Some Returns
  else if bool_decide (name ∈ ["__proto__"; "__defineGetter__"; "__defineSetter__"])
  then Some Raises
  else None.

(** [this.commands[command]] *)
Definition commands (command : string) : option (Message → string → M ()) :=
  if bool_decide (command = "start") then Some handleStart
  else if bool_decide (command = "help") then Some (λ message _, handleHelp message)
  else if bool_decide (command = "save") then Some (λ message _, handleSave message)
  else if bool_decide (command = "files") then Some (λ message _, handleFiles message)
  else if bool_decide (command = "delete") then Some handleDelete
  else if bool_decide (command = "stats") then Some (λ message _, handleStats message)
  else if bool_decide (command = "cancel") then Some (λ message _, handleCancel message)
  else None.

(** [this.callbackHandlers[action]] *)
Definition callbackHandlers (action : string)
    : option (CallbackQuery → list string → M ()) :=
  if bool_decide (action = "file") then Some handleFileCallback
  else if bool_decide (action = "page") then Some handlePageCallback
  else if bool_decide (action = "category") then Some handleCategoryCallback
  else if bool_decide (action = "delete") then
    Some (λ query params, handleDeleteCallback query (Some <$> params))
  else if bool_decide (action = "confirm") then Some handleConfirmCallback
  else None.

(** The statements of [processMessage] after the session check. *)
Definition dispatchCommand (message : Message) (session : Session) : M () :=
  let chatId := Telegram.chat_id message in
  let userId := js_String (Telegram.from_id message) in
  let text := default EmptyString (Telegram.text message) in
  match parseCommand text with
  | Some (command, args) =>
      match commands command with
      | Some handler => handler message args
      | None =>
          match Object_prototype command with
          | Some Returns => mret ()
          | Some Raises => throw (TypeError "this.commands[command] is not a function")
          | None =>
              sendMessage chatId
                ("Unrecognized command: /" +:+ command
                   +:+ ". Use /help to see available commands.")
                None
          end
      end
  | None =>
      if hasAttachment (Telegram.media message) && isAdmin userId then
        promptToSaveFile message
      else processNaturalLanguage message session
  end.

Definition processMessage (message : Message) : M () :=
  let userId := js_String (Telegram.from_id message) in
  let text := default EmptyString (Telegram.text message) in
  trackAction userId "message";;
  session ← getSession userId;
  if bool_decide (state session ≠ "idle") then
    if bool_decide (toLowerCase text = "/cancel") then handleCancel message
    else if bool_decide (state session = "awaiting_file_category") then
      handleFileCategoryInput message session
    else if bool_decide (state session = "awaiting_delete_confirm") then
      handleDeleteConfirmation message session
    else dispatchCommand message session
  else dispatchCommand message session.

(** [processCallbackQuery].  The [try] block returns the handler's promise
    without awaiting it, so its [catch] only sees what is thrown while the
    block itself runs: [data.split] on a missing [data], and the call of an
    inherited member that throws. *)
Definition processCallbackQuery (callbackQuery : CallbackQuery) : M () :=
  let data := Telegram.cq_data callbackQuery in
  let userId := js_String (Telegram.cq_from_id callbackQuery) in
  let failed :=
    answerCallbackQuery (Telegram.cq_id callbackQuery)
      (Some "An error occurred while processing your request.") in
  trackAction userId "callback_query";;
  match data with
  | None => failed
  | Some data =>
      let parts := split_colon data in
      let action := default EmptyString (head parts) in
      let params := tail parts in
      match callbackHandlers action with
      | Some handler => handler callbackQuery params
      | None =>
          match Object_prototype action with
          | Some Returns => mret ()
          | Some Raises => failed
          | None =>
              answerCallbackQuery (Telegram.cq_id callbackQuery)
                (Some "Sorry, I couldn't process this action.")
          end
      end
  end.

(** ** TelegramBot *)

(** [processUpdate].  Both dispatchers are returned without [await], so a
    rejection of theirs passes by the [catch].  The block itself throws only
    when [update] is [null]; the handler then reads [update.message] again
    and throws in its turn. *)
Definition processUpdate (update : Update) : M () :=
  match update with
  | Telegram.UpdateNull =>
      try_catch (throw (TypeError "update is null"))
        (λ _, throw (TypeError "update is null"))
  | Telegram.UpdateObject message callback_query =>
      match message with
      | Some message => processMessage message
      | None =>
          match callback_query with
          | Some callback_query => processCallbackQuery callback_query
          | None => mret ()
          end
      end
  end.

(** ** The exported handler *)

Definition fetch (request : Request) : M Response :=
  if bool_decide (Telegram.method request ≠ "POST") then
    mret {| Telegram.body := "Method Not Allowed"; Telegram.status := 405 |}
  else
    match Telegram.json request with
    | None => mret {| Telegram.body := "Invalid Request Body"; Telegram.status := 400 |}
    | Some update =>
        processUpdate update;;
        mret {| Telegram.body := "OK"; Telegram.status := 200 |}
    end.
End Bot.

(** * Reference notions

    Notions taken from the specification's wording, against which the
    embedding above is compared. *)

(** "forwarding [caption] if non-empty" *)
Definition forwardedCaption (fd : FileData) : option string :=
  if truthy_str (caption fd) then Some (caption fd) else None.

(** "the Messenger operation matching [kind]
    (document/photo/video/audio/voice/animation)" *)
Inductive delivers (chatId : Z) (fd : FileData) : call → Prop :=
| deliver_document :
    file_type fd = "document" →
    delivers chatId fd (SendDocument chatId (file_id fd) (forwardedCaption fd))
| deliver_photo :
    file_type fd = "photo" →
    delivers chatId fd (SendPhoto chatId (file_id fd) (forwardedCaption fd))
| deliver_video :
    file_type fd = "video" →
    delivers chatId fd (SendVideo chatId (file_id fd) (forwardedCaption fd))
| deliver_audio :
    file_type fd = "audio" →
    delivers chatId fd (SendAudio chatId (file_id fd) (forwardedCaption fd))
| deliver_voice :
    file_type fd = "voice" →
    delivers chatId fd (SendVoice chatId (file_id fd) (forwardedCaption fd))
| deliver_animation :
    file_type fd = "animation" →
    delivers chatId fd (SendAnimation chatId (file_id fd) (forwardedCaption fd)).

Definition kinds : list string :=
  ["document"; "photo"; "video"; "audio"; "voice"; "animation"].









(** * Sample data *)

(** [CONFIG] as the source ships it. *)
Definition CONFIG_source : Config :=
  {| BOT_TOKEN := "YOUR_BOT_TOKEN_HERE";
     ADMIN_IDS := ["YOUR_ADMIN_ID_HERE"];
     BOT_USERNAME := "YourBotUsername";
     MAX_FILE_SIZE_MB := 50;
     ANALYTICS_ENABLED := true;
     DEBUG_MODE := false |}.

(** A deployment whose administrator is user 1001. *)
Definition sample_config : Config :=
  {| BOT_TOKEN := "123:abc";
     ADMIN_IDS := ["1001"];
     BOT_USERNAME := "FileStoreBot";
     MAX_FILE_SIZE_MB := 50;
     ANALYTICS_ENABLED := true;
     DEBUG_MODE := false |}.

Definition sample_dates : Z → string := λ _, "1/1/2024".

(** Every request is accepted; the readings of the clock and the random
    identifiers are taken from a recorded run. *)
Definition sample_oracle : Oracle :=
  {| api_ok := λ _, true;
     clock := λ n,
       nth n [1700000000000; 1700000000003; 1700000000004; 1700000000009;
              1700000000012; 1700000000020; 1700000000021; 1700000000030]
         1700000000040;
     secure_id := λ n,
       nth n ["9f86d081884c7d659a2feaa0c55ad015"; "a3bf4f1b2b0b822cd15d6c15b0f00a08"]
         "2c26b46b68ffc68ff99b453c1d304134" |}.

Definition world_of (s : store) : world :=
  {| db := s; sent := []; ticks := 0; drawn := 0; oracle := sample_oracle |}.

Definition sample_data (kind cap : string) : FileData :=
  {| file_id := "BQACAgIAAxkBAAIB"; file_type := kind; file_unique_id := "AgADBQ";
     file_size := Some 1024; caption := cap; mime_type := None;
     width := None; height := None; duration := None;
     performer := None; title := None |}.

Definition sample_file (name owner : string) (count : Z) : FileRecord :=
  {| id := name; fileData := Some (sample_data "document" "report");
     savedBy := owner; category := "documents";
     createdAt := 1699999999000; accessCount := count;
     lastAccessed := if count =? 0 then None else Some 1699999999500 |}.

Definition empty_store : store :=
  {| files := ∅; userFiles := ∅; categories := ∅; sessions := ∅; stats := None |}.

(** [saveFile]'s three writes for a given record. *)
Definition with_file (file : FileRecord) (s : store) : store :=
  let s := kv_put (FileKey (id file)) file s in
  let s := kv_put (UserFilesKey (savedBy file))
             (default [] (kv_get (UserFilesKey (savedBy file)) s) ++ [id file]) s in
  kv_put (CategoryKey (category file))
    (default [] (kv_get (CategoryKey (category file)) s) ++ [id file]) s.

(** One document [abc], saved by user 2002. *)
Definition one_world : world :=
  world_of (with_file (sample_file "abc" "2002" 3) empty_store).

(** Seven documents of user 2002. *)
Definition seven_files : list FileRecord :=
  (λ name, sample_file name "2002" 0) <$> ["a1"; "a2"; "a3"; "a4"; "a5"; "a6"; "a7"].

Definition seven_world : world :=
  world_of (foldl (λ s file, with_file file s) empty_store seven_files).



(** User 2002 has sent a file and is asked for its category. *)
Definition awaiting_world : world :=
  world_of
    (kv_put (SessionKey "2002")
       {| userId := "2002"; state := "awaiting_file_category";
          data := pending 41 (sample_data "document" "report");
          s_createdAt := 1699999990000; lastActive := 1699999999000 |}
       empty_store).

Definition no_media (messageId : Z) : Telegram.Media :=
  {| Telegram.message_id := messageId; Telegram.caption := None;
     Telegram.document := None; Telegram.photo := None; Telegram.video := None;
     Telegram.audio := None; Telegram.voice := None; Telegram.animation := None |}.

(** A text message in a private chat (the chat id is the user id). *)
Definition text_message (user : Z) (body : string) : Message :=
  {| Telegram.media := no_media 42; Telegram.from_id := user;
     Telegram.chat_id := user; Telegram.text := Some body;
     Telegram.reply_to_message := None |}.

(** A photo sent without text. *)
Definition photo_message (user : Z) : Message :=
  {| Telegram.media :=
       {| Telegram.message_id := 43; Telegram.caption := None;
          Telegram.document := None;
          Telegram.photo :=
            Some [ {| Telegram.file_id := "AgACAgIAAxkBAAIC";
                      Telegram.file_unique_id := "AQADAgAT";
                      Telegram.file_size := Some 2048; Telegram.mime_type := None;
                      Telegram.width := Some 90; Telegram.height := Some 60;
                      Telegram.duration := None; Telegram.performer := None;
                      Telegram.title := None |} ];
          Telegram.video := None; Telegram.audio := None;
          Telegram.voice := None; Telegram.animation := None |};
     Telegram.from_id := user; Telegram.chat_id := user; Telegram.text := None;
     Telegram.reply_to_message := None |}.

(** A button pressed under message 42 of a private chat. *)
Definition button_press (user : Z) (payload : string) : CallbackQuery :=
  {| Telegram.cq_id := "4382bfdwdsb323b2d9"; Telegram.cq_from_id := user;
     Telegram.cq_chat_id := user; Telegram.cq_message_id := 42;
     Telegram.cq_data := Some payload |}.

(** How often a callback query was acknowledged in a log of requests. *)
Definition is_acknowledgment (queryId : string) (c : call) : bool :=
  match c with
  | AnswerCallbackQuery i _ => bool_decide (i = queryId)
  | _ => false
  end.

Definition acknowledgments (queryId : string) (log : list call) : nat :=
  length (List.filter (is_acknowledgment queryId) log).

(** User 2002 was asked to confirm the deletion of [abc]. *)
Definition confirming_world : world :=
  world_of
    (kv_put (SessionKey "2002")
       {| userId := "2002"; state := "awaiting_delete_confirm";
          data := pendingDelete "abc";
          s_createdAt := 1699999990000; lastActive := 1699999999000 |}
       (db one_world)).

(** The store of [one_world] on a host whose clock was set back: [abc] was
    last read at 1699999999500 and the clock now reads 1600000000000. *)
Definition set_back_world : world :=
  {| db := db one_world; sent := []; ticks := 0; drawn := 0;
     oracle := {| api_ok := λ _, true; clock := λ _, 1600000000000;
                  secure_id := secure_id sample_oracle |} |}.


Definition post (update : Update) : Request :=
  {| Telegram.method := "POST"; Telegram.json := Some update |}.

(** The sum of a table of counters, as [handleStats] adds up
    [stats.actions], and the sum of the per-user action counts. *)
Definition totalOf (counters : gmap string Z) : Z :=
  map_fold (λ _ count sum, sum + count) 0 counters.

Definition userTotal (table : gmap string UserStat) : Z :=
  map_fold (λ _ user sum, sum + u_actions user) 0 table.

(** Every character of [s] is in the class. *)
Fixpoint string_forall (class : ascii → bool) (s : string) : bool :=
  match s with
  | String c r => class c && string_forall class r
  | EmptyString => true
  end.

(** The pure part of [Utils.generateSecureId]:
    [b.toString(16).padStart(2, '0')] of one element of the [Uint8Array],
    and the [join('')] of these over the array. *)
Definition hex_digit (n : N) : ascii :=
  nth (N.to_nat n) (list_ascii_of_string "0123456789abcdef") "0"%char.

Definition toHex (b : Byte.byte) : string :=
  let n := Byte.to_N b in
  String (hex_digit (n / 16)) (String (hex_digit (n mod 16)) EmptyString).

Fixpoint hexOfBytes (randomBytes : list Byte.byte) : string :=
  match randomBytes with
  | b :: rest => toHex b +:+ hexOfBytes rest
  | [] => EmptyString
  end.

Definition is_lower_hex (c : ascii) : bool :=
  let n := nat_of_ascii c in
  ((48 <=? n)%nat && (n <=? 57)%nat) || ((97 <=? n)%nat && (n <=? 102)%nat).

(** The files of one page of the list: [pageFiles] of [sendFileListPage]
    and of the list branch of [handleFileCallback]. *)
Definition pageFiles (files : list FileRecord) (page pageSize : Z) : list FileRecord :=
  let startIdx := (page - 1) * pageSize in
  let endIdx := Z.min (startIdx + pageSize) (Z.of_nat (length files)) in
  js_slice startIdx endIdx files.

(** A computation that leaves the store as it finds it, whatever it sends. *)
Definition reads_only {A} (m : M A) : Prop :=
  ∀ w, db (m w).2 = db w ∧ sent w `prefix_of` sent (m w).2.

(** A computation that adds no record and removes none, and leaves both
    indexes as they are; a record may be rewritten in place. *)
Definition keeps_records {A} (m : M A) : Prop :=
  ∀ w, dom (files (db (m w).2)) = dom (files (db w))
       ∧ userFiles (db (m w).2) = userFiles (db w)
       ∧ categories (db (m w).2) = categories (db w).

(** ** More sample data *)

(** The sixteen bytes behind the first identifier of the recorded run. *)
Definition sample_bytes : list Byte.byte :=
  [Byte.x9f; Byte.x86; Byte.xd0; Byte.x81; Byte.x88; Byte.x4c; Byte.x7d; Byte.x65;
   Byte.x9a; Byte.x2f; Byte.xea; Byte.xa0; Byte.xc5; Byte.x5a; Byte.xd0; Byte.x15].

Definition idle_session (user : string) : Session :=
  {| userId := user; state := "idle"; data := no_data;
     s_createdAt := 1699999990000; lastActive := 1699999999000 |}.

(** The store of [one_world], with idle sessions for the administrator 1001
    and for user 3003. *)
Definition idle_world : world :=
  world_of
    (kv_put (SessionKey "1001") (idle_session "1001")
       (kv_put (SessionKey "3003") (idle_session "3003") (db one_world))).

(** [/save] sent by the administrator in reply to a photo. *)
Definition save_reply : Message :=
  {| Telegram.media := no_media 44; Telegram.from_id := 1001;
     Telegram.chat_id := 1001; Telegram.text := Some "/save";
     Telegram.reply_to_message := Some (Telegram.media (photo_message 2002)) |}.

Definition sample_photo : FileData :=
  {| file_id := "AgACAgIAAxkBAAIC"; file_type := "photo"; file_unique_id := "AQADAgAT";
     file_size := Some 2048; caption := EmptyString; mime_type := None;
     width := Some 90; height := Some 60; duration := None;
     performer := None; title := None |}.
(** * Properties

    ** The string and array primitives on sample inputs *)

Example trim_ex : trim "  a b  " = "a b".
Proof. reflexivity. Qed.

Example split_ex : split_colon "file:share:ab" = ["file"; "share"; "ab"].
Proof. reflexivity. Qed.

Example split_empty_ex : split_colon "" = [""] ∧ split_colon "a:" = ["a"; ""].
Proof. split; reflexivity. Qed.

Example parseInt_ex :
  parseInt "2" = Some 2 ∧ parseInt " -12ab" = Some (-12) ∧ parseInt "0x1f" = Some 31
  ∧ parseInt "" = None ∧ parseInt "abc" = None.
Proof. repeat split; reflexivity. Qed.

Example js_slice_ex :
  js_slice 5 7 [1;2;3;4;5;6;7] = [6;7] ∧ js_slice (-20) (-15) [1;2;3] = []
  ∧ js_slice 10 7 [1;2;3;4;5;6;7] = [].
Proof. repeat split; reflexivity. Qed.

Example js_sort_ex :
  js_sort (λ a b : Z * string, b.1 - a.1) [(1,"a"); (3,"b"); (1,"c"); (3,"d")]
  = [(3,"b"); (3,"d"); (1,"a"); (1,"c")].
Proof. reflexivity. Qed.

(** ** The KV namespace *)

Create HintDb kv discriminated.

Lemma strip_prefix_app (p s : string) : strip_prefix p (p +:+ s) = Some s.
Proof.
  induction p as [|c p IH]; simpl; [reflexivity|].
  now rewrite Ascii.eqb_refl.
Qed.

Lemma strip_prefix_Some (p s r : string) : strip_prefix p s = Some r → s = p +:+ r.
Proof.
  revert s; induction p as [|c p IH]; intros s; simpl.
  - now intros [= ->].
  - destruct s as [|d s]; [discriminate|].
    destruct (Ascii.eqb_spec c d) as [->|]; [|discriminate].
    intros H. now rewrite (IH _ H).
Qed.

(** Two typed keys with the same name are the same key: the five prefixes
    never overlap, so the maps of [store] partition the namespace. *)
Lemma key_name_inj {V1 V2} (k1 : key V1) (k2 : key V2) :
  key_name k1 = key_name k2 →
  key_prefix k1 = key_prefix k2 ∧ key_ident k1 = key_ident k2.
Proof.
  destruct k1, k2; intros H; cbv in H; try discriminate;
    try (injection H as ->); split; reflexivity.
Qed.

Lemma kv_get_put_eq {V} (k : key V) (v : V) (s : store) :
  kv_get k (kv_put k v s) = Some v.
Proof. destruct k; simpl; try apply lookup_insert_eq; reflexivity. Qed.

Lemma kv_get_delete_eq {V} (k : key V) (s : store) :
  kv_get k (kv_delete k s) = None.
Proof. destruct k; simpl; try apply lookup_delete_eq; reflexivity. Qed.

Lemma kv_get_put_ne {V1 V2} (k1 : key V1) (k2 : key V2) (v : V1) (s : store) :
  key_name k1 ≠ key_name k2 → kv_get k2 (kv_put k1 v s) = kv_get k2 s.
Proof.
  destruct k1, k2; intros H; try reflexivity; try congruence;
    apply lookup_insert_ne; congruence.
Qed.

Lemma kv_get_delete_ne {V1 V2} (k1 : key V1) (k2 : key V2) (s : store) :
  key_name k1 ≠ key_name k2 → kv_get k2 (kv_delete k1 s) = kv_get k2 s.
Proof.
  destruct k1, k2; intros H; try reflexivity; try congruence;
    apply lookup_delete_ne; congruence.
Qed.


(** ** Strings *)



Lemma includes_tail (c : ascii) (r sub : string) :
  includes r sub = true → includes (String c r) sub = true.
Proof.
  intros H. change (includes (String c r) sub)
    with (startsWith (String c r) sub || includes r sub).
  rewrite H. apply orb_true_r.
Qed.




(** ** The monad *)

Lemma bind_run {A B} (m : M A) (k : A → M B) (w : world) :
  (m ≫= k) w =
  match m w with
  | (Ok a, w') => k a w'
  | (Throw e, w') => (Throw e, w')
  end.
Proof. reflexivity. Qed.

(** Unfolds the primitive steps of a computation applied to a world. *)
Ltac run :=
  repeat (unfold mbind, M_bind, mret, M_ret, db_get, db_set, db_delete,
            read_db, with_db, Date_now, generateSecureId, try_catch, throw; simpl).

Ltac run_in H :=
  repeat (unfold mbind, M_bind, mret, M_ret, db_get, db_set, db_delete,
            read_db, with_db, Date_now, generateSecureId, try_catch, throw in H;
          simpl in H).

(** ** FileManager *)

Lemma filter_drops (x : string) (l : list string) :
  x ∉ filter (λ i, Some i ≠ Some x) l.
Proof. rewrite list_elem_of_filter. intros [H _]. now apply H. Qed.

Lemma filter_keeps (x y : string) (l : list string) :
  y ≠ x → y ∈ l → y ∈ filter (λ i, Some i ≠ Some x) l.
Proof. intros Hne Hin. apply list_elem_of_filter. split; [congruence|assumption]. Qed.

(** C9. A file id that resolves to no record: [deleteFile] returns [false]
    and leaves the world (so the whole store) as it was, whoever asks,
    administrators included. *)
Theorem deleteFile_absent (cfg : Config) (fileId : option string)
    (requesterId : string) (w : world) :
  files (db w) !! tpl fileId = None →
  deleteFile cfg fileId requesterId w = (Ok false, w).
Proof.
  intros Habsent. unfold deleteFile, getFile. run. now rewrite Habsent.
Qed.

(** C1. For a stored record, [deleteFile] answers [false] and changes
    nothing unless the requester is the owner ([savedBy]) or an
    administrator; when permitted it answers [true], the primary record is
    gone, the id is filtered out of the owner's index and of the category's
    index, and every other record, index, session and the statistics are
    untouched. *)
Theorem deleteFile_permission (cfg : Config) (fileId requesterId : string)
    (w : world) (file : FileRecord) :
  files (db w) !! fileId = Some file →
  let permitted := requesterId ∈ ADMIN_IDS cfg ∨ savedBy file = requesterId in
  (¬ permitted → deleteFile cfg (Some fileId) requesterId w = (Ok false, w))
  ∧ (permitted →
     ∃ w', deleteFile cfg (Some fileId) requesterId w = (Ok true, w')
       ∧ files (db w') !! fileId = None
       ∧ (∃ ids, userFiles (db w') !! savedBy file = Some ids ∧ (fileId ∉ ids)
            ∧ (∀ i, i ≠ fileId →
                 i ∈ default [] (userFiles (db w) !! savedBy file) → i ∈ ids))
       ∧ (∃ ids, categories (db w') !! category file = Some ids ∧ (fileId ∉ ids)
            ∧ (∀ i, i ≠ fileId →
                 i ∈ default [] (categories (db w) !! category file) → i ∈ ids))
       ∧ (∀ i, i ≠ fileId → files (db w') !! i = files (db w) !! i)
       ∧ (∀ u, u ≠ savedBy file → userFiles (db w') !! u = userFiles (db w) !! u)
       ∧ (∀ c, c ≠ category file → categories (db w') !! c = categories (db w) !! c)
       ∧ sessions (db w') = sessions (db w)
       ∧ stats (db w') = stats (db w)
       ∧ sent w' = sent w).
Proof.
  intros Hfile permitted. subst permitted. split.
  - intros Hno. unfold deleteFile, getFile. run. rewrite Hfile.
    rewrite bool_decide_eq_false_2 by tauto.
    rewrite bool_decide_eq_true_2 by tauto. simpl. now destruct w.
  - intros Hyes. unfold deleteFile, getFile. run. rewrite Hfile.
    assert (negb (bool_decide (requesterId ∈ ADMIN_IDS cfg))
            && bool_decide (savedBy file ≠ requesterId) = false) as ->.
    { destruct Hyes as [Hadmin|Howner].
      - now rewrite bool_decide_eq_true_2.
      - rewrite (bool_decide_eq_false_2 (savedBy file ≠ requesterId)) by tauto.
        apply andb_false_r. }
    eexists. split; [reflexivity|]. simpl.
    split; [apply lookup_delete_eq|].
    split.
    { eexists. split; [apply lookup_insert_eq|]. split; [apply filter_drops|].
      intros i Hne Hin. now apply filter_keeps. }
    split.
    { eexists. split; [apply lookup_insert_eq|]. split; [apply filter_drops|].
      intros i Hne Hin. now apply filter_keeps. }
    split; [intros i Hne; now apply lookup_delete_ne|].
    split; [intros u Hne; now apply lookup_insert_ne|].
    split; [intros c Hne; now apply lookup_insert_ne|].
    repeat split.
Qed.

(** C5. On a stored record [trackFileAccess] adds exactly one to
    [accessCount] and sets [lastAccessed] to the reading of the clock,
    whatever the previous value was, leaving the other fields and every
    other record alone: the new [lastAccessed] is not before the previous
    one exactly when the clock has not been set back behind it.  With no
    record for the id the call returns normally and the world is
    unchanged. *)
Theorem trackFileAccess_counts (fileId : string) (w : world) :
  match files (db w) !! fileId with
  | Some file =>
      ∃ w' file', trackFileAccess fileId w = (Ok (), w')
        ∧ files (db w') !! fileId = Some file'
        ∧ accessCount file' = accessCount file + 1
        ∧ lastAccessed file' = Some (clock (oracle w) (ticks w))
        ∧ (∀ t t', lastAccessed file = Some t → lastAccessed file' = Some t' →
                   (t ≤ t' ↔ t ≤ clock (oracle w) (ticks w)))
        ∧ id file' = id file ∧ fileData file' = fileData file
        ∧ savedBy file' = savedBy file ∧ category file' = category file
        ∧ createdAt file' = createdAt file
        ∧ (∀ i, i ≠ fileId → files (db w') !! i = files (db w) !! i)
        ∧ userFiles (db w') = userFiles (db w)
        ∧ categories (db w') = categories (db w)
        ∧ sessions (db w') = sessions (db w)
        ∧ stats (db w') = stats (db w)
        ∧ sent w' = sent w
  | None => trackFileAccess fileId w = (Ok (), w)
  end.
Proof.
  unfold trackFileAccess, getFile. run.
  destruct (files (db w) !! fileId) as [file|] eqn:Hfile; [|reflexivity].
  do 2 eexists. split; [reflexivity|]. simpl.
  split; [apply lookup_insert_eq|]. simpl.
  split; [reflexivity|]. split; [reflexivity|].
  split; [now intros t t' _ [= <-]|].
  repeat (split; [reflexivity|]).
  split; [intros i Hne; now apply lookup_insert_ne|].
  repeat split.
Qed.

(** ** SessionManager *)

Lemma getSession_run (userId : string) (w : world) :
  ∃ s w', getSession userId w = (Ok s, w')
    ∧ sessions (db w') = <[userId := s]> (sessions (db w))
    ∧ (∀ s0, sessions (db w) !! userId = Some s0 → s = s0 ∧ w' = w)
    ∧ (sessions (db w) !! userId = None →
       state s = "idle" ∧ data s = no_data ∧ ticks w' = S (S (ticks w)))
    ∧ files (db w') = files (db w) ∧ userFiles (db w') = userFiles (db w)
    ∧ categories (db w') = categories (db w) ∧ stats (db w') = stats (db w)
    ∧ sent w' = sent w ∧ oracle w' = oracle w ∧ drawn w' = drawn w
    ∧ (ticks w ≤ ticks w')%nat.
Proof.
  unfold getSession. run.
  destruct (sessions (db w) !! userId) as [s0|] eqn:Hs.
  - exists s0, w. split; [reflexivity|].
    split; [symmetry; now apply insert_id|].
    split; [now intros ? [= ->]|]. split; [discriminate|]. repeat split. lia.
  - do 2 eexists. split; [reflexivity|]. simpl. repeat split; try discriminate. lia.
Qed.

(** C4. [setState] returns a session whose [state] and [data] are exactly
    the ones passed (nothing of the previous [data] is kept), whose
    [lastActive] is a fresh reading of the clock, and which is what the
    store now holds for the user; the user's identity and creation time
    carry over, and nothing else in the store changes. *)
Theorem setState_replaces (user newState : string) (newData : SessionData) (w : world) :
  ∃ s' w', setState user newState newData w = (Ok s', w')
    ∧ state s' = newState
    ∧ data s' = newData
    ∧ (ticks w < ticks w')%nat
    ∧ lastActive s' = clock (oracle w) (Nat.pred (ticks w'))
    ∧ sessions (db w') !! user = Some s'
    ∧ (∀ s, sessions (db w) !! user = Some s →
         userId s' = userId s ∧ s_createdAt s' = s_createdAt s)
    ∧ (∀ u, u ≠ user → sessions (db w') !! u = sessions (db w) !! u)
    ∧ files (db w') = files (db w)
    ∧ userFiles (db w') = userFiles (db w)
    ∧ categories (db w') = categories (db w)
    ∧ stats (db w') = stats (db w)
    ∧ sent w' = sent w.
Proof.
  unfold setState, updateSession.
  destruct (getSession_run user w)
    as (s & w1 & Hrun & Hsess & Hold & Hnew & Hf & Hu & Hc & Hst & Hsent & Hor & Hdr & Hticks).
  rewrite bind_run, Hrun. run.
  do 2 eexists. split; [reflexivity|]. simpl.
  split; [reflexivity|]. split; [reflexivity|]. split; [lia|].
  split; [now rewrite Hor|].
  split; [apply lookup_insert_eq|].
  split. { intros s0 Hs0. destruct (Hold _ Hs0) as [-> _]. now split. }
  split. { intros u Hne. rewrite lookup_insert_ne by congruence.
           rewrite Hsess. now apply lookup_insert_ne. }
  repeat split; assumption.
Qed.

(** ** Analytics *)

(** [trackAction] never throws and only rewrites the statistics document. *)
Lemma trackAction_run (cfg : Config) (isoDate : Z → string) (userId action : string)
    (w : world) :
  ∃ w', trackAction cfg isoDate userId action w = (Ok (), w')
    ∧ files (db w') = files (db w) ∧ userFiles (db w') = userFiles (db w)
    ∧ categories (db w') = categories (db w) ∧ sessions (db w') = sessions (db w)
    ∧ sent w' = sent w ∧ oracle w' = oracle w.
Proof.
  unfold trackAction. destruct (ANALYTICS_ENABLED cfg); simpl.
  - run. destruct (users (default empty_stats (stats (db w))) !! userId);
      run; eexists; (split; [reflexivity|]); repeat split.
  - exists w. repeat split.
Qed.

(** ** Reading the owner's files *)

Lemma traverse_getFile (ids : list string) (w : world) :
  traverse getFile ids w = (Ok ((λ i, files (db w) !! i) <$> ids), w).
Proof.
  induction ids as [|i ids IH]; [reflexivity|].
  simpl. rewrite bind_run. unfold getFile at 1. run.
  rewrite IH. reflexivity.
Qed.

Lemma omap_id_fmap {A B} (f : A → option B) (l : list A) :
  omap (λ x, x) (f <$> l) = omap f l.
Proof.
  induction l as [|a l IH]; csimpl; [reflexivity|].
  destruct (f a); csimpl; now rewrite IH.
Qed.

Lemma getUserFiles_run (userId : string) (w : world) :
  getUserFiles userId w =
  (Ok (omap (λ i, files (db w) !! i) (default [] (userFiles (db w) !! userId))), w).
Proof.
  unfold getUserFiles. run. rewrite traverse_getFile.
  now rewrite omap_id_fmap.
Qed.

(** ** CommandHandler: the category callback *)

(** C10. A category callback that arrives while the sender's session is not
    in [awaiting_file_category]: the only request sent is the
    acknowledgment with the notice that the action is no longer valid; no
    record is written, no index is touched, a stored session is left as it
    is, and for a user without a stored session the [idle] session with
    empty data that [getSession] creates on any first access is what
    remains. *)
Theorem category_callback_stale (cfg : Config) (query : CallbackQuery)
    (params : list string) (w : world) :
  let user := js_String (Telegram.cq_from_id query) in
  (∀ s, sessions (db w) !! user = Some s → state s ≠ "awaiting_file_category") →
  ∃ r w', handleCategoryCallback cfg query params w = (r, w')
    ∧ sent w' = sent w ++ [AnswerCallbackQuery (Telegram.cq_id query)
                             (Some "This action is no longer valid.")]
    ∧ files (db w') = files (db w)
    ∧ userFiles (db w') = userFiles (db w)
    ∧ categories (db w') = categories (db w)
    ∧ stats (db w') = stats (db w)
    ∧ drawn w' = drawn w
    ∧ (∀ s, sessions (db w) !! user = Some s → sessions (db w') = sessions (db w))
    ∧ (sessions (db w) !! user = None →
       ∃ s, sessions (db w') = <[user := s]> (sessions (db w))
            ∧ state s = "idle" ∧ data s = no_data)
    ∧ (∀ u, u ≠ user → sessions (db w') !! u = sessions (db w) !! u).
Proof.
  intros user Hstate. unfold handleCategoryCallback. fold user.
  destruct (getSession_run user w)
    as (s & w1 & Hrun & Hsess & Hold & Hnew & Hf & Hu & Hc & Hst & Hsent & Hor & Hdr & Hticks).
  rewrite bind_run, Hrun.
  assert (state s ≠ "awaiting_file_category") as Hs.
  { destruct (sessions (db w) !! user) as [s0|] eqn:E.
    - destruct (Hold s0 eq_refl) as [-> _]. now apply Hstate.
    - destruct (Hnew eq_refl) as [-> _]. discriminate. }
  rewrite bool_decide_eq_true_2 by assumption.
  unfold answerCallbackQuery, callMethod. simpl.
  destruct (api_ok (oracle w1) (length (sent w1)));
    (do 2 eexists; split; [reflexivity|]; simpl;
     split; [now rewrite Hsent|];
     repeat (split; [assumption|]);
     split; [intros s0 Hs0; destruct (Hold _ Hs0) as [_ ->]; reflexivity|];
     split; [intros Hnone; exists s; destruct (Hnew Hnone) as (? & ? & _);
             now repeat split|];
     intros u Hne; rewrite Hsess; now apply lookup_insert_ne).
Qed.

(** ** CommandHandler: retrieval through [/start] *)

Lemma callMethod_run (c : call) (w : world) :
  ∃ r w', callMethod c w = (r, w') ∧ db w' = db w ∧ sent w' = sent w ++ [c]
    ∧ ticks w' = ticks w ∧ drawn w' = drawn w ∧ oracle w' = oracle w
    ∧ r = if api_ok (oracle w) (length (sent w)) then Ok () else Throw (ApiError c).
Proof.
  unfold callMethod. destruct (api_ok (oracle w) (length (sent w)));
    do 2 eexists; (split; [reflexivity|]); repeat split.
Qed.



Lemma callMethod_failed (c : call) (w : world) :
  api_ok (oracle w) (length (sent w)) = false →
  callMethod c w = (Throw (ApiError c), issued c w).
Proof. unfold callMethod. now intros ->. Qed.


(** A token at the very start of the argument. *)
Lemma match_post_token (token rest : string) :
  truthy_str token = true → takeNonSpace token = token →
  match rest with String c _ => is_space c = true | EmptyString => True end →
  match_post ("post=" +:+ token +:+ rest) = Some token.
Proof.
  intros Hne Hclean Hrest.
  assert (takeNonSpace (token +:+ rest) = token) as Htake.
  { revert Hclean. clear Hne. induction token as [|c t IH]; simpl.
    - intros _. destruct rest as [|c r]; [reflexivity|]. simpl. now rewrite Hrest.
    - destruct (is_space c); [discriminate|]. intros [= H]. now rewrite (IH H). }
  change (match_post (String "p" (String "o" (String "s" (String "t"
            (String "=" (token +:+ rest)))))) = Some token).
  cbn -[takeNonSpace truthy_str String.append]. rewrite Htake, Hne. reflexivity.
Qed.


(** ** CommandHandler: the file list *)






Example pagination_buttons :
  callback_data (nextButton 1) = "page:files:2"
  ∧ callback_data (previousButton 2) = "page:files:1"
  ∧ split_colon "page:files:2" = ["page"; "files"; "2"].
Proof. repeat split; reflexivity. Qed.



(** The ['list'] branch of [handleFileCallback]. *)
Lemma handleFileCallback_list (cfg : Config) (fmt : Z → string)
    (query : CallbackQuery) (pageStr : string) (w : world) :
  handleFileCallback cfg fmt query ["list"; pageStr] w =
  (answerCallbackQuery (Telegram.cq_id query) None
   ≫= λ _,
     getUserFiles (js_String (Telegram.cq_from_id query))
     ≫= λ files,
       let page := pageOr1 (Some pageStr) in
       if bool_decide (length files = 0%nat) then
         editMessageText (Telegram.cq_chat_id query) (Telegram.cq_message_id query)
           "You don't have any saved files." None
       else
         let totalPages := ceil_div (Z.of_nat (length files)) 5 in
         let startIdx := (page - 1) * 5 in
         let pageFiles :=
           js_slice startIdx (Z.min (startIdx + 5) (Z.of_nat (length files))) files in
         editMessageText (Telegram.cq_chat_id query) (Telegram.cq_message_id query)
           ("📂 *Your Files* (" +:+ js_String (Z.of_nat (length files))
              +:+ " total) - Page " +:+ js_String page +:+ "/" +:+ js_String totalPages
              +:+ nl +:+ nl +:+ concat_strings (imap (fileLines fmt startIdx) pageFiles))
           (Some (listKeyboard startIdx pageFiles page totalPages))) w.
Proof. reflexivity. Qed.



(** ** Sorting as [Array.prototype.sort] does *)

Section Sorting.

Context {A : Type} (cmp : A → A → Z).





End Sorting.




Lemma js_slice_0 {A} (n : nat) (l : list A) : js_slice 0 (Z.of_nat n) l = firstn n l.
Proof.
  unfold js_slice. change (0 <? 0) with false. cbv iota.
  destruct (Z.of_nat n <? 0) eqn:Hn; [apply Z.ltb_lt in Hn; lia|].
  rewrite (Z.min_l 0) by lia. rewrite Z.sub_0_r. change (Z.to_nat 0) with 0%nat.
  rewrite skipn_O.
  destruct (Z.min_spec (Z.of_nat n) (Z.of_nat (length l))) as [[Hlt ->]|[Hle ->]].
  - now rewrite Nat2Z.id.
  - rewrite Nat2Z.id. rewrite firstn_all. symmetry. apply firstn_all2. lia.
Qed.




(** ** The listing of the file prefix *)

Lemma startsWith_app (p s : string) : startsWith (p +:+ s) p = true.
Proof. unfold startsWith. now rewrite strip_prefix_app. Qed.


Lemma traverse_get_name (names : list string) (w : world) :
  traverse db_get_name names w = (Ok ((λ n, kv_get_name n (db w)) <$> names), w).
Proof.
  induction names as [|n names IH]; [reflexivity|].
  simpl. unfold mbind, M_bind. unfold db_get_name at 1, read_db.
  rewrite IH. reflexivity.
Qed.

Lemma sum_counters (m : gmap string Z) :
  map_fold (λ _ count sum, sum + count) 0 m = foldr Z.add 0 (map_to_list m).*2.
Proof.
  rewrite map_fold_foldr. induction (map_to_list m) as [|[k c] l IH]; [reflexivity|].
  simpl. rewrite IH. apply Z.add_comm.
Qed.

(** What [adminStats] computes; it only reads. *)
Lemma adminStats_run (w : world) :
  adminStats w =
  (Ok (Z.of_nat (size (users (default empty_stats (stats (db w))))),
       foldr Z.add 0 (map_to_list (actions (default empty_stats (stats (db w))))).*2,
       take 5 (js_sort byAccessCount
                 (omap accessed ((λ n, kv_get_name n (db w))
                                   <$> take 10 (kv_list filePrefix (db w)))))),
   w).
Proof.
  unfold adminStats, getStats, db_listKeys. run.
  change 10 with (Z.of_nat 10). rewrite js_slice_0, traverse_get_name.
  change 5 with (Z.of_nat 5). rewrite js_slice_0, sum_counters. reflexivity.
Qed.


(** ** Acknowledgment of callback queries *)

(** C3, at the delete button of a listed file (payload [file:delete:abc]):
    [handleFileCallback] acknowledges the query and hands over to
    [handleDeleteCallback], which acknowledges it again before it edits the
    message.  The query is acknowledged twice. *)
Theorem file_delete_acknowledged_twice :
  ∃ w', processCallbackQuery sample_config sample_dates sample_dates
          (button_press 2002 "file:delete:abc") one_world = (Ok (), w')
    ∧ sent w' =
        [ AnswerCallbackQuery "4382bfdwdsb323b2d9" None;
          AnswerCallbackQuery "4382bfdwdsb323b2d9" None;
          EditMessageText 2002 42 (confirmText (sample_file "abc" "2002" 3))
            (Some (confirmKeyboard "abc")) ]
    ∧ acknowledgments "4382bfdwdsb323b2d9" (sent w') = 2%nat.
Proof.
  eexists. split; [vm_compute; reflexivity|]. split; reflexivity.
Qed.

(** The same happens on the way from the pagination buttons to the list. *)
Lemma page_callback_acknowledged_twice :
  acknowledgments "4382bfdwdsb323b2d9"
    (sent (processCallbackQuery sample_config sample_dates sample_dates
             (button_press 2002 "page:files:2") seven_world).2) = 2%nat.
Proof. vm_compute. reflexivity. Qed.

(** The handlers that do not delegate acknowledge once, as here for the
    share button. *)
Lemma share_callback_acknowledged_once :
  acknowledgments "4382bfdwdsb323b2d9"
    (sent (processCallbackQuery sample_config sample_dates sample_dates
             (button_press 2002 "file:share:abc") one_world).2) = 1%nat.
Proof. vm_compute. reflexivity. Qed.

(** ** The HTTP boundary *)

Lemma fetch_not_post (cfg : Config) (fmt isoDate : Z → string) (request : Request)
    (w : world) :
  Telegram.method request ≠ "POST" →
  fetch cfg fmt isoDate request w
  = (Ok {| Telegram.body := "Method Not Allowed"; Telegram.status := 405 |}, w).
Proof. intros H. unfold fetch. now rewrite bool_decide_eq_true_2. Qed.

Lemma fetch_unparsable (cfg : Config) (fmt isoDate : Z → string) (w : world) :
  fetch cfg fmt isoDate {| Telegram.method := "POST"; Telegram.json := None |} w
  = (Ok {| Telegram.body := "Invalid Request Body"; Telegram.status := 400 |}, w).
Proof. reflexivity. Qed.

(** A parsed POST is answered [OK] exactly when the processing of the
    update does not throw; otherwise the exception leaves [fetch]. *)
Lemma fetch_post (cfg : Config) (fmt isoDate : Z → string) (update : Update)
    (w : world) :
  fetch cfg fmt isoDate (post update) w =
  match processUpdate cfg fmt isoDate update w with
  | (Ok _, w') => (Ok {| Telegram.body := "OK"; Telegram.status := 200 |}, w')
  | (Throw e, w') => (Throw e, w')
  end.
Proof. reflexivity. Qed.

(** C7, at a photo sent without text by a user who is being asked for a
    category: [handleFileCategoryInput] reads [message.text.trim()] and
    throws; the rejection passes the [catch] of [processUpdate], whose [try]
    returned the promise, and the [await] in [fetch] rethrows it.  No
    response is produced. *)
Theorem fetch_rejects_photo_while_awaiting :
  ∃ w', fetch sample_config sample_dates sample_dates
          (post (Telegram.UpdateObject (Some (photo_message 2002)) None))
          awaiting_world
        = (Throw (TypeError "message.text is undefined"), w')
    ∧ sent w' = [].
Proof. eexists. split; [vm_compute; reflexivity|]. reflexivity. Qed.

(** The body [null] parses, and reading [update.message] throws in the
    [try] block and again in the [catch] block. *)
Lemma fetch_rejects_null :
  fetch sample_config sample_dates sample_dates (post Telegram.UpdateNull) one_world
  = (Throw (TypeError "update is null"), one_world).
Proof. reflexivity. Qed.

(** A request the Bot API refuses has the same effect. *)
Lemma fetch_rejects_refused_call (w : world) :
  api_ok (oracle w) (length (sent w)) = false →
  ∃ e w', fetch CONFIG_source sample_dates sample_dates
            (post (Telegram.UpdateObject None (Some (button_press 2002 "help:view")))) w
          = (Throw e, w').
Proof.
  intros Hrefused. rewrite fetch_post. unfold processUpdate, processCallbackQuery.
  cbv zeta.
  destruct (trackAction_run CONFIG_source sample_dates (js_String 2002) "callback_query" w)
    as (w1 & Htrack & _ & _ & _ & _ & Hsent & Hor).
  cbn [Telegram.cq_data Telegram.cq_from_id button_press].
  unfold mbind, M_bind. rewrite Htrack.
  change (callbackHandlers CONFIG_source sample_dates
            (default EmptyString (head (split_colon "help:view")))) with
    (@None (CallbackQuery → list string → M ())).
  change (Object_prototype (default EmptyString (head (split_colon "help:view"))))
    with (@None inherited).
  cbv iota. unfold answerCallbackQuery.
  rewrite callMethod_failed by now rewrite Hor, Hsent.
  do 2 eexists. reflexivity.
Qed.

(** ** The popular files of [/stats] *)


(** [lastAccessed] after a clock set back: the record [abc] of
    [set_back_world] was last read at 1699999999500; [trackFileAccess]
    stores the clock's 1600000000000, which is before it. *)
Lemma trackFileAccess_clock_set_back :
  ∃ file w' file' previous,
    files (db set_back_world) !! "abc" = Some file
    ∧ lastAccessed file = Some previous
    ∧ trackFileAccess "abc" set_back_world = (Ok (), w')
    ∧ files (db w') !! "abc" = Some file'
    ∧ accessCount file' = accessCount file + 1
    ∧ ¬ ∃ t', lastAccessed file' = Some t' ∧ previous ≤ t'.
Proof.
  exists (sample_file "abc" "2002" 3). do 2 eexists. exists 1699999999500.
  split; [reflexivity|]. split; [reflexivity|].
  split; [unfold trackFileAccess, getFile; run; reflexivity|].
  split; [apply lookup_insert_eq|].
  split; [reflexivity|].
  intros (t' & Ht' & Hle). injection Ht' as <-. now apply Hle.
Qed.


(** * Text lemmas *)

Lemma span_spec (class : ascii → bool) (s p q : string) :
  span class s = (p, q) →
  s = p +:+ q ∧ string_forall class p = true
  ∧ match q with String c _ => class c = false | EmptyString => True end.
Proof.
  revert p q. induction s as [|c r IH]; intros p q; simpl.
  - intros [= <- <-]. repeat split.
  - destruct (class c) eqn:Hc.
    + destruct (span class r) as [p' q'] eqn:Hspan. intros [= <- <-].
      destruct (IH p' q' eq_refl) as (-> & Hall & Hq).
      simpl. rewrite Hc, Hall. repeat split. exact Hq.
    + intros [= <- <-]. simpl. rewrite Hc. repeat split.
Qed.

Lemma span_app (class : ascii → bool) (p q : string) :
  string_forall class p = true →
  match q with String c _ => class c = false | EmptyString => True end →
  span class (p +:+ q) = (p, q).
Proof.
  intros Hall Hq. induction p as [|c p IH]; simpl in *.
  - destruct q as [|c r]; [reflexivity|]. simpl. now rewrite Hq.
  - apply andb_prop in Hall as [Hc Hall]. change (String c p +:+ q) with (String c (p +:+ q)).
    simpl. now rewrite Hc, (IH Hall).
Qed.

Lemma lower_char_idem (c : ascii) : lower_char (lower_char c) = lower_char c.
Proof. destruct c as [[] [] [] [] [] [] [] []]; reflexivity. Qed.

Lemma lower_char_word (c : ascii) : is_word (lower_char c) = is_word c.
Proof. destruct c as [[] [] [] [] [] [] [] []]; reflexivity. Qed.

Lemma toLowerCase_idem (s : string) : toLowerCase (toLowerCase s) = toLowerCase s.
Proof. induction s as [|c r IH]; simpl; [reflexivity|]. now rewrite lower_char_idem, IH. Qed.

Lemma toLowerCase_word (s : string) :
  string_forall is_word (toLowerCase s) = string_forall is_word s.
Proof. induction s as [|c r IH]; simpl; [reflexivity|]. now rewrite lower_char_word, IH. Qed.

Lemma toLowerCase_truthy (s : string) : truthy_str (toLowerCase s) = truthy_str s.
Proof. now destruct s. Qed.

Lemma trimStart_head (s : string) :
  match trimStart s with String c _ => is_space c = false | EmptyString => True end.
Proof.
  induction s as [|c r IH]; simpl; [exact I|].
  destruct (is_space c) eqn:Hc; [exact IH|exact Hc].
Qed.

Lemma trimStart_idem (s : string) : trimStart (trimStart s) = trimStart s.
Proof.
  pose proof (trimStart_head s) as H. destruct (trimStart s) as [|c r]; [reflexivity|].
  simpl. now rewrite H.
Qed.

Lemma trimEnd_idem (s : string) : trimEnd (trimEnd s) = trimEnd s.
Proof.
  induction s as [|c r IH]; simpl; [reflexivity|].
  destruct (trimEnd r) as [|c' r'] eqn:Hr.
  - destruct (is_space c) eqn:Hc; simpl; [reflexivity|]. now rewrite Hc.
  - change (trimEnd (String c (String c' r'))) with
      (match trimEnd (String c' r') with
       | EmptyString => if is_space c then EmptyString else String c EmptyString
       | r'' => String c r''
       end).
    now rewrite IH.
Qed.

Lemma trimEnd_head (s : string) :
  match s with String c _ => is_space c = false | EmptyString => True end →
  trimStart (trimEnd s) = trimEnd s.
Proof.
  destruct s as [|c r]; [reflexivity|]. intros Hc. simpl.
  destruct (trimEnd r); rewrite ?Hc; simpl; now rewrite Hc.
Qed.

Lemma trim_idem (s : string) : trim (trim s) = trim s.
Proof.
  unfold trim. rewrite (trimEnd_head (trimStart s)) by apply trimStart_head.
  apply trimEnd_idem.
Qed.

Lemma trim_trimStart (s : string) : trim (trimStart s) = trim s.
Proof. unfold trim. now rewrite trimStart_idem. Qed.

Lemma line_terminator_trimStart (s : string) :
  has_line_terminator s = false → has_line_terminator (trimStart s) = false.
Proof.
  induction s as [|c r IH]; simpl; [reflexivity|].
  intros H. apply orb_false_elim in H as [Hc Hr].
  destruct (is_space c); [now apply IH|]. simpl. now rewrite Hc, Hr.
Qed.

Lemma line_terminator_trimEnd (s : string) :
  has_line_terminator s = false → has_line_terminator (trimEnd s) = false.
Proof.
  induction s as [|c r IH]; simpl; [reflexivity|].
  intros H. apply orb_false_elim in H as [Hc Hr]. specialize (IH Hr).
  destruct (trimEnd r) as [|c' r'].
  - destruct (is_space c); simpl; [reflexivity|]. now rewrite Hc.
  - change (has_line_terminator (String c (String c' r')))
      with (is_line_terminator c || has_line_terminator (String c' r')).
    now rewrite Hc, IH.
Qed.

Lemma string_forall_impl (p q : ascii → bool) (s : string) :
  (∀ c, p c = true → q c = true) →
  string_forall p s = true → string_forall q s = true.
Proof.
  intros Hpq. induction s as [|c r IH]; simpl; [reflexivity|].
  intros H. apply andb_prop in H as [Hc Hr]. now rewrite (Hpq c Hc), (IH Hr).
Qed.

Lemma takeNonSpace_id (s : string) :
  string_forall (λ c, negb (is_space c)) s = true → takeNonSpace s = s.
Proof.
  induction s as [|c r IH]; simpl; [reflexivity|].
  intros H. apply andb_prop in H as [Hc Hr].
  destruct (is_space c); [discriminate|]. now rewrite (IH Hr).
Qed.

Lemma trimEnd_id (s : string) :
  string_forall (λ c, negb (is_space c)) s = true → trimEnd s = s.
Proof.
  induction s as [|c r IH]; simpl; [reflexivity|].
  intros H. apply andb_prop in H as [Hc Hr]. rewrite (IH Hr).
  destruct r; [|reflexivity]. now destruct (is_space c).
Qed.

Lemma lower_hex_no_space (c : ascii) : is_lower_hex c = true → negb (is_space c) = true.
Proof. destruct c as [[] [] [] [] [] [] [] []]; vm_compute; congruence. Qed.

Lemma space_free_one_line (s : string) :
  string_forall (λ c, negb (is_space c)) s = true → has_line_terminator s = false.
Proof.
  assert (∀ c, negb (is_space c) = true → is_line_terminator c = false) as Hc.
  { intros c. destruct c as [[] [] [] [] [] [] [] []]; vm_compute; congruence. }
  induction s as [|c r IH]; simpl; [reflexivity|].
  intros H. apply andb_prop in H as [H1 H2]. now rewrite (Hc c H1), (IH H2).
Qed.

Lemma lower_char_space (c : ascii) : is_space (lower_char c) = is_space c.
Proof. destruct c as [[] [] [] [] [] [] [] []]; reflexivity. Qed.

Lemma toLowerCase_space_free (s : string) :
  string_forall (λ c, negb (is_space c)) (toLowerCase s)
  = string_forall (λ c, negb (is_space c)) s.
Proof.
  induction s as [|c r IH]; simpl; [reflexivity|]. now rewrite lower_char_space, IH.
Qed.

Lemma trim_id (s : string) :
  string_forall (λ c, negb (is_space c)) s = true → trim s = s.
Proof.
  intros H. unfold trim.
  assert (trimStart s = s) as ->; [|now apply trimEnd_id].
  destruct s as [|c r]; [reflexivity|]. simpl in *.
  now destruct (is_space c).
Qed.

(** A text that trims and lower-cases to something other than [/cancel]
    does not lower-case to [/cancel]. *)
Lemma not_cancel_command (t target : string) :
  toLowerCase (trim t) = target → target ≠ "/cancel" → toLowerCase t ≠ "/cancel".
Proof.
  intros Htarget Hne Hcancel. apply Hne. rewrite <- Htarget, trim_id; [exact Hcancel|].
  rewrite <- toLowerCase_space_free, Hcancel. reflexivity.
Qed.

(** * Further properties

    ** FileManager: saving, listing, deleting *)

(** The record [saveFile] builds in a world. *)
Lemma saveFile_run (fd : option FileData) (owner : string) (cat : option string)
    (w : world) :
  let i := secure_id (oracle w) (drawn w) in
  let c := default "general" cat in
  ∃ w', saveFile fd owner cat w = (Ok i, w')
    ∧ files (db w') =
        <[i := {| id := i; fileData := fd; savedBy := owner; category := c;
                  createdAt := clock (oracle w) (ticks w); accessCount := 0;
                  lastAccessed := None |}]> (files (db w))
    ∧ userFiles (db w') =
        <[owner := default [] (userFiles (db w) !! owner) ++ [i]]> (userFiles (db w))
    ∧ categories (db w') =
        <[c := default [] (categories (db w) !! c) ++ [i]]> (categories (db w))
    ∧ sessions (db w') = sessions (db w) ∧ stats (db w') = stats (db w)
    ∧ sent w' = sent w ∧ oracle w' = oracle w
    ∧ ticks w' = S (ticks w) ∧ drawn w' = S (drawn w).
Proof.
  intros i c. unfold saveFile. run. eexists. split; [reflexivity|]. repeat split.
Qed.


(** A permitted deletion of a stored record, step by step. *)
Lemma deleteFile_run (cfg : Config) (fileId requesterId : string) (w : world)
    (file : FileRecord) :
  files (db w) !! fileId = Some file →
  requesterId ∈ ADMIN_IDS cfg ∨ savedBy file = requesterId →
  ∃ w', deleteFile cfg (Some fileId) requesterId w = (Ok true, w')
    ∧ files (db w') = delete fileId (files (db w))
    ∧ userFiles (db w') =
        <[savedBy file := filter (λ i, Some i ≠ Some fileId)
                            (default [] (userFiles (db w) !! savedBy file))]>
          (userFiles (db w))
    ∧ categories (db w') =
        <[category file := filter (λ i, Some i ≠ Some fileId)
                             (default [] (categories (db w) !! category file))]>
          (categories (db w))
    ∧ sessions (db w') = sessions (db w) ∧ stats (db w') = stats (db w)
    ∧ sent w' = sent w ∧ oracle w' = oracle w
    ∧ ticks w' = ticks w ∧ drawn w' = drawn w.
Proof.
  intros Hfile Hyes. unfold deleteFile, getFile. run. rewrite Hfile.
  assert (negb (bool_decide (requesterId ∈ ADMIN_IDS cfg))
          && bool_decide (savedBy file ≠ requesterId) = false) as ->.
  { destruct Hyes as [Hadmin|Howner].
    - now rewrite bool_decide_eq_true_2.
    - rewrite (bool_decide_eq_false_2 (savedBy file ≠ requesterId)) by tauto.
      apply andb_false_r. }
  eexists. split; [reflexivity|]. repeat split.
Qed.

Lemma filter_other_ids (fileId : string) (l : list string) :
  filter (λ i, Some i ≠ Some fileId) l = filter (λ i, i ≠ fileId) l.
Proof.
  induction l as [|j l IH]; [reflexivity|].
  destruct (decide (j = fileId)) as [->|Hne].
  - rewrite !filter_cons_False by (intros H; now apply H). exact IH.
  - rewrite filter_cons_True by congruence.
    rewrite (filter_cons_True (λ i, i ≠ fileId)) by assumption. now rewrite IH.
Qed.

Lemma filter_other_ids_snoc (i : string) (l : list string) :
  i ∉ l → filter (λ j, j ≠ i) (l ++ [i]) = l.
Proof.
  intros Hl. rewrite filter_app.
  rewrite (filter_cons_False _ i) by (intros H; now apply H).
  rewrite filter_nil, app_nil_r.
  induction l as [|j l IH]; [reflexivity|].
  apply not_elem_of_cons in Hl as [Hne Hl].
  rewrite filter_cons_True by congruence. now rewrite IH.
Qed.

(** X1. Saving and reading back.  [saveFile] returns the identifier it
    drew, the next one of the random source, and that draw is used up;
    [getFile] on it then yields a record that carries the given file data,
    the saver, the category (["general"] when none is given), the clock
    reading, an access count of zero and no last access; the identifier is
    the last entry of the saver's index and of the category's index.
    Neither a session nor the statistics change and nothing is sent. *)
Theorem saveFile_then_getFile (fd : option FileData) (owner : string)
    (cat : option string) (w : world) :
  let i := secure_id (oracle w) (drawn w) in
  ∃ w' file, saveFile fd owner cat w = (Ok i, w')
    ∧ drawn w' = S (drawn w)
    ∧ getFile i w' = (Ok (Some file), w')
    ∧ id file = i ∧ fileData file = fd ∧ savedBy file = owner
    ∧ category file = default "general" cat
    ∧ createdAt file = clock (oracle w) (ticks w)
    ∧ accessCount file = 0 ∧ lastAccessed file = None
    ∧ last (default [] (userFiles (db w') !! owner)) = Some i
    ∧ last (default [] (categories (db w') !! category file)) = Some i
    ∧ sessions (db w') = sessions (db w) ∧ stats (db w') = stats (db w)
    ∧ sent w' = sent w.
Proof.
  intros i.
  destruct (saveFile_run fd owner cat w)
    as (w' & Hrun & Hf & Hu & Hc & Hs & Hst & Hsent & _ & _ & Hdrawn).
  cbv zeta in Hrun, Hf, Hu, Hc. fold i in Hrun, Hf, Hu, Hc.
  do 2 eexists. split; [exact Hrun|]. split; [exact Hdrawn|].
  split. { unfold getFile. run. rewrite Hf, lookup_insert_eq. reflexivity. }
  simpl. repeat (split; [reflexivity|]).
  split. { rewrite Hu, lookup_insert_eq. simpl. apply last_snoc. }
  split. { rewrite Hc, lookup_insert_eq. simpl. apply last_snoc. }
  repeat split; assumption.
Qed.

(** X2. A saved file shows up at the end of its owner's listing: when the
    drawn identifier is not already in the owner's index, [getUserFiles]
    after [saveFile] is the previous listing followed by the new record. *)
Theorem saveFile_then_getUserFiles (fd : option FileData) (owner : string)
    (cat : option string) (w : world) :
  secure_id (oracle w) (drawn w) ∉ default [] (userFiles (db w) !! owner) →
  ∃ i w' before file,
    getUserFiles owner w = (Ok before, w)
    ∧ saveFile fd owner cat w = (Ok i, w')
    ∧ getFile i w' = (Ok (Some file), w')
    ∧ getUserFiles owner w' = (Ok (before ++ [file]), w').
Proof.
  intros Hfresh.
  destruct (saveFile_run fd owner cat w)
    as (w' & Hrun & Hf & Hu & _).
  do 4 eexists. split; [apply getUserFiles_run|]. split; [exact Hrun|].
  split. { unfold getFile. run. rewrite Hf, lookup_insert_eq. reflexivity. }
  rewrite getUserFiles_run. f_equal. f_equal.
  rewrite Hu, lookup_insert_eq, Hf. simpl.
  rewrite omap_app. simpl. rewrite lookup_insert_eq. simpl. f_equal.
  revert Hfresh. generalize (default [] (userFiles (db w) !! owner)).
  induction l as [|j l IH]; intros Hfresh; [reflexivity|].
  apply not_elem_of_cons in Hfresh as [Hne Hfresh].
  csimpl. rewrite lookup_insert_ne by assumption. now rewrite IH.
Qed.

(** X3. Deleting what was just saved.  When the drawn identifier is new to
    the store (no record, and not in the two indexes concerned), the owner's
    [deleteFile] right after [saveFile] succeeds and the records and both
    index lists are what they were before the save. *)
Theorem saveFile_then_deleteFile (cfg : Config) (fd : option FileData)
    (owner : string) (cat : option string) (w : world) :
  let i := secure_id (oracle w) (drawn w) in
  let c := default "general" cat in
  files (db w) !! i = None →
  i ∉ default [] (userFiles (db w) !! owner) →
  i ∉ default [] (categories (db w) !! c) →
  ∃ w1 w2, saveFile fd owner cat w = (Ok i, w1)
    ∧ deleteFile cfg (Some i) owner w1 = (Ok true, w2)
    ∧ files (db w2) = files (db w)
    ∧ default [] (userFiles (db w2) !! owner) = default [] (userFiles (db w) !! owner)
    ∧ default [] (categories (db w2) !! c) = default [] (categories (db w) !! c)
    ∧ (∀ u, u ≠ owner → userFiles (db w2) !! u = userFiles (db w) !! u)
    ∧ (∀ c', c' ≠ c → categories (db w2) !! c' = categories (db w) !! c').
Proof.
  intros i c Hnew Hu Hc.
  destruct (saveFile_run fd owner cat w)
    as (w1 & Hrun & Hf1 & Hu1 & Hc1 & _).
  fold i c in Hrun, Hf1, Hu1, Hc1.
  destruct (deleteFile_run cfg i owner w1 _
              ltac:(rewrite Hf1; apply lookup_insert_eq) ltac:(now right))
    as (w2 & Hdel & Hf2 & Hu2 & Hc2 & _).
  cbn [savedBy category] in Hu2, Hc2.
  exists w1, w2. split; [exact Hrun|]. split; [exact Hdel|].
  split. { rewrite Hf2, Hf1, delete_insert_eq. now apply delete_id. }
  split.
  { rewrite Hu2, lookup_insert_eq, Hu1, lookup_insert_eq. simpl.
    rewrite filter_other_ids. now apply filter_other_ids_snoc. }
  split.
  { rewrite Hc2, lookup_insert_eq, Hc1, lookup_insert_eq. simpl.
    rewrite filter_other_ids. now apply filter_other_ids_snoc. }
  split.
  - intros u Hne. now rewrite Hu2, Hu1, !lookup_insert_ne by congruence.
  - intros c' Hne. now rewrite Hc2, Hc1, !lookup_insert_ne by congruence.
Qed.

(** X4. Listing after a deletion.  Once a permitted [deleteFile] of a
    stored record has run, the owner's listing holds exactly the records of
    the other identifiers of the index, in the order of the index: the
    deleted identifier contributes nothing any more. *)
Theorem deleteFile_then_getUserFiles (cfg : Config) (fileId requesterId : string)
    (w : world) (file : FileRecord) :
  files (db w) !! fileId = Some file →
  requesterId ∈ ADMIN_IDS cfg ∨ savedBy file = requesterId →
  ∃ w', deleteFile cfg (Some fileId) requesterId w = (Ok true, w')
    ∧ getUserFiles (savedBy file) w' =
        (Ok (omap (λ i, files (db w) !! i)
               (filter (λ i, i ≠ fileId)
                  (default [] (userFiles (db w) !! savedBy file)))), w').
Proof.
  intros Hfile Hyes.
  destruct (deleteFile_run cfg fileId requesterId w file Hfile Hyes)
    as (w' & Hdel & Hf & Hu & _).
  exists w'. split; [exact Hdel|].
  rewrite getUserFiles_run, Hu, lookup_insert_eq, Hf. simpl.
  rewrite filter_other_ids. f_equal. f_equal.
  generalize (default [] (userFiles (db w) !! savedBy file)).
  induction l as [|j l IH]; [reflexivity|].
  destruct (decide (j = fileId)) as [->|Hne].
  - rewrite filter_cons_False by (intros H; now apply H). exact IH.
  - rewrite filter_cons_True by assumption.
    csimpl. rewrite lookup_delete_ne by congruence. now rewrite IH.
Qed.

(** ** SessionManager and Analytics *)

(** X5. One session per user, created on first access: [getSession] a
    second time returns the same session and changes nothing.  The first
    access of an unknown user stores the [idle] session with empty data,
    stamped with two consecutive clock readings; a stored session is
    returned as it is, without any write. *)
Theorem getSession_twice (user : string) (w : world) :
  ∃ s w1, getSession user w = (Ok s, w1)
    ∧ getSession user w1 = (Ok s, w1)
    ∧ sessions (db w1) !! user = Some s
    ∧ (sessions (db w) !! user = None →
       s = {| userId := user; state := "idle"; data := no_data;
              s_createdAt := clock (oracle w) (ticks w);
              lastActive := clock (oracle w) (S (ticks w)) |})
    ∧ (∀ s0, sessions (db w) !! user = Some s0 → s = s0 ∧ w1 = w).
Proof.
  unfold getSession. run.
  destruct (sessions (db w) !! user) as [s0|] eqn:Hs.
  - exists s0, w. rewrite Hs. split; [reflexivity|]. split; [reflexivity|].
    split; [reflexivity|]. split; [discriminate|]. now intros s' [= ->].
  - do 2 eexists. split; [reflexivity|]. simpl. rewrite lookup_insert_eq.
    repeat split; discriminate.
Qed.

Lemma totalOf_insert_new (name : string) (x : Z) (m : gmap string Z) :
  m !! name = None → totalOf (<[name := x]> m) = totalOf m + x.
Proof.
  intros Hnew. unfold totalOf.
  rewrite map_fold_insert_L; [reflexivity| |assumption]. intros. lia.
Qed.

Lemma totalOf_bump (name : string) (m : gmap string Z) :
  totalOf (bump name m) = totalOf m + 1.
Proof.
  unfold bump. destruct (m !! name) as [v|] eqn:Hv; simpl.
  - rewrite <- insert_delete_eq.
    rewrite <- (insert_delete_id m name v Hv) at 2.
    rewrite !totalOf_insert_new by apply lookup_delete_eq. lia.
  - now rewrite totalOf_insert_new.
Qed.

Lemma userTotal_insert_new (name : string) (x : UserStat) (m : gmap string UserStat) :
  m !! name = None → userTotal (<[name := x]> m) = userTotal m + u_actions x.
Proof.
  intros Hnew. unfold userTotal.
  rewrite map_fold_insert_L; [reflexivity| |assumption]. intros. lia.
Qed.

Lemma userTotal_insert (name : string) (x : UserStat) (m : gmap string UserStat) :
  userTotal (<[name := x]> m)
  = userTotal m - default 0 (u_actions <$> m !! name) + u_actions x.
Proof.
  destruct (m !! name) as [v|] eqn:Hv; simpl.
  - rewrite <- insert_delete_eq.
    rewrite <- (insert_delete_id m name v Hv) at 2.
    rewrite !userTotal_insert_new by apply lookup_delete_eq. lia.
  - rewrite userTotal_insert_new by assumption. lia.
Qed.

(** X6. What one tracked event adds.  The user id and the action are
    names that [Object.prototype] does not hold (the ids are decimal
    numerals, the actions [message] and [callback_query]).  With analytics
    enabled, [trackAction] stores statistics in which the counter of the
    action and the action count of the user are each one higher (starting
    from zero when absent) and every other counter is as before; so the sum
    of the action counters and the sum of the users' action counts both
    grow by exactly one, and the user table gains an entry only for a user
    not seen before.  With analytics disabled the world is unchanged. *)
Theorem trackAction_counts (cfg : Config) (isoDate : Z → string)
    (user action : string) (w : world) :
  let before := default empty_stats (stats (db w)) in
  Object_prototype user = None → Object_prototype action = None →
  if ANALYTICS_ENABLED cfg then
    ∃ w' after, trackAction cfg isoDate user action w = (Ok (), w')
      ∧ stats (db w') = Some after
      ∧ actions after !! action = Some (default 0 (actions before !! action) + 1)
      ∧ (∀ a, a ≠ action → actions after !! a = actions before !! a)
      ∧ u_actions <$> users after !! user
        = Some (default 0 (u_actions <$> users before !! user) + 1)
      ∧ (∀ u, u ≠ user → users after !! u = users before !! u)
      ∧ totalOf (actions after) = totalOf (actions before) + 1
      ∧ userTotal (users after) = userTotal (users before) + 1
      ∧ size (users after)
        = match users before !! user with
          | Some _ => size (users before)
          | None => S (size (users before))
          end
  else trackAction cfg isoDate user action w = (Ok (), w).
Proof.
  intros before _ _. unfold trackAction.
  destruct (ANALYTICS_ENABLED cfg); [|reflexivity].
  cbn [negb]. run. fold before.
  destruct (users before !! user) as [seen|] eqn:Hseen; run;
    (do 2 eexists; split; [reflexivity|]; simpl; split; [reflexivity|]; simpl;
     split; [apply lookup_insert_eq|];
     split; [intros a Hne; now apply lookup_insert_ne|];
     split; [now rewrite lookup_insert_eq|];
     split; [intros u Hne; now apply lookup_insert_ne|];
     split; [apply totalOf_bump|];
     split; [rewrite userTotal_insert, Hseen; simpl; lia|];
     rewrite map_size_insert, Hseen; reflexivity).
Qed.

(** ** CommandHandler: cancelling, saving, deleting *)

Lemma setState_run (user newState : string) (newData : SessionData) (w : world) :
  ∃ s' w', setState user newState newData w = (Ok s', w')
    ∧ state s' = newState ∧ data s' = newData
    ∧ sessions (db w') !! user = Some s'
    ∧ (∀ u, u ≠ user → sessions (db w') !! u = sessions (db w) !! u)
    ∧ files (db w') = files (db w) ∧ userFiles (db w') = userFiles (db w)
    ∧ categories (db w') = categories (db w) ∧ stats (db w') = stats (db w)
    ∧ sent w' = sent w ∧ oracle w' = oracle w ∧ drawn w' = drawn w.
Proof.
  unfold setState, updateSession.
  destruct (getSession_run user w)
    as (s & w1 & Hrun & Hsess & _ & _ & Hf & Hu & Hc & Hst & Hsent & Hor & Hdr & _).
  rewrite bind_run, Hrun. run.
  do 2 eexists. split; [reflexivity|]. simpl.
  split; [reflexivity|]. split; [reflexivity|].
  split; [apply lookup_insert_eq|].
  split. { intros u Hne. rewrite lookup_insert_ne by congruence.
           rewrite Hsess. now apply lookup_insert_ne. }
  repeat split; assumption.
Qed.

(** A computation followed by one request. *)
Lemma then_call {A} (m : M A) (c : call) (a : A) (w w1 : world) :
  m w = (Ok a, w1) →
  ∃ r w', (m ≫= λ _, callMethod c) w = (r, w')
    ∧ db w' = db w1 ∧ sent w' = sent w1 ++ [c] ∧ drawn w' = drawn w1.
Proof.
  intros Hm. rewrite bind_run, Hm.
  destruct (callMethod_run c w1) as (r & w' & Hcall & Hdb & Hsent & _ & Hdr & _).
  now exists r, w'.
Qed.

(** X7. [/cancel] in any state: the sender's session is stored as [idle]
    with empty data, the one message sent is the cancellation notice, and
    no record, index or statistic changes. *)
Theorem handleCancel_resets (message : Message) (w : world) :
  let user := js_String (Telegram.from_id message) in
  ∃ r w' s', handleCancel message w = (r, w')
    ∧ sessions (db w') !! user = Some s'
    ∧ state s' = "idle" ∧ data s' = no_data
    ∧ (∀ u, u ≠ user → sessions (db w') !! u = sessions (db w) !! u)
    ∧ files (db w') = files (db w) ∧ userFiles (db w') = userFiles (db w)
    ∧ categories (db w') = categories (db w) ∧ stats (db w') = stats (db w)
    ∧ sent w' = sent w ++ [SendMessage (Telegram.chat_id message)
                             "Current operation canceled." None].
Proof.
  intros user. unfold handleCancel. fold user.
  destruct (setState_run user "idle" no_data w)
    as (s' & w1 & Hset & Hstate & Hdata & Hs & Hothers & Hf & Hu & Hc & Hst & Hsent & _).
  destruct (then_call (setState user "idle" no_data)
              (SendMessage (Telegram.chat_id message) "Current operation canceled." None)
              s' w w1 Hset) as (r & w' & Hrun & Hdb & Hsent' & _).
  exists r, w', s'. split; [exact Hrun|]. rewrite Hdb, Hsent', Hsent.
  repeat split; assumption.
Qed.

(** X8. [/cancel] has priority over a pending flow.  For a user whose
    session is not [idle], a message whose text is [/cancel] in any
    letter case never reaches the continuation of the flow: the session
    becomes [idle] with empty data, no record and no index changes, and the
    cancellation notice is the one message sent. *)
Theorem processMessage_cancel (cfg : Config) (fmt isoDate : Z → string)
    (message : Message) (w : world) (session : Session) :
  let user := js_String (Telegram.from_id message) in
  sessions (db w) !! user = Some session →
  state session ≠ "idle" →
  toLowerCase (default EmptyString (Telegram.text message)) = "/cancel" →
  ∃ r w' s', processMessage cfg fmt isoDate message w = (r, w')
    ∧ sessions (db w') !! user = Some s'
    ∧ state s' = "idle" ∧ data s' = no_data
    ∧ files (db w') = files (db w) ∧ userFiles (db w') = userFiles (db w)
    ∧ categories (db w') = categories (db w)
    ∧ sent w' = sent w ++ [SendMessage (Telegram.chat_id message)
                             "Current operation canceled." None].
Proof.
  intros user Hsession Hstate Htext.
  remember (processMessage cfg fmt isoDate message w) as out eqn:Hout.
  unfold processMessage in Hout. cbv zeta in Hout. fold user in Hout.
  destruct (trackAction_run cfg isoDate user "message" w)
    as (w1 & Htrack & Hf & Hu & Hc & Hs & Hsent & _).
  unfold mbind, M_bind in Hout. rewrite Htrack in Hout.
  destruct (getSession_run user w1) as (s & w2 & Hget & _ & Hold & _).
  rewrite Hs in Hold. destruct (Hold _ Hsession) as [-> ->].
  rewrite Hget in Hout.
  rewrite bool_decide_eq_true_2 in Hout by assumption.
  rewrite bool_decide_eq_true_2 in Hout by assumption.
  unfold handleCancel in Hout. fold user in Hout.
  destruct (setState_run user "idle" no_data w1)
    as (s' & w2 & Hset & Hstate' & Hdata' & Hs' & _ & Hf' & Hu' & Hc' & _ & Hsent' & _).
  destruct (then_call (setState user "idle" no_data)
              (SendMessage (Telegram.chat_id message) "Current operation canceled." None)
              s' w1 w2 Hset) as (r & w' & Hrun & Hdb & Hsent'' & _).
  exists r, w', s'. split; [now rewrite Hout|].
  rewrite Hdb, Hsent'', Hf', Hu', Hc', Hsent', Hf, Hu, Hc, Hsent.
  repeat split; assumption.
Qed.

Lemma trackAction_frame (cfg : Config) (isoDate : Z → string) (user action : string)
    (w : world) :
  ∃ w', trackAction cfg isoDate user action w = (Ok (), w')
    ∧ files (db w') = files (db w) ∧ userFiles (db w') = userFiles (db w)
    ∧ categories (db w') = categories (db w) ∧ sessions (db w') = sessions (db w)
    ∧ sent w' = sent w ∧ oracle w' = oracle w ∧ drawn w' = drawn w.
Proof.
  unfold trackAction. destruct (ANALYTICS_ENABLED cfg); simpl.
  - run. destruct (users (default empty_stats (stats (db w))) !! user);
      run; eexists; (split; [reflexivity|]); repeat split.
  - exists w. repeat split.
Qed.

(** How a message of a user with a stored session reaches the handlers. *)
Lemma processMessage_session (cfg : Config) (fmt isoDate : Z → string)
    (message : Message) (w : world) (session : Session) :
  let user := js_String (Telegram.from_id message) in
  let text := default EmptyString (Telegram.text message) in
  sessions (db w) !! user = Some session →
  ∃ w1, trackAction cfg isoDate user "message" w = (Ok (), w1)
    ∧ files (db w1) = files (db w) ∧ userFiles (db w1) = userFiles (db w)
    ∧ categories (db w1) = categories (db w) ∧ sessions (db w1) = sessions (db w)
    ∧ sent w1 = sent w ∧ oracle w1 = oracle w ∧ drawn w1 = drawn w
    ∧ processMessage cfg fmt isoDate message w =
        (if bool_decide (state session ≠ "idle") then
           if bool_decide (toLowerCase text = "/cancel") then handleCancel message
           else if bool_decide (state session = "awaiting_file_category") then
             handleFileCategoryInput cfg message session
           else if bool_decide (state session = "awaiting_delete_confirm") then
             handleDeleteConfirmation cfg message session
           else dispatchCommand cfg fmt message session
         else dispatchCommand cfg fmt message session) w1.
Proof.
  intros user text Hsession.
  destruct (trackAction_frame cfg isoDate user "message" w)
    as (w1 & Htrack & Hf & Hu & Hc & Hs & Hsent & Hor & Hdr).
  exists w1. repeat (split; [assumption|]).
  unfold processMessage. cbv zeta. fold user text.
  unfold mbind, M_bind. rewrite Htrack.
  destruct (getSession_run user w1) as (s & w2 & Hget & _ & Hold & _).
  rewrite Hs in Hold. destruct (Hold _ Hsession) as [-> ->].
  rewrite Hget. reflexivity.
Qed.


(** X10. While a category is awaited, the word [cancel], in any letter
    case and with any surrounding white space, discards the pending file:
    no record is written and no index changes, the session goes back to
    [idle] with empty data, and the notice is the one message sent. *)
Theorem processMessage_category_cancel (cfg : Config) (fmt isoDate : Z → string)
    (message : Message) (w : world) (session : Session) (t : string) :
  let user := js_String (Telegram.from_id message) in
  sessions (db w) !! user = Some session →
  state session = "awaiting_file_category" →
  Telegram.text message = Some t →
  toLowerCase (trim t) = "cancel" →
  ∃ r w' s', processMessage cfg fmt isoDate message w = (r, w')
    ∧ files (db w') = files (db w) ∧ userFiles (db w') = userFiles (db w)
    ∧ categories (db w') = categories (db w)
    ∧ sessions (db w') !! user = Some s'
    ∧ state s' = "idle" ∧ data s' = no_data
    ∧ drawn w' = drawn w
    ∧ sent w' = sent w ++ [SendMessage (Telegram.chat_id message)
                             "File saving canceled." None].
Proof.
  intros user Hsession Hstate Htext Hcategory.
  assert (toLowerCase t ≠ "/cancel") as Hnocancel
    by (apply (not_cancel_command t "cancel" Hcategory); discriminate).
  destruct (processMessage_session cfg fmt isoDate message w session Hsession)
    as (w1 & _ & Hf & Hu & Hc & Hs & Hsent & Hor & Hdr & ->).
  rewrite Htext. cbn [default].
  rewrite bool_decide_eq_true_2 by (rewrite Hstate; discriminate).
  rewrite bool_decide_eq_false_2 by assumption.
  rewrite bool_decide_eq_true_2 by assumption.
  unfold handleFileCategoryInput. rewrite Htext. fold user.
  rewrite bool_decide_eq_true_2 by assumption.
  destruct (setState_run user "idle" no_data w1)
    as (s' & w2 & Hset & Hstate' & Hdata' & Hs' & _ & Hf2 & Hu2 & Hc2 & _ & Hsent2
        & _ & Hdr2).
  destruct (then_call (setState user "idle" no_data)
              (SendMessage (Telegram.chat_id message) "File saving canceled." None)
              s' w1 w2 Hset) as (r & w' & Hrun & Hdb & Hsent' & Hdr').
  exists r, w', s'. split; [exact Hrun|].
  rewrite Hdb, Hsent', Hdr', Hf2, Hu2, Hc2, Hsent2, Hdr2, Hf, Hu, Hc, Hsent, Hdr.
  repeat split; assumption.
Qed.

(** X11. [/save] from a user who is no administrator, in the [idle]
    state: the reply is the refusal, and neither a record, an index nor a
    session changes, whatever message the command replies to. *)
Theorem processMessage_save_unauthorized (cfg : Config) (fmt isoDate : Z → string)
    (message : Message) (w : world) (session : Session) (args : string) :
  let user := js_String (Telegram.from_id message) in
  sessions (db w) !! user = Some session →
  state session = "idle" →
  parseCommand (default EmptyString (Telegram.text message)) = Some ("save", args) →
  isAdmin cfg user = false →
  ∃ r w', processMessage cfg fmt isoDate message w = (r, w')
    ∧ files (db w') = files (db w) ∧ userFiles (db w') = userFiles (db w)
    ∧ categories (db w') = categories (db w) ∧ sessions (db w') = sessions (db w)
    ∧ sent w' = sent w ++ [SendMessage (Telegram.chat_id message)
                             "❌ Unauthorized. Only admins can save files." None].
Proof.
  intros user Hsession Hstate Hparse Hadmin.
  destruct (processMessage_session cfg fmt isoDate message w session Hsession)
    as (w1 & _ & Hf & Hu & Hc & Hs & Hsent & _ & _ & ->).
  rewrite bool_decide_eq_false_2 by (rewrite Hstate; tauto).
  unfold dispatchCommand. rewrite Hparse.
  change (commands cfg fmt "save") with (Some (λ (m : Message) (_ : string), handleSave cfg m)).
  cbv beta iota. unfold handleSave. fold user. rewrite Hadmin. cbn [negb].
  unfold sendMessage.
  match goal with
  | |- context [callMethod ?c w1] =>
      destruct (callMethod_run c w1) as (r & w' & Hcall & Hdb & Hsent' & _)
  end.
  exists r, w'. split; [exact Hcall|].
  rewrite Hdb, Hsent', Hf, Hu, Hc, Hs, Hsent. repeat split.
Qed.

(** X12. [/save] from an administrator, in reply to a message with a
    recognised attachment: nothing is stored yet.  The session becomes
    [awaiting_file_category] and holds the id of the replied-to message and
    the extracted file data; the reply offers the category keyboard. *)
Theorem handleSave_arms (cfg : Config) (message : Message) (w : world)
    (fileMsg : Telegram.Media) (fd : FileData) :
  let user := js_String (Telegram.from_id message) in
  isAdmin cfg user = true →
  Telegram.reply_to_message message = Some fileMsg →
  extractFileData fileMsg = Some fd →
  ∃ r w' s', handleSave cfg message w = (r, w')
    ∧ sessions (db w') !! user = Some s'
    ∧ state s' = "awaiting_file_category"
    ∧ data s' = {| messageId := Some (Telegram.message_id fileMsg);
                   pendingFile := Some fd; fileId := None |}
    ∧ files (db w') = files (db w) ∧ userFiles (db w') = userFiles (db w)
    ∧ categories (db w') = categories (db w)
    ∧ sent w' = sent w ++
        [SendMessage (Telegram.chat_id message)
           "Please select a category for this file or type a custom category name:"
           (Some categoriesKeyboard)].
Proof.
  intros user Hadmin Hreply Hextract.
  unfold handleSave. fold user. rewrite Hadmin, Hreply, Hextract. cbn [negb].
  destruct (setState_run user "awaiting_file_category"
              (pending (Telegram.message_id fileMsg) fd) w)
    as (s' & w1 & Hset & Hstate' & Hdata' & Hs' & _ & Hf & Hu & Hc & _ & Hsent & _).
  unfold sendMessage.
  destruct (then_call _ (SendMessage (Telegram.chat_id message)
              "Please select a category for this file or type a custom category name:"
              (Some categoriesKeyboard)) s' w w1 Hset)
    as (r & w' & Hrun & Hdb & Hsent' & _).
  exists r, w', s'. split; [exact Hrun|].
  rewrite Hdb, Hsent', Hf, Hu, Hc, Hsent. repeat split; assumption.
Qed.

(** X13. [extractFileData] yields a file of one of the six kinds, with the
    message's caption (empty when absent), and yields nothing exactly when
    the message has no document, no photo size, no video, audio, voice or
    animation.  A document wins over everything else.  A message that
    [hasAttachment] accepts and [extractFileData] rejects is one whose
    photo array is empty. *)
Theorem extractFileData_kinds (message : Telegram.Media) :
  (∀ fd, extractFileData message = Some fd →
         file_type fd ∈ kinds
         ∧ caption fd = default EmptyString (Telegram.caption message))
  ∧ (extractFileData message = None ↔
       Telegram.document message = None
       ∧ default [] (Telegram.photo message) = []
       ∧ Telegram.video message = None ∧ Telegram.audio message = None
       ∧ Telegram.voice message = None ∧ Telegram.animation message = None)
  ∧ (∀ a, Telegram.document message = Some a →
          ∃ fd, extractFileData message = Some fd ∧ file_type fd = "document"
                ∧ file_id fd = Telegram.file_id a)
  ∧ (hasAttachment message = true → extractFileData message = None →
     Telegram.photo message = Some []).
Proof.
  assert (∀ l : list Telegram.Attachment, last l = None → l = []) as Hlast.
  { intros l. destruct l as [|a l] using rev_ind; [reflexivity|].
    rewrite last_snoc. discriminate. }
  unfold extractFileData, hasAttachment, kinds.
  destruct message as [mid cap doc photo video audio voice animation]. simpl.
  split; [|split; [|split]].
  - intros fd.
    destruct doc; [intros [= <-]; simpl; split; [set_solver|reflexivity]|].
    destruct (last (default [] photo));
      [intros [= <-]; simpl; split; [set_solver|reflexivity]|].
    destruct video; [intros [= <-]; simpl; split; [set_solver|reflexivity]|].
    destruct audio; [intros [= <-]; simpl; split; [set_solver|reflexivity]|].
    destruct voice; [intros [= <-]; simpl; split; [set_solver|reflexivity]|].
    destruct animation; [intros [= <-]; simpl; split; [set_solver|reflexivity]|].
    discriminate.
  - split.
    + destruct doc; [discriminate|].
      destruct (last (default [] photo)) eqn:Hp; [discriminate|].
      destruct video; [discriminate|]. destruct audio; [discriminate|].
      destruct voice; [discriminate|]. destruct animation; [discriminate|].
      intros _. repeat split. now apply Hlast.
    + intros (-> & Hp & -> & -> & -> & ->). now rewrite Hp.
  - intros a ->. eexists. split; [reflexivity|]. split; reflexivity.
  - destruct doc; [discriminate|].
    destruct (last (default [] photo)) eqn:Hp; [discriminate|].
    destruct video; [discriminate|]. destruct audio; [discriminate|].
    destruct voice; [discriminate|]. destruct animation; [discriminate|].
    apply Hlast in Hp. destruct photo as [l|]; [|discriminate].
    simpl in Hp. now subst.
Qed.

(** X14. [/delete] itself removes nothing.  Whatever the argument and
    whoever asks, the records and both indexes are as before.  Without an
    argument, for an id that resolves to no record, or for a requester who
    is neither the owner nor an administrator, the sessions are untouched
    as well; otherwise the requester's session becomes
    [awaiting_delete_confirm] and holds the trimmed id. *)
Theorem handleDelete_arms_only (cfg : Config) (message : Message) (args : string)
    (w : world) :
  let user := js_String (Telegram.from_id message) in
  ∃ r w', handleDelete cfg message args w = (r, w')
    ∧ files (db w') = files (db w) ∧ userFiles (db w') = userFiles (db w)
    ∧ categories (db w') = categories (db w)
    ∧ length (sent w') = S (length (sent w))
    ∧ match files (db w) !! trim args with
      | Some file =>
          if truthy_str args
             && (isAdmin cfg user || bool_decide (savedBy file = user))
          then ∃ s', sessions (db w') !! user = Some s'
                     ∧ state s' = "awaiting_delete_confirm"
                     ∧ data s' = {| messageId := None; pendingFile := None;
                                    fileId := Some (trim args) |}
          else sessions (db w') = sessions (db w)
      | None => sessions (db w') = sessions (db w)
      end.
Proof.
  intros user. unfold handleDelete. fold user.
  assert (∀ c, ∃ r w', sendMessage (Telegram.chat_id message) c None w = (r, w')
               ∧ files (db w') = files (db w) ∧ userFiles (db w') = userFiles (db w)
               ∧ categories (db w') = categories (db w)
               ∧ length (sent w') = S (length (sent w))
               ∧ sessions (db w') = sessions (db w)) as Hreply.
  { intros c. unfold sendMessage.
    destruct (callMethod_run (SendMessage (Telegram.chat_id message) c None) w)
      as (r & w' & Hcall & Hdb & Hsent & _).
    exists r, w'. rewrite Hdb, Hsent, length_app. simpl.
    repeat split; [assumption|lia]. }
  destruct (truthy_str args) eqn:Hargs; cbn [negb andb].
  - unfold getFile. run.
    destruct (files (db w) !! trim args) as [file|] eqn:Hfile.
    + destruct (isAdmin cfg user) eqn:Hadmin; cbn [negb andb orb].
      * destruct (setState_run user "awaiting_delete_confirm"
                    (pendingDelete (trim args)) w)
          as (s' & w1 & Hset & Hstate' & Hdata' & Hs' & _ & Hf & Hu & Hc & _ & Hsent & _).
        rewrite Hset. unfold sendMessage.
        match goal with
        | |- context [callMethod ?c w1] =>
            destruct (callMethod_run c w1) as (r & w' & Hcall & Hdb & Hsent' & _)
        end.
        exists r, w'. split; [exact Hcall|].
        rewrite Hdb, Hsent', length_app, Hf, Hu, Hc, Hsent. simpl.
        repeat (split; [first [reflexivity|lia]|]). now exists s'.
      * destruct (decide (savedBy file = user)) as [Howner|Hother].
        -- rewrite (bool_decide_eq_false_2 (savedBy file ≠ user)) by tauto.
           rewrite (bool_decide_eq_true_2 (savedBy file = user)) by assumption.
           destruct (setState_run user "awaiting_delete_confirm"
                       (pendingDelete (trim args)) w)
             as (s' & w1 & Hset & Hstate' & Hdata' & Hs' & _ & Hf & Hu & Hc & _ & Hsent & _).
           rewrite Hset. unfold sendMessage.
           match goal with
           | |- context [callMethod ?c w1] =>
               destruct (callMethod_run c w1) as (r & w' & Hcall & Hdb & Hsent' & _)
           end.
           exists r, w'. split; [exact Hcall|].
           rewrite Hdb, Hsent', length_app, Hf, Hu, Hc, Hsent. simpl.
           repeat (split; [first [reflexivity|lia]|]). now exists s'.
        -- rewrite (bool_decide_eq_true_2 (savedBy file ≠ user)) by assumption.
           rewrite (bool_decide_eq_false_2 (savedBy file = user)) by assumption.
           destruct (Hreply "You don't have permission to delete this file.")
             as (r & w' & Hrun & H). exists r, w'. split; [exact Hrun|].
           decompose [and] H. repeat split; assumption.
    + destruct (Hreply "File not found.") as (r & w' & Hrun & H).
      exists r, w'. split; [exact Hrun|]. decompose [and] H. repeat split; assumption.
  - destruct (Hreply
      "Please specify a file ID to delete or use the file list from /files command.")
      as (r & w' & Hrun & H).
    exists r, w'. split; [exact Hrun|]. decompose [and] H.
    repeat (split; [assumption|]). now destruct (files (db w) !! trim args).
Qed.

(** X15. After the question of [/delete], only [confirm] deletes.  For a
    user in [awaiting_delete_confirm], a text whose trimmed, lower-cased
    form is not [confirm] leaves every record and index in place; the
    session goes back to [idle] with empty data and the notice is sent. *)
Theorem processMessage_delete_declined (cfg : Config) (fmt isoDate : Z → string)
    (message : Message) (w : world) (session : Session) (t : string) :
  let user := js_String (Telegram.from_id message) in
  sessions (db w) !! user = Some session →
  state session = "awaiting_delete_confirm" →
  Telegram.text message = Some t →
  toLowerCase t ≠ "/cancel" →
  toLowerCase (trim t) ≠ "confirm" →
  ∃ r w' s', processMessage cfg fmt isoDate message w = (r, w')
    ∧ files (db w') = files (db w) ∧ userFiles (db w') = userFiles (db w)
    ∧ categories (db w') = categories (db w)
    ∧ sessions (db w') !! user = Some s'
    ∧ state s' = "idle" ∧ data s' = no_data
    ∧ sent w' = sent w ++ [SendMessage (Telegram.chat_id message)
                             "File deletion canceled." None].
Proof.
  intros user Hsession Hstate Htext Hnocancel Hdeclined.
  destruct (processMessage_session cfg fmt isoDate message w session Hsession)
    as (w1 & _ & Hf & Hu & Hc & Hs & Hsent & _ & _ & ->).
  rewrite Htext. cbn [default].
  rewrite bool_decide_eq_true_2 by (rewrite Hstate; discriminate).
  rewrite bool_decide_eq_false_2 by assumption.
  rewrite bool_decide_eq_false_2 by (rewrite Hstate; discriminate).
  rewrite bool_decide_eq_true_2 by assumption.
  unfold handleDeleteConfirmation. rewrite Htext. fold user. cbv zeta.
  rewrite bool_decide_eq_false_2 by assumption.
  destruct (setState_run user "idle" no_data w1)
    as (s' & w2 & Hset & Hstate' & Hdata' & Hs' & _ & Hf2 & Hu2 & Hc2 & _ & Hsent2 & _).
  destruct (then_call (setState user "idle" no_data)
              (SendMessage (Telegram.chat_id message) "File deletion canceled." None)
              s' w1 w2 Hset) as (r & w' & Hrun & Hdb & Hsent' & _).
  exists r, w', s'. split; [exact Hrun|].
  rewrite Hdb, Hsent', Hf2, Hu2, Hc2, Hsent2, Hf, Hu, Hc, Hsent.
  repeat split; assumption.
Qed.

(** X16. [confirm] after the question of [/delete], from the owner or an
    administrator, for a record that is still stored: the record is gone,
    its id is filtered out of the owner's index, the session is [idle]
    again and the success notice is sent. *)
Theorem processMessage_delete_confirmed (cfg : Config) (fmt isoDate : Z → string)
    (message : Message) (w : world) (session : Session) (t id : string)
    (file : FileRecord) :
  let user := js_String (Telegram.from_id message) in
  sessions (db w) !! user = Some session →
  state session = "awaiting_delete_confirm" →
  fileId (data session) = Some id →
  files (db w) !! id = Some file →
  user ∈ ADMIN_IDS cfg ∨ savedBy file = user →
  Telegram.text message = Some t →
  toLowerCase (trim t) = "confirm" →
  ∃ r w' s', processMessage cfg fmt isoDate message w = (r, w')
    ∧ files (db w') = delete id (files (db w))
    ∧ userFiles (db w') !! savedBy file
      = Some (filter (λ i, i ≠ id) (default [] (userFiles (db w) !! savedBy file)))
    ∧ sessions (db w') !! user = Some s'
    ∧ state s' = "idle" ∧ data s' = no_data
    ∧ sent w' = sent w ++ [SendMessage (Telegram.chat_id message)
                             "✅ File deleted successfully." None].
Proof.
  intros user Hsession Hstate Hid Hfile Hmay Htext Hconfirm.
  assert (toLowerCase t ≠ "/cancel") as Hnocancel
    by (apply (not_cancel_command t "confirm" Hconfirm); discriminate).
  destruct (processMessage_session cfg fmt isoDate message w session Hsession)
    as (w1 & _ & Hf & Hu & Hc & Hs & Hsent & _ & _ & ->).
  rewrite Htext. cbn [default].
  rewrite bool_decide_eq_true_2 by (rewrite Hstate; discriminate).
  rewrite bool_decide_eq_false_2 by assumption.
  rewrite bool_decide_eq_false_2 by (rewrite Hstate; discriminate).
  rewrite bool_decide_eq_true_2 by assumption.
  unfold handleDeleteConfirmation. rewrite Htext, Hid. fold user. cbv zeta.
  rewrite bool_decide_eq_true_2 by assumption.
  destruct (setState_run user "idle" no_data w1)
    as (s' & w2 & Hset & Hstate' & Hdata' & Hs' & _ & Hf2 & Hu2 & Hc2 & _ & Hsent2 & _).
  assert (files (db w2) !! id = Some file) as Hfile2 by now rewrite Hf2, Hf.
  destruct (deleteFile_run cfg id user w2 file Hfile2 Hmay)
    as (w3 & Hdel & Hf3 & Hu3 & _ & Hs3 & _ & Hsent3 & _).
  unfold mbind at 1, M_bind at 1. rewrite Hset.
  unfold mbind, M_bind. rewrite Hdel. unfold sendMessage.
  match goal with
  | |- context [callMethod ?c w3] =>
      destruct (callMethod_run c w3) as (r & w' & Hcall & Hdb & Hsent' & _)
  end.
  exists r, w', s'. split; [exact Hcall|].
  rewrite Hdb, Hsent', Hf3, Hu3, Hs3, Hsent3, Hf2, Hu2, Hsent2, Hf, Hu, Hsent.
  rewrite lookup_insert_eq, filter_other_ids.
  repeat split; assumption.
Qed.

(** * Command and token parsing *)

(** X17. What [parseCommand] hands to the dispatcher.  The text starts with
    a slash; the command is a non-empty word of [[a-z0-9_]] and of the
    lower-cased letters, so that [/START] and [/start] are the same
    command; the arguments carry no white space at either end and no line
    terminator. *)
Theorem parseCommand_shape (text cmd args : string) :
  parseCommand text = Some (cmd, args) →
  startsWith text "/" = true
  ∧ truthy_str cmd = true ∧ string_forall is_word cmd = true
  ∧ toLowerCase cmd = cmd
  ∧ trim args = args ∧ has_line_terminator args = false.
Proof.
  unfold parseCommand. destruct (truthy_str text); [|discriminate]. cbn [negb].
  destruct (match_command text) as [[word group2]|] eqn:Hmatch; [|discriminate].
  intros [= <- <-].
  unfold match_command in Hmatch.
  destruct text as [|slash r]; [discriminate|].
  destruct (Ascii.eqb_spec slash "/") as [->|Hne].
  2:{ exfalso. revert Hmatch. destruct slash as [[] [] [] [] [] [] [] []];
        try discriminate. now contradict Hne. }
  destruct (span is_word r) as [word' r1] eqn:Hspan.
  apply span_spec in Hspan as (_ & Hword & _).
  destruct (truthy_str word') eqn:Htruthy; [|discriminate].
  assert (word = word'
          ∧ match group2 with
            | Some rest => has_line_terminator rest = false
            | None => True
            end) as [-> Hrest].
  { revert Hmatch.
    match goal with
    | |- match ?scrutinee with _ => _ end = _ → _ => destruct scrutinee as [|c r2]
    end.
    - now intros [= <- <-].
    - destruct (is_space c); [|discriminate].
      destruct (has_line_terminator (trimStart (String c r2))) eqn:Hlt; [discriminate|].
      now intros [= <- <-]. }
  split; [reflexivity|].
  rewrite toLowerCase_truthy, toLowerCase_word, toLowerCase_idem.
  repeat (split; [assumption || reflexivity|]).
  destruct group2 as [rest|]; [|now split].
  destruct (truthy_str rest); [|now split].
  split; [apply trim_idem|].
  now apply line_terminator_trimEnd, line_terminator_trimStart.
Qed.

(** X18. Which texts are commands.  After the slash and a non-empty word,
    the rest is empty or starts with white space.  The text is a command
    unless a line terminator follows the first argument character; the
    command is the lower-cased word and the arguments are the trimmed
    rest.  A mention [@name] between the word and the rest changes
    nothing. *)
Theorem parseCommand_accepts (word bot rest : string) :
  truthy_str word = true → string_forall is_word word = true →
  truthy_str bot = true → string_forall is_word bot = true →
  match rest with String c _ => is_space c = true | EmptyString => True end →
  parseCommand ("/" +:+ word +:+ rest)
    = (if has_line_terminator (trimStart rest) then None
       else Some (toLowerCase word, trim rest))
  ∧ parseCommand ("/" +:+ word +:+ "@" +:+ bot +:+ rest)
    = parseCommand ("/" +:+ word +:+ rest).
Proof.
  intros Hword Hwordchars Hbot Hbotchars Hrest.
  assert (∀ c, is_space c = true → is_word c = false) as Hsep.
  { intros c. destruct c as [[] [] [] [] [] [] [] []]; vm_compute; congruence. }
  assert (match rest with String c _ => is_word c = false | EmptyString => True end)
    as Hrest'.
  { destruct rest as [|c r]; [exact I|]. now apply Hsep. }
  assert (∀ tail,
            match tail with String c _ => is_word c = false | EmptyString => True end →
            parseCommand ("/" +:+ word +:+ tail)
            = match match tail with
                    | String "@" r' =>
                        let '(bot, r'') := span is_word r' in
                        if truthy_str bot then r'' else tail
                    | _ => tail
                    end with
              | EmptyString => Some (toLowerCase word, EmptyString)
              | String c r2 =>
                  if is_space c then
                    if has_line_terminator (trimStart (String c r2)) then None
                    else Some (toLowerCase word,
                               if truthy_str (trimStart (String c r2))
                               then trim (trimStart (String c r2)) else EmptyString)
                  else None
              end) as Hparse.
  { intros tail Htail. unfold parseCommand.
    change ("/" +:+ word +:+ tail) with (String "/" (word +:+ tail)).
    cbn [truthy_str negb match_command].
    rewrite (span_app is_word word tail Hwordchars Htail), Hword.
    match goal with
    | |- context [match ?scrutinee with EmptyString => Some (word, None) | _ => _ end] =>
        destruct scrutinee as [|c r2]
    end; [reflexivity|].
    destruct (is_space c); [|reflexivity].
    now destruct (has_line_terminator (trimStart (String c r2))). }
  assert (parseCommand ("/" +:+ word +:+ rest)
          = (if has_line_terminator (trimStart rest) then None
             else Some (toLowerCase word, trim rest))) as Hplain.
  { rewrite (Hparse rest Hrest').
    destruct rest as [|c r]; [reflexivity|].
    assert (c ≠ "@"%char) as Hat by (intros ->; discriminate Hrest).
    assert (match String c r with
            | String "@" r' =>
                let '(bot, r'') := span is_word r' in
                if truthy_str bot then r'' else String c r
            | _ => String c r
            end = String c r) as ->.
    { destruct c as [[] [] [] [] [] [] [] []]; try reflexivity. now contradict Hat. }
    rewrite Hrest.
    destruct (has_line_terminator (trimStart (String c r))); [reflexivity|].
    rewrite trim_trimStart.
    destruct (trimStart (String c r)) eqn:Hts; [|reflexivity].
    unfold trim. now rewrite Hts. }
  split; [exact Hplain|].
  rewrite Hplain.
  rewrite (Hparse ("@" +:+ bot +:+ rest) eq_refl).
  change ("@" +:+ bot +:+ rest) with (String "@" (bot +:+ rest)).
  cbv iota beta.
  rewrite (span_app is_word bot rest Hbotchars Hrest'), Hbot.
  destruct rest as [|c r]; [reflexivity|].
  rewrite Hrest.
  destruct (has_line_terminator (trimStart (String c r))); [reflexivity|].
  rewrite trim_trimStart.
  destruct (trimStart (String c r)) eqn:Hts; [|reflexivity].
  unfold trim. now rewrite Hts.
Qed.

Lemma takeNonSpace_clean (s : string) :
  string_forall (λ c, negb (is_space c)) (takeNonSpace s) = true.
Proof.
  induction s as [|c r IH]; simpl; [reflexivity|].
  destruct (is_space c) eqn:Hc; simpl; [reflexivity|]. now rewrite Hc, IH.
Qed.

Lemma strip_prefix_extend (p s r t : string) :
  strip_prefix p s = Some (t +:+ r) → ∃ r', strip_prefix (p +:+ t) s = Some r'.
Proof.
  revert s. induction p as [|a p IH]; intros s; simpl.
  - intros [= ->]. exists r. apply strip_prefix_app.
  - destruct s as [|b s]; [discriminate|].
    change (String a p +:+ t) with (String a (p +:+ t)). simpl.
    destruct (Ascii.eqb a b); [apply IH|discriminate].
Qed.

Lemma takeNonSpace_prefix (s : string) : ∃ r, s = takeNonSpace s +:+ r.
Proof.
  induction s as [|c s [r IH]]; simpl; [now exists EmptyString|].
  destruct (is_space c).
  - now exists (String c s).
  - exists r. change (String c (takeNonSpace s) +:+ r)
      with (String c (takeNonSpace s +:+ r)). now rewrite <- IH.
Qed.

(** X19. The retrieval token of [/start].  When the pattern [post=(\S+)]
    matches, the token is not empty, holds no white space, and [post=]
    followed by the token occurs in the arguments; arguments without
    [post=] hold no token. *)
Theorem match_post_shape (args : string) :
  match match_post args with
  | Some token =>
      truthy_str token = true
      ∧ string_forall (λ c, negb (is_space c)) token = true
      ∧ includes args ("post=" +:+ token) = true
  | None => True
  end
  ∧ (includes args "post=" = false → match_post args = None).
Proof.
  induction args as [|c r [IHshape IHnone]].
  - split; [exact I|reflexivity].
  - assert (∀ P : option string → Prop,
              (∀ tail, strip_prefix "post=" (String c r) = Some tail →
                       truthy_str (takeNonSpace tail) = true →
                       P (Some (takeNonSpace tail))) →
              P (match_post r) → P (match_post (String c r))) as Hcases.
    { intros P Hhere Hlater.
      change (match_post (String c r)) with
        (match strip_prefix "post=" (String c r) with
         | Some tail =>
             let token := takeNonSpace tail in
             if truthy_str token then Some token else match_post r
         | None => match_post r
         end).
      destruct (strip_prefix "post=" (String c r)) as [tail|]; [|exact Hlater].
      cbv zeta. destruct (truthy_str (takeNonSpace tail)) eqn:Htoken; [|exact Hlater].
      now apply Hhere. }
    split.
    + apply Hcases.
      * intros tail Hstrip Htoken. split; [exact Htoken|].
        split; [apply takeNonSpace_clean|].
        destruct (takeNonSpace_prefix tail) as [rest Hrest].
        rewrite Hrest in Hstrip at 1.
        apply strip_prefix_extend in Hstrip as [r' Hstrip].
        change (includes (String c r) ("post=" +:+ takeNonSpace tail))
          with (startsWith (String c r) ("post=" +:+ takeNonSpace tail)
                || includes r ("post=" +:+ takeNonSpace tail)).
        unfold startsWith. now rewrite Hstrip.
      * destruct (match_post r) as [token|]; [|exact I].
        destruct IHshape as (Ht & Hclean & Hin).
        repeat split; try assumption. now apply includes_tail.
    + intros Hno.
      change (includes (String c r) "post=")
        with (startsWith (String c r) "post=" || includes r "post=") in Hno.
      apply orb_false_elim in Hno as [Hhere Hlater].
      apply Hcases; [|now apply IHnone].
      intros tail Hstrip _. unfold startsWith in Hhere. now rewrite Hstrip in Hhere.
Qed.

Lemma toHex_inj (a b : Byte.byte) : toHex a = toHex b → a = b.
Proof.
  pose (decode := λ s : string,
          match s with
          | String high (String low _) =>
              match digit_val 16 high, digit_val 16 low with
              | Some h, Some l => Byte.of_N (Z.to_N (16 * h + l))
              | _, _ => None
              end
          | _ => None
          end).
  assert (∀ x, decode (toHex x) = Some x) as Hdecode by (intros []; reflexivity).
  intros H. apply (f_equal decode) in H. rewrite !Hdecode in H. congruence.
Qed.

Lemma toHex_chars (b : Byte.byte) :
  ∃ high low, toHex b = String high (String low EmptyString)
    ∧ is_lower_hex high = true ∧ is_lower_hex low = true.
Proof. destruct b; do 2 eexists; (split; [reflexivity|]); split; reflexivity. Qed.

(** X20. The identifiers of [Utils.generateSecureId] as a function of the
    random bytes: two characters per byte (32 for the 16 bytes drawn), all
    of them digits or letters [a] to [f], and different byte arrays give
    different identifiers. *)
Theorem hexOfBytes_identifiers (randomBytes : list Byte.byte) :
  String.length (hexOfBytes randomBytes) = (2 * length randomBytes)%nat
  ∧ string_forall is_lower_hex (hexOfBytes randomBytes) = true
  ∧ ∀ other, hexOfBytes other = hexOfBytes randomBytes → other = randomBytes.
Proof.
  induction randomBytes as [|b rest (IHlen & IHhex & IHinj)].
  - split; [reflexivity|]. split; [reflexivity|].
    intros [|a other]; [reflexivity|]. simpl.
    destruct (toHex_chars a) as (h & l & -> & _). discriminate.
  - destruct (toHex_chars b) as (h & l & Hb & Hh & Hl).
    cbn [hexOfBytes]. rewrite Hb.
    change (String h (String l EmptyString) +:+ hexOfBytes rest)
      with (String h (String l (hexOfBytes rest))).
    split; [cbn [String.length length]; rewrite IHlen; lia|].
    split; [cbn [string_forall]; now rewrite Hh, Hl, IHhex|].
    intros [|a other]; [discriminate|]. cbn [hexOfBytes].
    destruct (toHex_chars a) as (h' & l' & Ha & _). rewrite Ha.
    change (String h' (String l' EmptyString) +:+ hexOfBytes other)
      with (String h' (String l' (hexOfBytes other))).
    intros [= -> -> Hrest]. rewrite <- Hb in Ha.
    now rewrite (toHex_inj _ _ Ha), (IHinj _ Hrest).
Qed.

Lemma hexOfBytes_chars (randomBytes : list Byte.byte) :
  randomBytes ≠ [] →
  string_forall is_lower_hex (hexOfBytes randomBytes) = true
  ∧ truthy_str (hexOfBytes randomBytes) = true.
Proof.
  intros Hne. split.
  - induction randomBytes as [|b rest IH]; [reflexivity|].
    destruct (toHex_chars b) as (h & l & Hb & Hh & Hl).
    cbn [hexOfBytes]. rewrite Hb.
    change (String h (String l EmptyString) +:+ hexOfBytes rest)
      with (String h (String l (hexOfBytes rest))).
    cbn [string_forall]. rewrite Hh, Hl.
    destruct rest; [reflexivity|]. now rewrite IH.
  - destruct randomBytes as [|b rest]; [contradiction|].
    destruct (toHex_chars b) as (h & l & Hb & _).
    cbn [hexOfBytes]. now rewrite Hb.
Qed.

(** * Saving, retrieving and the callbacks *)

(** [/start] with a token that resolves to a record of one of the six
    kinds. *)
Lemma handleStart_found (message : Message) (args postId : string)
    (file : FileRecord) (fd : FileData) (w : world) :
  match_post args = Some postId →
  files (db w) !! postId = Some file →
  fileData file = Some fd → file_type fd ∈ kinds →
  ∃ r w' c, handleStart message args w = (r, w')
    ∧ delivers (Telegram.chat_id message) fd c
    ∧ sent w' = sent w ++ [c]
    ∧ files (db w') =
        <[postId := {| id := id file; fileData := fileData file;
                       savedBy := savedBy file; category := category file;
                       createdAt := createdAt file;
                       accessCount := accessCount file + 1;
                       lastAccessed := Some (clock (oracle w) (ticks w)) |}]>
          (files (db w))
    ∧ userFiles (db w') = userFiles (db w)
    ∧ categories (db w') = categories (db w)
    ∧ sessions (db w') = sessions (db w).
Proof.
  intros Hm Hfile Hfd Hkind.
  remember (handleStart message args w) as out eqn:Hout.
  unfold handleStart in Hout. rewrite Hm in Hout.
  unfold getFile, trackFileAccess, getFile in Hout. run_in Hout.
  rewrite Hfile in Hout. run_in Hout. rewrite Hfile in Hout. run_in Hout.
  unfold typeOf, captionOf, handleOf in Hout. rewrite Hfd in Hout. simpl in Hout.
  fold (forwardedCaption fd) in Hout.
  assert (∃ c w1, out = callMethod c w1 ∧ delivers (Telegram.chat_id message) fd c
            ∧ sent w1 = sent w
            ∧ db w1 = kv_put (FileKey postId)
                {| id := id file; fileData := Some fd;
                   savedBy := savedBy file; category := category file;
                   createdAt := createdAt file;
                   accessCount := accessCount file + 1;
                   lastAccessed := Some (clock (oracle w) (ticks w)) |} (db w))
    as (c & w1 & -> & Hc & Hsent & Hdb).
  { unfold kinds in Hkind. rewrite !elem_of_cons in Hkind.
    destruct Hkind as [Hk|[Hk|[Hk|[Hk|[Hk|[Hk|Hk]]]]]];
      [| | | | | |now apply elem_of_nil in Hk];
      rewrite Hk in Hout; simpl in Hout;
      (eexists _, _; split; [exact Hout|]); (split; [now constructor|]);
      split; reflexivity. }
  destruct (callMethod_run c w1) as (r & w' & Hcall & Hdb' & Hsent' & _).
  exists r, w', c. split; [exact Hcall|]. split; [exact Hc|].
  rewrite Hsent', Hsent, Hdb', Hdb, <- Hfd. repeat split.
Qed.

(** X21. What is saved can be retrieved.  Let the identifier drawn by
    [saveFile] be the hexadecimal text of a non-empty byte array.  The text
    [/start post=<id>] is then the command [start] with the argument
    [post=<id>], and once the file is saved, [/start] with that argument
    sends one request: the operation of the file's kind, to the sender's
    chat, with the stored handle and caption.  The record's access count
    is 1 afterwards. *)
Theorem saved_file_retrievable (fd : FileData) (owner : string) (cat : option string)
    (randomBytes : list Byte.byte) (message : Message) (w : world) :
  let i := hexOfBytes randomBytes in
  randomBytes ≠ [] →
  secure_id (oracle w) (drawn w) = i →
  file_type fd ∈ kinds →
  parseCommand ("/start post=" +:+ i) = Some ("start", "post=" +:+ i)
  ∧ ∃ w1, saveFile (Some fd) owner cat w = (Ok i, w1)
    ∧ ∃ r w' c, handleStart message ("post=" +:+ i) w1 = (r, w')
        ∧ delivers (Telegram.chat_id message) fd c
        ∧ sent w' = sent w ++ [c]
        ∧ accessCount <$> files (db w') !! i = Some 1
        ∧ fileData <$> files (db w') !! i = Some (Some fd).
Proof.
  intros i Hbytes Hdrawn Hkind.
  destruct (hexOfBytes_chars randomBytes) as [Hhex Hne]; [exact Hbytes|]. fold i in Hhex, Hne.
  assert (string_forall (λ c, negb (is_space c)) i = true) as Hclean
    by exact (string_forall_impl _ _ i lower_hex_no_space Hhex).
  assert (string_forall (λ c, negb (is_space c)) ("post=" +:+ i) = true) as Hclean'
    by exact Hclean.
  assert (match_post ("post=" +:+ i) = Some i) as Hm.
  { change (match_post (String "p" (String "o" (String "s" (String "t"
              (String "=" i))))) = Some i).
    cbn -[takeNonSpace truthy_str]. now rewrite (takeNonSpace_id i Hclean), Hne. }
  split.
  - change ("/start post=" +:+ i) with (String "/" ("start" +:+ (" post=" +:+ i))).
    unfold parseCommand. cbn [truthy_str negb match_command].
    rewrite (span_app is_word "start" (" post=" +:+ i) eq_refl eq_refl).
    change (truthy_str "start") with true. cbv iota beta.
    change (" post=" +:+ i) with (String " " ("post=" +:+ i)).
    change (is_space " ") with true. cbv iota.
    change (trimStart (String " " ("post=" +:+ i))) with (trimStart ("post=" +:+ i)).
    change (trimStart ("post=" +:+ i)) with ("post=" +:+ i).
    rewrite (space_free_one_line _ Hclean').
    change (truthy_str ("post=" +:+ i)) with true. cbv iota.
    unfold trim. change (trimStart ("post=" +:+ i)) with ("post=" +:+ i).
    change (toLowerCase "start") with "start".
    do 2 f_equal. exact (trimEnd_id _ Hclean').
  - destruct (saveFile_run (Some fd) owner cat w)
      as (w1 & Hsave & Hf & _ & _ & _ & _ & Hsent & Hor & Hticks & _).
    cbv zeta in Hsave, Hf. rewrite Hdrawn in Hsave, Hf.
    exists w1. split; [exact Hsave|].
    destruct (handleStart_found message ("post=" +:+ i) i _ fd w1 Hm
                ltac:(rewrite Hf; apply lookup_insert_eq) eq_refl Hkind)
      as (r & w' & c & Hrun & Hc & Hsent' & Hf' & _).
    exists r, w', c. split; [exact Hrun|]. split; [exact Hc|].
    rewrite Hsent', Hsent, Hf', lookup_insert_eq. repeat split.
Qed.

(** * The callbacks *)

Lemma reads_only_bind {A B} (m : M A) (k : A → M B) :
  reads_only m → (∀ a, reads_only (k a)) → reads_only (m ≫= k).
Proof.
  intros Hm Hk w. rewrite bind_run. specialize (Hm w).
  destruct (m w) as [[a|e] w1]; simpl in Hm.
  - destruct (Hk a w1) as [Hdb Hsent]. destruct Hm as [Hdb1 Hsent1].
    split; [congruence|]. now transitivity (sent w1).
  - exact Hm.
Qed.

Lemma reads_only_callMethod (c : call) : reads_only (callMethod c).
Proof.
  intros w. destruct (callMethod_run c w) as (r & w' & -> & Hdb & Hsent & _).
  simpl. split; [exact Hdb|]. rewrite Hsent. now apply prefix_app_r.
Qed.

Lemma reads_only_getFile (i : string) : reads_only (getFile i).
Proof. intros w. now split. Qed.

Lemma reads_only_getUserFiles (user : string) : reads_only (getUserFiles user).
Proof. intros w. rewrite getUserFiles_run. now split. Qed.

Lemma reads_only_handleDeleteCallback (cfg : Config) (query : CallbackQuery)
    (params : list (option string)) :
  reads_only (handleDeleteCallback cfg query params).
Proof.
  unfold handleDeleteCallback.
  apply reads_only_bind; [apply reads_only_callMethod|]. intros _.
  apply reads_only_bind; [apply reads_only_getFile|]. intros [file|].
  - destruct (negb _ && _); apply reads_only_callMethod.
  - apply reads_only_callMethod.
Qed.

Lemma reads_only_handleFileCallback (cfg : Config) (fmt : Z → string)
    (query : CallbackQuery) (params : list string) :
  reads_only (handleFileCallback cfg fmt query params).
Proof.
  unfold handleFileCallback. cbv zeta.
  apply reads_only_bind; [apply reads_only_callMethod|]. intros _.
  destruct (params !! 0%nat) as [action|]; [|apply reads_only_callMethod].
  destruct (decide (action = "share")) as [->|Hshare].
  { apply reads_only_bind; [apply reads_only_getFile|].
    intros [file|]; apply reads_only_callMethod. }
  destruct (decide (action = "delete")) as [->|Hdelete].
  { apply reads_only_handleDeleteCallback. }
  destruct (decide (action = "list")) as [->|Hlist].
  { apply reads_only_bind; [apply reads_only_getUserFiles|]. intros files.
    destruct (bool_decide _); apply reads_only_callMethod. }
  assert (∀ B (a b c d : B),
            match action with
            | "share" => a | "delete" => b | "list" => c | _ => d
            end = d) as ->; [|apply reads_only_callMethod].
  intros B a b c d.
  repeat match goal with
         | |- context [match ?s with EmptyString => _ | String _ _ => _ end] =>
             destruct s as [|[[] [] [] [] [] [] [] []] ?]; try reflexivity
         end; congruence.
Qed.

Lemma reads_only_handleFiles (fmt : Z → string) (message : Message) :
  reads_only (handleFiles fmt message).
Proof.
  unfold handleFiles. cbv zeta.
  apply reads_only_bind; [apply reads_only_getUserFiles|]. intros files.
  destruct (bool_decide _); apply reads_only_callMethod.
Qed.

(** X22. Browsing never writes.  The handlers behind the file buttons, the
    page buttons and the delete button, and the commands [/files] and
    [/help], leave the whole store as they find it (records, indexes,
    sessions, statistics), for every parameter list; they only add
    requests to those already sent. *)
Theorem browsing_reads_only (cfg : Config) (fmt : Z → string)
    (query : CallbackQuery) (message : Message) (params : list string) :
  reads_only (handleFileCallback cfg fmt query params)
  ∧ reads_only (handlePageCallback cfg fmt query params)
  ∧ reads_only (handleDeleteCallback cfg query (Some <$> params))
  ∧ reads_only (handleFiles fmt message)
  ∧ reads_only (handleHelp message).
Proof.
  split; [apply reads_only_handleFileCallback|].
  split.
  { unfold handlePageCallback. cbv zeta.
    destruct (parseInt _) as [page|]; [|apply reads_only_callMethod].
    destruct (page <? 1); [apply reads_only_callMethod|].
    apply reads_only_bind; [apply reads_only_callMethod|]. intros _.
    destruct (params !! 0%nat) as [listType|]; [|apply reads_only_callMethod].
    destruct (decide (listType = "files")) as [->|Hfiles];
      [apply reads_only_handleFileCallback|].
    assert (∀ B (a d : B), match listType with "files" => a | _ => d end = d) as ->;
      [|apply reads_only_callMethod].
    intros B a d.
    repeat match goal with
           | |- context [match ?s with EmptyString => _ | String _ _ => _ end] =>
               destruct s as [|[[] [] [] [] [] [] [] []] ?]; try reflexivity
           end; congruence. }
  split; [apply reads_only_handleDeleteCallback|].
  split; [apply reads_only_handleFiles|apply reads_only_callMethod].
Qed.

(** An accepted request, and what it leaves alone. *)
Lemma callMethod_accepted (c : call) (w : world) :
  api_ok (oracle w) (length (sent w)) = true →
  ∃ w', callMethod c w = (Ok (), w') ∧ db w' = db w ∧ sent w' = sent w ++ [c]
    ∧ ticks w' = ticks w ∧ drawn w' = drawn w ∧ oracle w' = oracle w.
Proof.
  intros Hok. destruct (callMethod_run c w) as (r & w' & Hcall & Hrest).
  exists w'. rewrite Hok in Hrest.
  destruct Hrest as (Hdb & Hsent & Hticks & Hdrawn & Horacle & ->).
  repeat split; assumption.
Qed.

(** X23. The confirmation button deletes at once, and asks nothing of the
    session: whatever state the sender is in, once the acknowledgment is
    accepted, [confirm:delete:<id>] for a stored record removes it and
    filters its id out of the owner's and the category's index when the
    sender is the owner or an administrator, and changes nothing
    otherwise.  The message is edited to the outcome. *)
Theorem confirm_callback_deletes (cfg : Config) (query : CallbackQuery)
    (i : string) (rest : list string) (file : FileRecord) (w : world) :
  let user := js_String (Telegram.cq_from_id query) in
  let edit body :=
    EditMessageText (Telegram.cq_chat_id query) (Telegram.cq_message_id query)
      body None in
  files (db w) !! i = Some file →
  api_ok (oracle w) (length (sent w)) = true →
  ∃ r w', handleConfirmCallback cfg query ("delete" :: i :: rest) w = (r, w')
    ∧ sessions (db w') = sessions (db w)
    ∧ if bool_decide (user ∈ ADMIN_IDS cfg) || bool_decide (savedBy file = user)
      then files (db w') = delete i (files (db w))
           ∧ userFiles (db w') !! savedBy file
             = Some (filter (λ j, j ≠ i)
                       (default [] (userFiles (db w) !! savedBy file)))
           ∧ categories (db w') !! category file
             = Some (filter (λ j, j ≠ i)
                       (default [] (categories (db w) !! category file)))
           ∧ sent w' = sent w ++ [AnswerCallbackQuery (Telegram.cq_id query) None;
                                  edit "✅ File deleted successfully."]
      else db w' = db w
           ∧ sent w' = sent w ++ [AnswerCallbackQuery (Telegram.cq_id query) None;
                                  edit "❌ Failed to delete the file. Please try again later."].
Proof.
  intros user edit Hfile Hok.
  unfold handleConfirmCallback. cbv zeta. fold user.
  change (("delete" :: i :: rest) !! 0%nat) with (Some "delete").
  change (drop 1 ("delete" :: i :: rest) !! 0%nat) with (Some i).
  cbv iota beta.
  destruct (callMethod_accepted (AnswerCallbackQuery (Telegram.cq_id query) None) w Hok)
    as (w1 & Hack & Hdb1 & Hsent1 & _).
  unfold answerCallbackQuery. rewrite bind_run, Hack.
  assert (files (db w1) !! i = Some file) as Hfile1 by now rewrite Hdb1.
  destruct (bool_decide (user ∈ ADMIN_IDS cfg) || bool_decide (savedBy file = user))
    eqn:Hmay.
  - assert (user ∈ ADMIN_IDS cfg ∨ savedBy file = user) as Hmay'.
    { apply orb_prop in Hmay as [H|H]; apply bool_decide_eq_true_1 in H; tauto. }
    destruct (deleteFile_run cfg i user w1 file Hfile1 Hmay')
      as (w2 & Hdel & Hf & Hu & Hc & Hs & _ & Hsent2 & _).
    rewrite bind_run, Hdel. unfold editMessageText.
    destruct (callMethod_run (edit "✅ File deleted successfully.") w2)
      as (r & w' & Hcall & Hdb & Hsent & _).
    exists r, w'. split; [exact Hcall|].
    rewrite Hdb, Hs, Hf, Hu, Hc, Hsent, Hsent2, Hsent1, Hdb1, !lookup_insert_eq,
      !filter_other_ids, <- app_assoc.
    repeat split.
  - apply orb_false_elim in Hmay as [Hadmin Howner].
    assert (deleteFile cfg (Some i) user w1 = (Ok false, w1)) as Hdel.
    { unfold deleteFile, getFile. run. rewrite Hfile1, Hadmin.
      rewrite (bool_decide_eq_true_2 (savedBy file ≠ user)); [reflexivity|].
      now apply bool_decide_eq_false_1 in Howner. }
    rewrite bind_run, Hdel. unfold editMessageText.
    destruct (callMethod_run
                (edit "❌ Failed to delete the file. Please try again later.") w1)
      as (r & w' & Hcall & Hdb & Hsent & _).
    exists r, w'. split; [exact Hcall|].
    rewrite Hdb, Hdb1, Hsent, Hsent1, <- app_assoc. repeat split.
Qed.

(** X24. A callback whose action has no handler.  After the action is
    counted, an action that names nothing, such as [help] or [stats] of the
    welcome keyboard, is answered with one notice and nothing else happens;
    an action that names an inherited function, such as [toString], is not
    answered at all; one that names an inherited member that cannot be
    called is answered with the error notice.  Records, indexes and
    sessions stay as they are. *)
Theorem callback_without_handler (cfg : Config) (fmt isoDate : Z → string)
    (query : CallbackQuery) (data : string) (w : world) :
  let action := default EmptyString (head (split_colon data)) in
  let answer notice := AnswerCallbackQuery (Telegram.cq_id query) (Some notice) in
  Telegram.cq_data query = Some data →
  callbackHandlers cfg fmt action = None →
  ∃ r w', processCallbackQuery cfg fmt isoDate query w = (r, w')
    ∧ files (db w') = files (db w) ∧ userFiles (db w') = userFiles (db w)
    ∧ categories (db w') = categories (db w) ∧ sessions (db w') = sessions (db w)
    ∧ sent w' = sent w ++
        match Object_prototype action with
        | None => [answer "Sorry, I couldn't process this action."]
        | Some Returns => []
        | Some Raises => [answer "An error occurred while processing your request."]
        end.
Proof.
  intros action answer Hdata Hnone.
  destruct (trackAction_frame cfg isoDate (js_String (Telegram.cq_from_id query))
              "callback_query" w)
    as (w1 & Htrack & Hf & Hu & Hc & Hs & Hsent & _).
  unfold processCallbackQuery. cbv zeta. rewrite Hdata, bind_run, Htrack.
  fold action. rewrite Hnone.
  assert (∀ c, ∃ r w', callMethod c w1 = (r, w')
               ∧ files (db w') = files (db w) ∧ userFiles (db w') = userFiles (db w)
               ∧ categories (db w') = categories (db w)
               ∧ sessions (db w') = sessions (db w)
               ∧ sent w' = sent w ++ [c]) as Hcall.
  { intros c. destruct (callMethod_run c w1) as (r & w' & Hrun & Hdb & Hsent' & _).
    exists r, w'. rewrite Hdb, Hsent', Hsent. repeat split; assumption. }
  destruct (Object_prototype action) as [[]|].
  - exists (Ok ()), w1. rewrite app_nil_r. repeat split; assumption.
  - apply Hcall.
  - apply Hcall.
Qed.

(** X25. A category button while a category is awaited.  When the
    acknowledgment is refused, nothing is saved and the session still
    waits.  When it is accepted, a button other than [cancel] saves the
    pending file under the button's category, with the identifier drawn and
    the sender as owner; [cancel] saves nothing.  Either way the session
    is [idle] again with empty data and the message is edited. *)
Theorem category_callback_saves (cfg : Config) (query : CallbackQuery)
    (chosen : string) (rest : list string) (session : Session) (w : world) :
  let user := js_String (Telegram.cq_from_id query) in
  let i := secure_id (oracle w) (drawn w) in
  let edit body markup :=
    EditMessageText (Telegram.cq_chat_id query) (Telegram.cq_message_id query)
      body markup in
  sessions (db w) !! user = Some session →
  state session = "awaiting_file_category" →
  ∃ r w', handleCategoryCallback cfg query (chosen :: rest) w = (r, w')
    ∧ if api_ok (oracle w) (length (sent w)) then
        (∃ s', sessions (db w') !! user = Some s'
               ∧ state s' = "idle" ∧ data s' = no_data)
        ∧ if bool_decide (chosen = "cancel") then
            files (db w') = files (db w) ∧ userFiles (db w') = userFiles (db w)
            ∧ categories (db w') = categories (db w)
            ∧ sent w' = sent w ++ [AnswerCallbackQuery (Telegram.cq_id query) None;
                                   edit "File saving canceled." None]
          else
            files (db w') =
              <[i := {| id := i; fileData := pendingFile (data session);
                        savedBy := user; category := chosen;
                        createdAt := clock (oracle w) (ticks w);
                        accessCount := 0; lastAccessed := None |}]> (files (db w))
            ∧ last (default [] (userFiles (db w') !! user)) = Some i
            ∧ last (default [] (categories (db w') !! chosen)) = Some i
            ∧ sent w' = sent w ++ [AnswerCallbackQuery (Telegram.cq_id query) None;
                                   edit (savedText cfg chosen i) (Some (savedKeyboard i))]
      else db w' = db w
           ∧ r = Throw (ApiError (AnswerCallbackQuery (Telegram.cq_id query) None)).
Proof.
  intros user i edit Hsession Hstate.
  unfold handleCategoryCallback. cbv zeta. fold user.
  destruct (getSession_run user w) as (s & w0 & Hget & _ & Hold & _).
  destruct (Hold session Hsession) as [-> ->]. rewrite bind_run, Hget.
  rewrite bool_decide_eq_false_2 by (rewrite Hstate; intros H; now apply H).
  unfold answerCallbackQuery. rewrite bind_run.
  destruct (api_ok (oracle w) (length (sent w))) eqn:Hok.
  2:{ rewrite callMethod_failed by assumption. do 2 eexists. split; [reflexivity|].
      split; reflexivity. }
  destruct (callMethod_accepted (AnswerCallbackQuery (Telegram.cq_id query) None) w Hok)
    as (w1 & Hack & Hdb1 & Hsent1 & Hticks1 & Hdrawn1 & Hor1).
  rewrite Hack. change ((chosen :: rest) !! 0%nat) with (Some chosen).
  destruct (decide (chosen = "cancel")) as [Hcancel|Hcategory].
  - rewrite (bool_decide_eq_true_2 (Some chosen = Some "cancel")) by congruence.
    rewrite (bool_decide_eq_true_2 (chosen = "cancel")) by assumption.
    destruct (setState_run user "idle" no_data w1)
      as (s' & w2 & Hset & Hstate' & Hdata' & Hs' & _ & Hf & Hu & Hc & _ & Hsent2 & _).
    rewrite bind_run, Hset. unfold editMessageText.
    destruct (callMethod_run (edit "File saving canceled." None) w2)
      as (r & w' & Hcall & Hdb & Hsent & _).
    exists r, w'. split; [exact Hcall|].
    rewrite Hdb, Hf, Hu, Hc, Hsent, Hsent2, Hsent1, Hdb1, <- app_assoc.
    split; [now exists s'|]. repeat split.
  - rewrite (bool_decide_eq_false_2 (Some chosen = Some "cancel")) by congruence.
    rewrite (bool_decide_eq_false_2 (chosen = "cancel")) by assumption.
    destruct (saveFile_run (pendingFile (data session)) user (Some chosen) w1)
      as (w2 & Hsave & Hf2 & Hu2 & Hc2 & Hs2 & _ & Hsent2 & _ & _ & _).
    cbv zeta in Hsave, Hf2, Hu2, Hc2. change (default "general" (Some chosen)) with chosen in Hf2, Hc2.
    rewrite Hor1, Hdrawn1 in Hsave, Hf2, Hu2, Hc2.
    rewrite Hticks1, Hdb1 in Hf2. rewrite Hdb1 in Hu2, Hc2.
    fold i in Hsave, Hf2, Hu2, Hc2.
    destruct (setState_run user "idle" no_data w2)
      as (s' & w3 & Hset & Hstate' & Hdata' & Hs' & _ & Hf3 & Hu3 & Hc3 & _ & Hsent3 & _).
    rewrite bind_run, Hsave, bind_run, Hset. unfold editMessageText.
    destruct (callMethod_run (edit (savedText cfg chosen i) (Some (savedKeyboard i))) w3)
      as (r & w' & Hcall & Hdb & Hsent & _).
    exists r, w'. split; [exact Hcall|].
    rewrite Hdb, Hf3, Hu3, Hc3, Hf2, Hu2, Hc2, !lookup_insert_eq, Hsent, Hsent3,
      Hsent2, Hsent1, <- app_assoc. cbn [default].
    split; [now exists s'|].
    split; [reflexivity|]. split; [apply last_snoc|]. split; [apply last_snoc|].
    reflexivity.
Qed.

(** * The pages of the file list *)

Lemma pageFiles_take_drop (files : list FileRecord) (page pageSize : Z) :
  0 < pageSize → 1 ≤ page →
  pageFiles files page pageSize
  = take (Z.to_nat pageSize) (drop (Z.to_nat ((page - 1) * pageSize)) files).
Proof.
  intros Hsize Hpage. unfold pageFiles, js_slice. cbv zeta.
  set (n := Z.of_nat (length files)). set (start := (page - 1) * pageSize).
  assert (0 ≤ start) as Hstart by (unfold start; nia).
  assert (0 ≤ n) as Hn by (unfold n; lia).
  destruct (start <? 0) eqn:H1; [apply Z.ltb_lt in H1; lia|].
  destruct (Z.min (start + pageSize) n <? 0) eqn:H2; [apply Z.ltb_lt in H2; lia|].
  rewrite (Z.min_l (Z.min (start + pageSize) n) n) by lia.
  destruct (Z_le_gt_dec start n) as [Hin|Hpast].
  - rewrite (Z.min_l start n) by lia.
    destruct (Z_le_gt_dec (start + pageSize) n) as [Hfull|Hshort].
    + rewrite (Z.min_l (start + pageSize) n) by lia. f_equal. lia.
    + rewrite (Z.min_r (start + pageSize) n) by lia.
      rewrite !take_ge; [reflexivity| |]; rewrite length_drop; unfold n; lia.
  - rewrite (Z.min_r start n) by lia. rewrite (Z.min_r (start + pageSize) n) by lia.
    rewrite Z.sub_diag. change (Z.to_nat 0) with 0%nat.
    rewrite (drop_ge files (Z.to_nat start)) by (unfold n in Hpast; lia).
    now rewrite take_nil.
Qed.

Lemma chunks_cover {A} (k : nat) (l : list A) (T : nat) :
  (length l ≤ k * T)%nat →
  concat ((λ j, take k (drop (k * j) l)) <$> seq 0 T) = l.
Proof.
  revert l. induction T as [|T IH]; intros l Hlen.
  - destruct l; [reflexivity|]. simpl in Hlen. lia.
  - cbn [seq fmap list_fmap concat]. rewrite Nat.mul_0_r, drop_0.
    rewrite <- fmap_S_seq, <- list_fmap_compose.
    transitivity (take k l ++ drop k l); [|apply take_drop]. f_equal.
    transitivity (concat ((λ j, take k (drop (k * j) (drop k l))) <$> seq 0 T));
      [|apply IH; rewrite length_drop; lia].
    f_equal. apply list_fmap_ext. intros _ j _. simpl.
    rewrite drop_drop. do 2 f_equal. lia.
Qed.

(** X26. The pages of the file list cut the list into consecutive pieces.
    A page holds at most [pageSize] files, the pages 1 to [totalPages] in
    order make up the whole list, each file once, and a page after the
    last is empty.  [sendFileListPage] writes the entries and the button
    rows of exactly the files of its page. *)
Theorem pages_cover (fmt : Z → string) (files : list FileRecord) (pageSize : Z) :
  0 < pageSize →
  let totalPages := ceil_div (Z.of_nat (length files)) pageSize in
  concat ((λ p, pageFiles files (Z.of_nat p) pageSize) <$> seq 1 (Z.to_nat totalPages))
    = files
  ∧ (∀ page, 1 ≤ page → Z.of_nat (length (pageFiles files page pageSize)) ≤ pageSize)
  ∧ (∀ page, totalPages < page → pageFiles files page pageSize = [])
  ∧ ∀ chatId page,
      sendFileListPage fmt chatId files page pageSize totalPages
      = sendMessage chatId
          ("📂 *Your Files* (" +:+ js_String (Z.of_nat (length files)) +:+ " total)"
             +:+ nl +:+ nl
             +:+ concat_strings (imap (fileLines fmt ((page - 1) * pageSize))
                                   (pageFiles files page pageSize)))
          (Some (listKeyboard ((page - 1) * pageSize)
                   (pageFiles files page pageSize) page totalPages)).
Proof.
  intros Hsize totalPages.
  assert (Z.of_nat (length files) ≤ pageSize * totalPages ∧ 0 ≤ totalPages) as [Hceil Htotal].
  { unfold totalPages, ceil_div.
    pose proof (Z.div_mod (Z.of_nat (length files) + pageSize - 1) pageSize) as Hdiv.
    pose proof (Z.mod_pos_bound (Z.of_nat (length files) + pageSize - 1) pageSize Hsize).
    split; [lia|]. apply Z.div_pos; lia. }
  split; [|split; [|split]].
  - rewrite <- fmap_S_seq, <- list_fmap_compose.
    transitivity (concat ((λ j, take (Z.to_nat pageSize)
                                  (drop (Z.to_nat pageSize * j) files))
                          <$> seq 0 (Z.to_nat totalPages)));
      [|apply chunks_cover; nia].
    f_equal. apply list_fmap_ext. intros _ j _. simpl.
    rewrite pageFiles_take_drop by lia. do 2 f_equal. nia.
  - intros page Hpage. rewrite pageFiles_take_drop by assumption.
    rewrite length_take. lia.
  - intros page Hpast. rewrite pageFiles_take_drop by lia.
    rewrite drop_ge by nia. apply take_nil.
  - reflexivity.
Qed.

(** X27. A page after the last one.  [file:list:<n>] for a page number
    beyond the last page of a user who has files is not refused: once the
    acknowledgment is accepted, the message is edited to the heading alone,
    with no entry, and the keyboard is the single button back to the
    previous page.  The page number is one up to which every number the
    handler computes, the end of the page included, is at most
    [MAX_SAFE_INTEGER], where the code's arithmetic is exact. *)
Theorem file_list_past_the_end (cfg : Config) (fmt : Z → string)
    (query : CallbackQuery) (pageStr : string) (page : Z) (w : world) :
  let user := js_String (Telegram.cq_from_id query) in
  let files := omap (λ i, files (db w) !! i) (default [] (userFiles (db w) !! user)) in
  let total := Z.of_nat (length files) in
  parseInt pageStr = Some page →
  page * 5 ≤ MAX_SAFE_INTEGER →
  files ≠ [] → total ≤ (page - 1) * 5 →
  api_ok (oracle w) (length (sent w)) = true →
  ∃ r w', handleFileCallback cfg fmt query ["list"; pageStr] w = (r, w')
    ∧ db w' = db w
    ∧ sent w' = sent w ++
        [AnswerCallbackQuery (Telegram.cq_id query) None;
         EditMessageText (Telegram.cq_chat_id query) (Telegram.cq_message_id query)
           ("📂 *Your Files* (" +:+ js_String total +:+ " total) - Page "
              +:+ js_String page +:+ "/" +:+ js_String (ceil_div total 5) +:+ nl +:+ nl)
           (Some [[previousButton page]])].
Proof.
  intros user files total Hparse _ Hfiles Hpast Hok.
  assert (0 < total) as Hsome.
  { unfold total. destruct files; [contradiction|]. simpl. lia. }
  rewrite handleFileCallback_list. unfold answerCallbackQuery.
  destruct (callMethod_accepted (AnswerCallbackQuery (Telegram.cq_id query) None) w Hok)
    as (w1 & Hack & Hdb1 & Hsent1 & _).
  rewrite bind_run, Hack, bind_run, getUserFiles_run, Hdb1. fold user files.
  rewrite bool_decide_eq_false_2 by (intros H; apply Hfiles; now apply nil_length_inv).
  unfold pageOr1. change (tpl (Some pageStr)) with pageStr. cbv zeta.
  rewrite Hparse.
  assert ((page =? 0) = false) as -> by (apply Z.eqb_neq; lia).
  fold total.
  assert (js_slice ((page - 1) * 5) (Z.min ((page - 1) * 5 + 5) total) files = []) as ->.
  { pose proof (pageFiles_take_drop files page 5 eq_refl ltac:(lia)) as Hpage.
    unfold pageFiles in Hpage. cbv zeta in Hpage. fold total in Hpage. rewrite Hpage.
    rewrite drop_ge by (unfold total in Hpast; lia). apply take_nil. }
  assert (ceil_div total 5 < page) as Hlast.
  { unfold ceil_div. apply Z.div_lt_upper_bound; lia. }
  assert (listKeyboard ((page - 1) * 5) [] page (ceil_div total 5)
          = [[previousButton page]]) as ->.
  { unfold listKeyboard, paginationRowOf.
    assert ((1 <? page) = true) as -> by (apply Z.ltb_lt; lia).
    assert ((page <? ceil_div total 5) = false) as -> by (apply Z.ltb_ge; lia).
    reflexivity. }
  unfold editMessageText.
  match goal with
  | |- context [callMethod ?c w1] =>
      destruct (callMethod_run c w1) as (r & w' & Hcall & Hdb & Hsent & _)
  end.
  exists r, w'. split; [exact Hcall|].
  rewrite Hdb, Hdb1, Hsent, Hsent1, <- app_assoc. split; [reflexivity|].
  do 3 f_equal.
Qed.

(** * What a single message cannot do *)

Lemma keeps_records_bind {A B} (m : M A) (k : A → M B) :
  keeps_records m → (∀ a, keeps_records (k a)) → keeps_records (m ≫= k).
Proof.
  intros Hm Hk w. rewrite bind_run. specialize (Hm w).
  destruct (m w) as [[a|e] w1]; simpl in Hm; [|exact Hm].
  destruct Hm as (Hf & Hu & Hc). destruct (Hk a w1) as (Hf' & Hu' & Hc').
  repeat split; congruence.
Qed.

Lemma reads_only_keeps {A} (m : M A) : reads_only m → keeps_records m.
Proof. intros Hm w. destruct (Hm w) as [-> _]. repeat split. Qed.

Lemma keeps_records_callMethod (c : call) : keeps_records (callMethod c).
Proof. apply reads_only_keeps, reads_only_callMethod. Qed.

Lemma keeps_records_setState (user newState : string) (newData : SessionData) :
  keeps_records (setState user newState newData).
Proof.
  intros w. destruct (setState_run user newState newData w)
    as (s' & w' & -> & _ & _ & _ & _ & Hf & Hu & Hc & _).
  simpl. rewrite Hf. repeat split; assumption.
Qed.

Lemma keeps_records_getSession (user : string) : keeps_records (getSession user).
Proof.
  intros w. destruct (getSession_run user w)
    as (s & w' & -> & _ & _ & _ & Hf & Hu & Hc & _).
  simpl. rewrite Hf. repeat split; assumption.
Qed.

Lemma keeps_records_trackAction (cfg : Config) (isoDate : Z → string)
    (user action : string) :
  keeps_records (trackAction cfg isoDate user action).
Proof.
  intros w. destruct (trackAction_frame cfg isoDate user action w)
    as (w' & -> & Hf & Hu & Hc & _).
  simpl. rewrite Hf. repeat split; assumption.
Qed.

Lemma keeps_records_trackFileAccess (i : string) : keeps_records (trackFileAccess i).
Proof.
  intros w. unfold trackFileAccess, getFile. run.
  destruct (files (db w) !! i) as [file|] eqn:Hfile; simpl; [|repeat split].
  split; [|split; reflexivity].
  apply dom_insert_lookup_L. now rewrite Hfile.
Qed.

Lemma keeps_records_handleStart (message : Message) (args : string) :
  keeps_records (handleStart message args).
Proof.
  unfold handleStart.
  destruct (match_post args) as [postId|]; [|apply keeps_records_callMethod].
  apply keeps_records_bind; [apply reads_only_keeps, reads_only_getFile|].
  intros [file|]; [|apply keeps_records_callMethod].
  apply keeps_records_bind; [apply keeps_records_trackFileAccess|]. intros _.
  cbv zeta. unfold sendDocument, sendPhoto, sendVideo, sendAudio, sendMessage.
  repeat match goal with
         | |- keeps_records (match ?x with _ => _ end) => destruct x
         end; apply keeps_records_callMethod.
Qed.

Lemma keeps_records_handleSave (cfg : Config) (message : Message) :
  keeps_records (handleSave cfg message).
Proof.
  unfold handleSave. cbv zeta.
  destruct (negb _); [apply keeps_records_callMethod|].
  destruct (Telegram.reply_to_message message) as [fileMsg|];
    [|apply keeps_records_callMethod].
  destruct (extractFileData fileMsg); [|apply keeps_records_callMethod].
  apply keeps_records_bind; [apply keeps_records_setState|].
  intros _. apply keeps_records_callMethod.
Qed.

Lemma keeps_records_handleDelete (cfg : Config) (message : Message) (args : string) :
  keeps_records (handleDelete cfg message args).
Proof.
  unfold handleDelete. cbv zeta.
  destruct (negb _); [apply keeps_records_callMethod|].
  apply keeps_records_bind; [apply reads_only_keeps, reads_only_getFile|].
  intros [file|]; [|apply keeps_records_callMethod].
  destruct (negb _ && _); [apply keeps_records_callMethod|].
  apply keeps_records_bind; [apply keeps_records_setState|].
  intros _. apply keeps_records_callMethod.
Qed.

Lemma keeps_records_handleStats (cfg : Config) (fmt : Z → string) (message : Message) :
  keeps_records (handleStats cfg fmt message).
Proof.
  unfold handleStats. cbv zeta. destruct (negb _).
  - apply keeps_records_bind; [apply reads_only_keeps, reads_only_getUserFiles|].
    intros owned. apply keeps_records_bind; [apply keeps_records_getSession|].
    intros session. apply keeps_records_callMethod.
  - apply keeps_records_bind.
    + intros w. rewrite adminStats_run. repeat split.
    + intros [[totalUsers totalActions] popularFiles]. apply keeps_records_callMethod.
Qed.

Lemma keeps_records_handleCancel (message : Message) :
  keeps_records (handleCancel message).
Proof.
  unfold handleCancel. cbv zeta.
  apply keeps_records_bind; [apply keeps_records_setState|].
  intros _. apply keeps_records_callMethod.
Qed.

Lemma keeps_records_promptToSaveFile (message : Message) :
  keeps_records (promptToSaveFile message).
Proof.
  unfold promptToSaveFile. cbv zeta.
  destruct (extractFileData _); [|apply keeps_records_callMethod].
  apply keeps_records_bind; [apply keeps_records_setState|].
  intros _. apply keeps_records_callMethod.
Qed.

Lemma keeps_records_processNaturalLanguage (cfg : Config) (fmt : Z → string)
    (message : Message) (session : Session) :
  keeps_records (processNaturalLanguage cfg fmt message session).
Proof.
  unfold processNaturalLanguage. cbv zeta.
  destruct (Telegram.text message) as [t|]; [|intros w; repeat split].
  destruct (negb _); [intros w; repeat split|].
  destruct (_ || _); [apply keeps_records_callMethod|].
  destruct (_ || _); [apply reads_only_keeps, reads_only_handleFiles|].
  destruct (_ || _); [apply keeps_records_handleStats|].
  destruct (_ || _); apply keeps_records_callMethod.
Qed.

Lemma keeps_records_dispatchCommand (cfg : Config) (fmt : Z → string)
    (message : Message) (session : Session) :
  keeps_records (dispatchCommand cfg fmt message session).
Proof.
  unfold dispatchCommand. cbv zeta.
  destruct (parseCommand _) as [[command args]|].
  - unfold commands.
    repeat match goal with
           | |- context [bool_decide ?P] => destruct (bool_decide P)
           end;
      first [ apply keeps_records_handleStart
            | apply keeps_records_callMethod
            | apply keeps_records_handleSave
            | apply reads_only_keeps, reads_only_handleFiles
            | apply keeps_records_handleDelete
            | apply keeps_records_handleStats
            | apply keeps_records_handleCancel
            | idtac ].
    destruct (Object_prototype command) as [[]|];
      first [apply keeps_records_callMethod | intros w; repeat split].
  - destruct (_ && _);
      [apply keeps_records_promptToSaveFile|apply keeps_records_processNaturalLanguage].
Qed.

(** X28. Saving and deleting take two steps.  A message, whatever it holds
    and whoever sends it, adds no record and removes none, and changes
    neither index, unless the sender's stored session is waiting for a
    category or for a delete confirmation.  (A record read through
    [/start] is rewritten in place.) *)
Theorem processMessage_keeps_records (cfg : Config) (fmt isoDate : Z → string)
    (message : Message) (w : world) :
  let user := js_String (Telegram.from_id message) in
  (∀ session, sessions (db w) !! user = Some session →
     state session ≠ "awaiting_file_category"
     ∧ state session ≠ "awaiting_delete_confirm") →
  ∃ r w', processMessage cfg fmt isoDate message w = (r, w')
    ∧ dom (files (db w')) = dom (files (db w))
    ∧ userFiles (db w') = userFiles (db w)
    ∧ categories (db w') = categories (db w).
Proof.
  intros user Hstate.
  unfold processMessage. cbv zeta. fold user.
  destruct (trackAction_frame cfg isoDate user "message" w)
    as (w1 & Htrack & Hf1 & Hu1 & Hc1 & Hs1 & _).
  rewrite bind_run, Htrack.
  destruct (getSession_run user w1)
    as (s & w2 & Hget & _ & Hold & Hnew & Hf2 & Hu2 & Hc2 & _).
  rewrite bind_run, Hget.
  assert (state s ≠ "awaiting_file_category" ∧ state s ≠ "awaiting_delete_confirm")
    as [Hnocat Hnodel].
  { destruct (sessions (db w1) !! user) as [s0|] eqn:Hs0.
    - destruct (Hold s0 eq_refl) as [-> _]. apply Hstate. now rewrite <- Hs1.
    - destruct (Hnew eq_refl) as (-> & _). split; discriminate. }
  assert (∀ m : M (), keeps_records m →
            ∃ r w', m w2 = (r, w')
              ∧ dom (files (db w')) = dom (files (db w))
              ∧ userFiles (db w') = userFiles (db w)
              ∧ categories (db w') = categories (db w)) as Hkeep.
  { intros m Hm. exists (m w2).1, (m w2).2. split; [apply surjective_pairing|].
    destruct (Hm w2) as (-> & -> & ->). rewrite Hf2, Hu2, Hc2, Hf1. tauto. }
  destruct (bool_decide (state s ≠ "idle"));
    [|apply Hkeep, keeps_records_dispatchCommand].
  destruct (bool_decide (toLowerCase _ = "/cancel"));
    [apply Hkeep, keeps_records_handleCancel|].
  rewrite (bool_decide_eq_false_2 _ Hnocat), (bool_decide_eq_false_2 _ Hnodel).
  apply Hkeep, keeps_records_dispatchCommand.
Qed.

(** X29. A file sent on its own, with no text, to an idle session.  From an
    administrator it opens the save dialogue: the session waits for a
    category and holds the message id and the data extracted from the
    file, and the category keyboard is sent (or the notice that no valid
    file was found, when nothing can be extracted).  From anyone else it
    is passed over in silence: no request is sent and the session stays as
    it is.  No record or index changes. *)
Theorem processMessage_attachment (cfg : Config) (fmt isoDate : Z → string)
    (message : Message) (session : Session) (w : world) :
  let user := js_String (Telegram.from_id message) in
  let chat := Telegram.chat_id message in
  sessions (db w) !! user = Some session →
  state session = "idle" →
  Telegram.text message = None →
  hasAttachment (Telegram.media message) = true →
  ∃ r w', processMessage cfg fmt isoDate message w = (r, w')
    ∧ files (db w') = files (db w) ∧ userFiles (db w') = userFiles (db w)
    ∧ categories (db w') = categories (db w)
    ∧ if isAdmin cfg user then
        match extractFileData (Telegram.media message) with
        | Some fd =>
            (∃ s', sessions (db w') !! user = Some s'
                   ∧ state s' = "awaiting_file_category"
                   ∧ data s' = pending (Telegram.message_id (Telegram.media message)) fd)
            ∧ sent w' = sent w ++
                [SendMessage chat
                   "I noticed you sent a file. Please select a category or type a custom category name:"
                   (Some categoriesKeyboard)]
        | None =>
            sessions (db w') = sessions (db w)
            ∧ sent w' = sent w ++
                [SendMessage chat "No valid file found in the message." None]
        end
      else r = Ok () ∧ sessions (db w') = sessions (db w) ∧ sent w' = sent w.
Proof.
  intros user chat Hsession Hstate Htext Hattached.
  destruct (processMessage_session cfg fmt isoDate message w session Hsession)
    as (w1 & _ & Hf & Hu & Hc & Hs & Hsent & _ & _ & ->).
  rewrite bool_decide_eq_false_2 by (rewrite Hstate; intros H; now apply H).
  unfold dispatchCommand. cbv zeta. rewrite Htext. cbn [default].
  change (parseCommand EmptyString) with (@None (string * string)). cbv iota.
  rewrite Hattached. cbn [andb]. fold user.
  destruct (isAdmin cfg user).
  - unfold promptToSaveFile. cbv zeta. fold user chat.
    destruct (extractFileData (Telegram.media message)) as [fd|].
    + destruct (setState_run user "awaiting_file_category"
                  (pending (Telegram.message_id (Telegram.media message)) fd) w1)
        as (s' & w2 & Hset & Hstate' & Hdata' & Hs' & _ & Hf2 & Hu2 & Hc2 & _ & Hsent2 & _).
      rewrite bind_run, Hset. unfold sendMessage.
      match goal with
      | |- context [callMethod ?c w2] =>
          destruct (callMethod_run c w2) as (r & w' & Hcall & Hdb & Hsent' & _)
      end.
      exists r, w'. split; [exact Hcall|].
      rewrite Hdb, Hf2, Hu2, Hc2, Hf, Hu, Hc, Hsent', Hsent2, Hsent.
      repeat (split; [reflexivity|]). split; [now exists s'|reflexivity].
    + unfold sendMessage.
      match goal with
      | |- context [callMethod ?c w1] =>
          destruct (callMethod_run c w1) as (r & w' & Hcall & Hdb & Hsent' & _)
      end.
      exists r, w'. split; [exact Hcall|].
      rewrite Hdb, Hf, Hu, Hc, Hs, Hsent', Hsent. repeat split.
  - unfold processNaturalLanguage. rewrite Htext.
    exists (Ok ()), w1. split; [reflexivity|]. repeat split; assumption.
Qed.

Lemma getFilesByCategory_run (c : string) (w : world) :
  getFilesByCategory c w =
  (Ok (omap (λ i, files (db w) !! i) (default [] (categories (db w) !! c))), w).
Proof.
  unfold getFilesByCategory. run. rewrite traverse_getFile.
  now rewrite omap_id_fmap.
Qed.

Lemma omap_lookup_other (i : string) (l : list string) (m m' : gmap string FileRecord) :
  i ∉ l → (∀ j, j ≠ i → m' !! j = m !! j) →
  omap (λ j, m' !! j) l = omap (λ j, m !! j) l.
Proof.
  intros Hfresh Hsame. induction l as [|j l IH]; [reflexivity|].
  apply not_elem_of_cons in Hfresh as [Hne Hfresh].
  csimpl. rewrite (Hsame j) by congruence. now rewrite IH.
Qed.

(** X30. The listing of a category follows saves and deletions.  When the
    identifier drawn is not yet in the index of the category (the one
    given, or [general]), [getFilesByCategory] after [saveFile] is the
    previous listing followed by the new record, and after the owner's
    [deleteFile] of that record it is the previous listing again. *)
Theorem saveFile_then_getFilesByCategory (cfg : Config) (fd : option FileData)
    (owner : string) (cat : option string) (w : world) :
  let i := secure_id (oracle w) (drawn w) in
  let c := default "general" cat in
  i ∉ default [] (categories (db w) !! c) →
  ∃ before w1 file w2,
    getFilesByCategory c w = (Ok before, w)
    ∧ saveFile fd owner cat w = (Ok i, w1)
    ∧ getFilesByCategory c w1 = (Ok (before ++ [file]), w1)
    ∧ id file = i ∧ category file = c ∧ fileData file = fd
    ∧ deleteFile cfg (Some i) owner w1 = (Ok true, w2)
    ∧ getFilesByCategory c w2 = (Ok before, w2).
Proof.
  intros i c Hfresh.
  destruct (saveFile_run fd owner cat w) as (w1 & Hsave & Hf & Hu & Hc & _).
  cbv zeta in Hsave, Hf, Hu, Hc. fold i c in Hsave, Hf, Hu, Hc.
  set (file := {| id := i; fileData := fd; savedBy := owner; category := c;
                  createdAt := clock (oracle w) (ticks w); accessCount := 0;
                  lastAccessed := None |}) in *.
  assert (files (db w1) !! i = Some file) as Hfile by (rewrite Hf; apply lookup_insert_eq).
  destruct (deleteFile_run cfg i owner w1 file Hfile (or_intror eq_refl))
    as (w2 & Hdel & Hf2 & _ & Hc2 & _).
  exists (omap (λ j, files (db w) !! j) (default [] (categories (db w) !! c))),
    w1, file, w2.
  split; [apply getFilesByCategory_run|]. split; [exact Hsave|].
  split.
  { rewrite getFilesByCategory_run, Hc, lookup_insert_eq.
    change (default [] (Some ?l)) with l. rewrite omap_app.
    do 3 f_equal.
    - apply omap_lookup_other with (i := i); [exact Hfresh|].
      intros j Hne. rewrite Hf. now apply lookup_insert_ne.
    - csimpl. now rewrite Hfile. }
  do 3 (split; [reflexivity|]). split; [exact Hdel|].
  rewrite getFilesByCategory_run, Hc2. change (category file) with c.
  rewrite lookup_insert_eq. change (default [] (Some ?l)) with l.
  rewrite Hc, lookup_insert_eq. change (default [] (Some ?l)) with l.
  rewrite filter_other_ids, filter_other_ids_snoc by exact Hfresh.
  do 2 f_equal. apply omap_lookup_other with (i := i); [exact Hfresh|].
  intros j Hne. rewrite Hf2, Hf, lookup_delete_ne by congruence.
  now apply lookup_insert_ne.
Qed.

(** * The statements on the sample data *)

Lemma deleteFile_absent_witness :
  files (db one_world) !! tpl (Some "zzz") = None
  ∧ deleteFile sample_config (Some "zzz") "1001" one_world = (Ok false, one_world).
Proof.
  assert (files (db one_world) !! tpl (Some "zzz") = None) as H by reflexivity.
  split; [exact H|]. exact (deleteFile_absent sample_config (Some "zzz") "1001" one_world H).
Defined.

Lemma deleteFile_permission_witness :
  files (db one_world) !! "abc" = Some (sample_file "abc" "2002" 3)
  ∧ deleteFile sample_config (Some "abc") "3003" one_world = (Ok false, one_world)
  ∧ ∃ w', deleteFile sample_config (Some "abc") "1001" one_world = (Ok true, w')
          ∧ files (db w') !! "abc" = None.
Proof.
  assert (files (db one_world) !! "abc" = Some (sample_file "abc" "2002" 3)) as H
    by reflexivity.
  split; [exact H|].
  destruct (deleteFile_permission sample_config "abc" "3003" one_world _ H) as [Hdenied _].
  destruct (deleteFile_permission sample_config "abc" "1001" one_world _ H) as [_ Hallowed].
  split.
  - apply Hdenied. intros [Hadmin|Howner]; [|discriminate].
    apply list_elem_of_singleton in Hadmin. discriminate.
  - destruct Hallowed as (w' & Hrun & Hgone & _).
    + left. apply list_elem_of_singleton. reflexivity.
    + exists w'. split; assumption.
Defined.


Lemma category_callback_stale_witness :
  (∀ s, sessions (db confirming_world) !! js_String 2002 = Some s →
        state s ≠ "awaiting_file_category")
  ∧ ∃ r w', handleCategoryCallback sample_config
              (button_press 2002 "category:documents") ["documents"] confirming_world
            = (r, w')
      ∧ sent w' = [AnswerCallbackQuery "4382bfdwdsb323b2d9"
                     (Some "This action is no longer valid.")]
      ∧ files (db w') = files (db confirming_world)
      ∧ sessions (db w') = sessions (db confirming_world).
Proof.
  assert (∀ s, sessions (db confirming_world) !! js_String 2002 = Some s →
               state s ≠ "awaiting_file_category") as Hstate.
  { intros s Hs. vm_compute in Hs. injection Hs as <-. discriminate. }
  split; [exact Hstate|].
  destruct (category_callback_stale sample_config
              (button_press 2002 "category:documents") ["documents"]
              confirming_world Hstate)
    as (r & w' & Hrun & Hsent & Hfiles & _ & _ & _ & _ & Hkept & _).
  exists r, w'. split; [exact Hrun|]. split; [exact Hsent|]. split; [exact Hfiles|].
  eapply Hkept. reflexivity.
Defined.



(** * The further statements on the sample data *)

Lemma saveFile_then_getUserFiles_witness :
  (secure_id (oracle one_world) (drawn one_world)
     ∉ default [] (userFiles (db one_world) !! "2002"))
  ∧ ∃ i w' before file,
      getUserFiles "2002" one_world = (Ok before, one_world)
      ∧ saveFile (Some sample_photo) "2002" (Some "photos") one_world = (Ok i, w')
      ∧ getUserFiles "2002" w' = (Ok (before ++ [file]), w').
Proof.
  assert (secure_id (oracle one_world) (drawn one_world)
            ∉ default [] (userFiles (db one_world) !! "2002")) as Hfresh.
  { refine (bool_decide_eq_true_1 _ _). vm_compute. reflexivity. }
  split; [exact Hfresh|].
  destruct (saveFile_then_getUserFiles (Some sample_photo) "2002" (Some "photos")
              one_world Hfresh) as (i & w' & before & file & H1 & H2 & _ & H4).
  exists i, w', before, file. repeat split; assumption.
Defined.

Lemma saveFile_then_deleteFile_witness :
  files (db one_world) !! secure_id (oracle one_world) (drawn one_world) = None
  ∧ ∃ w1 w2,
      saveFile (Some sample_photo) "2002" (Some "documents") one_world
      = (Ok "9f86d081884c7d659a2feaa0c55ad015", w1)
      ∧ deleteFile sample_config (Some "9f86d081884c7d659a2feaa0c55ad015") "2002" w1
        = (Ok true, w2)
      ∧ files (db w2) = files (db one_world).
Proof.
  assert (files (db one_world) !! secure_id (oracle one_world) (drawn one_world) = None)
    as Hnew by reflexivity.
  split; [exact Hnew|].
  destruct (saveFile_then_deleteFile sample_config (Some sample_photo) "2002"
              (Some "documents") one_world Hnew) as (w1 & w2 & H1 & H2 & H3 & _).
  - refine (bool_decide_eq_true_1 _ _). vm_compute. reflexivity.
  - refine (bool_decide_eq_true_1 _ _). vm_compute. reflexivity.
  - exists w1, w2. repeat split; assumption.
Defined.

Lemma deleteFile_then_getUserFiles_witness :
  files (db one_world) !! "abc" = Some (sample_file "abc" "2002" 3)
  ∧ ∃ w', deleteFile sample_config (Some "abc") "2002" one_world = (Ok true, w')
      ∧ getUserFiles "2002" w' = (Ok [], w').
Proof.
  assert (files (db one_world) !! "abc" = Some (sample_file "abc" "2002" 3)) as Hfile
    by reflexivity.
  split; [exact Hfile|].
  destruct (deleteFile_then_getUserFiles sample_config "abc" "2002" one_world _ Hfile
              (or_intror eq_refl)) as (w' & Hdel & Hlist).
  exists w'. split; [exact Hdel|].
  change (savedBy (sample_file "abc" "2002" 3)) with "2002" in Hlist.
  rewrite Hlist. reflexivity.
Defined.

Lemma trackAction_counts_witness :
  Object_prototype "3003" = None ∧ Object_prototype "message" = None
  ∧ ∃ w' after,
      trackAction sample_config sample_dates "3003" "message" one_world = (Ok (), w')
      ∧ stats (db w') = Some after
      ∧ actions after !! "message" = Some 1
      ∧ totalOf (actions after) = 1.
Proof.
  split; [reflexivity|]. split; [reflexivity|].
  pose proof (trackAction_counts sample_config sample_dates "3003" "message" one_world
                eq_refl eq_refl) as Hcounts.
  cbv beta iota zeta delta [ANALYTICS_ENABLED sample_config] in Hcounts.
  destruct Hcounts as (w' & after & Hrun & Hstats & Haction & _ & _ & _ & Htotal & _).
  exists w', after. split; [exact Hrun|]. split; [exact Hstats|].
  split; [exact Haction|]. rewrite Htotal. reflexivity.
Defined.

Lemma processMessage_cancel_witness :
  sessions (db confirming_world) !! "2002"
  = Some {| userId := "2002"; state := "awaiting_delete_confirm";
            data := pendingDelete "abc";
            s_createdAt := 1699999990000; lastActive := 1699999999000 |}
  ∧ ∃ r w' s',
      processMessage sample_config sample_dates sample_dates
        (text_message 2002 "/Cancel") confirming_world = (r, w')
      ∧ sessions (db w') !! "2002" = Some s' ∧ state s' = "idle"
      ∧ files (db w') = files (db confirming_world)
      ∧ sent w' = [SendMessage 2002 "Current operation canceled." None].
Proof.
  assert (sessions (db confirming_world) !! "2002"
          = Some {| userId := "2002"; state := "awaiting_delete_confirm";
                    data := pendingDelete "abc";
                    s_createdAt := 1699999990000; lastActive := 1699999999000 |})
    as Hsession by reflexivity.
  split; [exact Hsession|].
  destruct (processMessage_cancel sample_config sample_dates sample_dates
              (text_message 2002 "/Cancel") confirming_world _ Hsession)
    as (r & w' & s' & Hrun & Hs & Hstate & _ & Hfiles & _ & _ & Hsent).
  - discriminate.
  - reflexivity.
  - exists r, w', s'. repeat split; assumption.
Defined.


Lemma processMessage_category_cancel_witness :
  toLowerCase (trim " Cancel ") = "cancel"
  ∧ ∃ r w' s',
      processMessage sample_config sample_dates sample_dates
        (text_message 2002 " Cancel ") awaiting_world = (r, w')
      ∧ files (db w') = files (db awaiting_world)
      ∧ sessions (db w') !! "2002" = Some s' ∧ state s' = "idle"
      ∧ sent w' = [SendMessage 2002 "File saving canceled." None].
Proof.
  assert (toLowerCase (trim " Cancel ") = "cancel") as Hcancel by reflexivity.
  split; [exact Hcancel|].
  destruct (processMessage_category_cancel sample_config sample_dates sample_dates
              (text_message 2002 " Cancel ") awaiting_world
              {| userId := "2002"; state := "awaiting_file_category";
                 data := pending 41 (sample_data "document" "report");
                 s_createdAt := 1699999990000; lastActive := 1699999999000 |}
              " Cancel " eq_refl eq_refl eq_refl Hcancel)
    as (r & w' & s' & Hrun & Hfiles & _ & _ & Hs & Hstate & _ & _ & Hsent).
  exists r, w', s'. repeat split; assumption.
Defined.

Lemma processMessage_save_unauthorized_witness :
  isAdmin sample_config "3003" = false
  ∧ ∃ r w',
      processMessage sample_config sample_dates sample_dates
        (text_message 3003 "/save") idle_world = (r, w')
      ∧ files (db w') = files (db idle_world)
      ∧ sessions (db w') = sessions (db idle_world)
      ∧ sent w' = [SendMessage 3003 "❌ Unauthorized. Only admins can save files." None].
Proof.
  assert (isAdmin sample_config "3003" = false) as Hadmin by reflexivity.
  split; [exact Hadmin|].
  destruct (processMessage_save_unauthorized sample_config sample_dates sample_dates
              (text_message 3003 "/save") idle_world (idle_session "3003") EmptyString
              eq_refl eq_refl eq_refl Hadmin)
    as (r & w' & Hrun & Hfiles & _ & _ & Hsessions & Hsent).
  exists r, w'. repeat split; assumption.
Defined.

Lemma handleSave_arms_witness :
  extractFileData (Telegram.media (photo_message 2002)) = Some sample_photo
  ∧ ∃ r w' s', handleSave sample_config save_reply idle_world = (r, w')
      ∧ sessions (db w') !! "1001" = Some s'
      ∧ state s' = "awaiting_file_category"
      ∧ pendingFile (data s') = Some sample_photo
      ∧ files (db w') = files (db idle_world).
Proof.
  assert (extractFileData (Telegram.media (photo_message 2002)) = Some sample_photo)
    as Hdata by reflexivity.
  split; [exact Hdata|].
  destruct (handleSave_arms sample_config save_reply idle_world
              (Telegram.media (photo_message 2002)) sample_photo
              eq_refl eq_refl Hdata)
    as (r & w' & s' & Hrun & Hs & Hstate & Hd & Hfiles & _).
  exists r, w', s'. split; [exact Hrun|]. split; [exact Hs|]. split; [exact Hstate|].
  split; [now rewrite Hd|exact Hfiles].
Defined.

Lemma processMessage_delete_declined_witness :
  toLowerCase (trim "no") ≠ "confirm"
  ∧ ∃ r w' s',
      processMessage sample_config sample_dates sample_dates
        (text_message 2002 "no") confirming_world = (r, w')
      ∧ files (db w') = files (db confirming_world)
      ∧ sessions (db w') !! "2002" = Some s' ∧ state s' = "idle"
      ∧ sent w' = [SendMessage 2002 "File deletion canceled." None].
Proof.
  assert (toLowerCase (trim "no") ≠ "confirm") as Hno by discriminate.
  split; [exact Hno|].
  destruct (processMessage_delete_declined sample_config sample_dates sample_dates
              (text_message 2002 "no") confirming_world
              {| userId := "2002"; state := "awaiting_delete_confirm";
                 data := pendingDelete "abc";
                 s_createdAt := 1699999990000; lastActive := 1699999999000 |}
              "no" eq_refl eq_refl eq_refl)
    as (r & w' & s' & Hrun & Hfiles & _ & _ & Hs & Hstate & _ & Hsent).
  - discriminate.
  - exact Hno.
  - exists r, w', s'. repeat split; assumption.
Defined.

Lemma processMessage_delete_confirmed_witness :
  toLowerCase (trim "Confirm ") = "confirm"
  ∧ ∃ r w',
      processMessage sample_config sample_dates sample_dates
        (text_message 2002 "Confirm ") confirming_world = (r, w')
      ∧ files (db w') !! "abc" = None
      ∧ userFiles (db w') !! "2002" = Some []
      ∧ sent w' = [SendMessage 2002 "✅ File deleted successfully." None].
Proof.
  assert (toLowerCase (trim "Confirm ") = "confirm") as Hconfirm by reflexivity.
  split; [exact Hconfirm|].
  destruct (processMessage_delete_confirmed sample_config sample_dates sample_dates
              (text_message 2002 "Confirm ") confirming_world
              {| userId := "2002"; state := "awaiting_delete_confirm";
                 data := pendingDelete "abc";
                 s_createdAt := 1699999990000; lastActive := 1699999999000 |}
              "Confirm " "abc" (sample_file "abc" "2002" 3)
              eq_refl eq_refl eq_refl eq_refl (or_intror eq_refl) eq_refl Hconfirm)
    as (r & w' & s' & Hrun & Hfiles & Hindex & _ & _ & _ & Hsent).
  exists r, w'. split; [exact Hrun|].
  split; [rewrite Hfiles; apply lookup_delete_eq|].
  split; [|exact Hsent].
  change (savedBy (sample_file "abc" "2002" 3)) with "2002" in Hindex.
  rewrite Hindex. reflexivity.
Defined.

Lemma parseCommand_shape_witness :
  parseCommand "/Start@FileStoreBot   post=abc " = Some ("start", "post=abc")
  ∧ trim "post=abc" = "post=abc" ∧ has_line_terminator "post=abc" = false.
Proof.
  assert (parseCommand "/Start@FileStoreBot   post=abc " = Some ("start", "post=abc"))
    as Hparse by reflexivity.
  split; [exact Hparse|].
  destruct (parseCommand_shape _ _ _ Hparse) as (_ & _ & _ & _ & Htrim & Hline).
  split; assumption.
Defined.

Lemma parseCommand_accepts_witness :
  string_forall is_word "Delete" = true
  ∧ parseCommand "/Delete@FileStoreBot  abc " = Some ("delete", "abc").
Proof.
  split; [reflexivity|].
  destruct (parseCommand_accepts "Delete" "FileStoreBot" "  abc "
              eq_refl eq_refl eq_refl eq_refl eq_refl) as [Hplain Hmention].
  change ("/" +:+ "Delete" +:+ "@" +:+ "FileStoreBot" +:+ "  abc ")
    with "/Delete@FileStoreBot  abc " in Hmention.
  rewrite Hmention, Hplain. reflexivity.
Defined.

Lemma saved_file_retrievable_witness :
  secure_id (oracle one_world) (drawn one_world) = hexOfBytes sample_bytes
  ∧ ∃ w1 r w',
      saveFile (Some sample_photo) "1001" (Some "photos") one_world
      = (Ok "9f86d081884c7d659a2feaa0c55ad015", w1)
      ∧ handleStart (text_message 3003 "/start post=9f86d081884c7d659a2feaa0c55ad015")
          "post=9f86d081884c7d659a2feaa0c55ad015" w1 = (r, w')
      ∧ sent w' = [SendPhoto 3003 "AgACAgIAAxkBAAIC" None].
Proof.
  assert (secure_id (oracle one_world) (drawn one_world) = hexOfBytes sample_bytes)
    as Hdrawn by reflexivity.
  split; [exact Hdrawn|].
  destruct (saved_file_retrievable sample_photo "1001" (Some "photos") sample_bytes
              (text_message 3003 "/start post=9f86d081884c7d659a2feaa0c55ad015")
              one_world) as (_ & w1 & Hsave & r & w' & c & Hrun & Hc & Hsent & _).
  - discriminate.
  - exact Hdrawn.
  - apply list_elem_of_further, list_elem_of_here.
  - exists w1, r, w'. split; [exact Hsave|]. split; [exact Hrun|].
    rewrite Hsent. inversion Hc; try discriminate. reflexivity.
Defined.

Lemma confirm_callback_deletes_witness :
  api_ok (oracle one_world) (length (sent one_world)) = true
  ∧ ∃ r w',
      handleConfirmCallback sample_config (button_press 2002 "confirm:delete:abc")
        ["delete"; "abc"] one_world = (r, w')
      ∧ files (db w') !! "abc" = None
      ∧ length (sent w') = 2%nat.
Proof.
  assert (api_ok (oracle one_world) (length (sent one_world)) = true) as Hok
    by reflexivity.
  split; [exact Hok|].
  destruct (confirm_callback_deletes sample_config
              (button_press 2002 "confirm:delete:abc") "abc" []
              (sample_file "abc" "2002" 3) one_world eq_refl Hok)
    as (r & w' & Hrun & _ & Hdone).
  change (bool_decide (js_String (Telegram.cq_from_id
                         (button_press 2002 "confirm:delete:abc"))
                       ∈ ADMIN_IDS sample_config)
          || bool_decide (savedBy (sample_file "abc" "2002" 3)
                          = js_String (Telegram.cq_from_id
                                         (button_press 2002 "confirm:delete:abc"))))
    with true in Hdone.
  destruct Hdone as (Hfiles & _ & _ & Hsent).
  exists r, w'. split; [exact Hrun|].
  split; [rewrite Hfiles; apply lookup_delete_eq|now rewrite Hsent].
Defined.

Lemma callback_without_handler_witness :
  callbackHandlers sample_config sample_dates "help" = None
  ∧ ∃ r w',
      processCallbackQuery sample_config sample_dates sample_dates
        (button_press 3003 "help:view") one_world = (r, w')
      ∧ files (db w') = files (db one_world)
      ∧ sent w' = [AnswerCallbackQuery "4382bfdwdsb323b2d9"
                     (Some "Sorry, I couldn't process this action.")].
Proof.
  assert (callbackHandlers sample_config sample_dates "help" = None) as Hnone
    by reflexivity.
  split; [exact Hnone|].
  destruct (callback_without_handler sample_config sample_dates sample_dates
              (button_press 3003 "help:view") "help:view" one_world eq_refl Hnone)
    as (r & w' & Hrun & Hfiles & _ & _ & _ & Hsent).
  exists r, w'. repeat split; assumption.
Defined.

Lemma category_callback_saves_witness :
  api_ok (oracle awaiting_world) (length (sent awaiting_world)) = true
  ∧ ∃ r w' file,
      handleCategoryCallback sample_config (button_press 2002 "category:photos")
        ["photos"] awaiting_world = (r, w')
      ∧ files (db w') !! "9f86d081884c7d659a2feaa0c55ad015" = Some file
      ∧ category file = "photos" ∧ savedBy file = "2002"
      ∧ length (sent w') = 2%nat.
Proof.
  split; [reflexivity|].
  destruct (category_callback_saves sample_config (button_press 2002 "category:photos")
              "photos" []
              {| userId := "2002"; state := "awaiting_file_category";
                 data := pending 41 (sample_data "document" "report");
                 s_createdAt := 1699999990000; lastActive := 1699999999000 |}
              awaiting_world eq_refl eq_refl)
    as (r & w' & Hrun & Hdone).
  change (api_ok (oracle awaiting_world) (length (sent awaiting_world))) with true in Hdone.
  change (bool_decide ("photos" = "cancel")) with false in Hdone.
  destruct Hdone as (_ & Hfiles & _ & _ & Hsent).
  exists r, w'. eexists. split; [exact Hrun|].
  split; [rewrite Hfiles; apply lookup_insert_eq|].
  split; [reflexivity|]. split; [reflexivity|]. now rewrite Hsent.
Defined.

Lemma pages_cover_witness :
  0 < 5
  ∧ pageFiles seven_files 1 5 ++ pageFiles seven_files 2 5 = seven_files
  ∧ pageFiles seven_files 3 5 = [].
Proof.
  assert (0 < 5) as Hsize by reflexivity.
  split; [exact Hsize|].
  destruct (pages_cover sample_dates seven_files 5 Hsize) as (Hcover & _ & Hpast & _).
  split.
  - etransitivity; [|exact Hcover]. vm_compute. reflexivity.
  - apply Hpast. reflexivity.
Defined.

Lemma file_list_past_the_end_witness :
  parseInt "3" = Some 3 ∧ 3 * 5 ≤ MAX_SAFE_INTEGER
  ∧ ∃ r w' body,
      handleFileCallback sample_config sample_dates (button_press 2002 "file:list:3")
        ["list"; "3"] seven_world = (r, w')
      ∧ sent w' = [AnswerCallbackQuery "4382bfdwdsb323b2d9" None;
                   EditMessageText 2002 42 body (Some [[previousButton 3]])].
Proof.
  assert (parseInt "3" = Some 3) as Hparse by reflexivity.
  split; [exact Hparse|]. split; [vm_compute; discriminate|].
  destruct (file_list_past_the_end sample_config sample_dates
              (button_press 2002 "file:list:3") "3" 3 seven_world Hparse)
    as (r & w' & Hrun & _ & Hsent).
  - vm_compute. discriminate.
  - intros Hnone. vm_compute in Hnone. discriminate.
  - vm_compute. discriminate.
  - reflexivity.
  - exists r, w'. eexists. split; [exact Hrun|]. rewrite Hsent. reflexivity.
Defined.

Lemma processMessage_keeps_records_witness :
  sessions (db one_world) !! "3003" = None
  ∧ ∃ r w',
      processMessage sample_config sample_dates sample_dates
        (text_message 3003 "/start post=abc") one_world = (r, w')
      ∧ dom (files (db w')) = dom (files (db one_world))
      ∧ userFiles (db w') = userFiles (db one_world).
Proof.
  assert (sessions (db one_world) !! "3003" = None) as Hnone by reflexivity.
  split; [exact Hnone|].
  destruct (processMessage_keeps_records sample_config sample_dates sample_dates
              (text_message 3003 "/start post=abc") one_world)
    as (r & w' & Hrun & Hdom & Hindex & _).
  - intros session Hsession.
    change (sessions (db one_world) !! js_String (Telegram.from_id
              (text_message 3003 "/start post=abc")))
      with (sessions (db one_world) !! "3003") in Hsession.
    rewrite Hnone in Hsession. discriminate.
  - exists r, w'. repeat split; assumption.
Defined.

Lemma processMessage_attachment_witness :
  hasAttachment (Telegram.media (photo_message 1001)) = true
  ∧ ∃ r w' s',
      processMessage sample_config sample_dates sample_dates
        (photo_message 1001) idle_world = (r, w')
      ∧ files (db w') = files (db idle_world)
      ∧ sessions (db w') !! "1001" = Some s'
      ∧ state s' = "awaiting_file_category"
      ∧ data s' = pending 43 sample_photo.
Proof.
  assert (hasAttachment (Telegram.media (photo_message 1001)) = true) as Hattached
    by reflexivity.
  split; [exact Hattached|].
  destruct (processMessage_attachment sample_config sample_dates sample_dates
              (photo_message 1001) (idle_session "1001") idle_world
              eq_refl eq_refl eq_refl Hattached)
    as (r & w' & Hrun & Hfiles & _ & _ & Hdone).
  change (isAdmin sample_config (js_String (Telegram.from_id (photo_message 1001))))
    with true in Hdone.
  change (extractFileData (Telegram.media (photo_message 1001)))
    with (Some sample_photo) in Hdone.
  destruct Hdone as ((s' & Hs & Hstate & Hdata) & _).
  exists r, w', s'. repeat split; assumption.
Defined.

Lemma saveFile_then_getFilesByCategory_witness :
  (secure_id (oracle one_world) (drawn one_world)
     ∉ default [] (categories (db one_world) !! "documents"))
  ∧ ∃ w1 file,
      saveFile (Some sample_photo) "2002" (Some "documents") one_world
      = (Ok "9f86d081884c7d659a2feaa0c55ad015", w1)
      ∧ getFilesByCategory "documents" w1
        = (Ok [sample_file "abc" "2002" 3; file], w1)
      ∧ id file = "9f86d081884c7d659a2feaa0c55ad015".
Proof.
  assert (secure_id (oracle one_world) (drawn one_world)
            ∉ default [] (categories (db one_world) !! "documents")) as Hfresh.
  { refine (bool_decide_eq_true_1 _ _). vm_compute. reflexivity. }
  split; [exact Hfresh|].
  destruct (saveFile_then_getFilesByCategory sample_config (Some sample_photo) "2002"
              (Some "documents") one_world Hfresh)
    as (before & w1 & file & w2 & Hbefore & Hsave & Hlist & Hid & _).
  exists w1, file. split; [exact Hsave|]. split; [|exact Hid].
  change (default "general" (Some "documents")) with "documents" in Hlist, Hbefore.
  rewrite Hlist. rewrite getFilesByCategory_run in Hbefore.
  injection Hbefore as <-. reflexivity.
Defined.
